(** * Stitch Cam: bus transport, display driver, capture and request flags

    A shallow embedding of the frame pipeline of the ESP32 camera firmware:

    - [DevConfig]   stitch_cam_v5/DEV_Config.cpp  (SPI transport, bulk session)
    - [LcdDriver]   stitch_cam_v5/LCD_Driver.cpp  (ST7789 window and fill)
    - [LcdManager]  stitch_cam_v4/lcd_manager.h   (frame streaming)
    - [Camera]      stitch_cam_v2/camera_manager.h (capture and decode)
    - [UI]          stitch_cam_v4/ui_manager.h    (button flags)
    - [Wire]        the bus log as the display controller reads it
    - [IntegrationV2] Integration_v2/DEV_Config.cpp (byte-wise transfer)
    - [CameraTask], [TaskManager] stitch_cam_v2/task_manager.h (camera task,
                    capture handlers)
    - [HardwareManager] stitch_cam_v4/hardware_manager.h (RGB LED)
    - [UI3]         stitch_cam_v3/ui_manager.h    (debounce in the ISR, countdown)
    - [Storage]     stitch_cam_v4/storage_manager.h (photo counter, file list)
    - [WiFi]        stitch_cam_v3/wifi_manager.h  (connect and reconnect)
    - [LcdText]     stitch_cam_v4/lcd_manager.h   (centred text)
    - [WebServer]   stitch_cam_v2/web_server.h    (the frame on offer)
    - [LcdDriverPlain] stitch_cam_v5/LCD_Driver.cpp without USE_DMA_TRANSFER

    Machine integers are [Z] with the wrap-around written out; arrays are
    lists updated by index; the global variables of each translation unit
    are the fields of a record that is threaded through the functions; the
    SPI bus is a log of events. *)

From Stdlib Require Import ZArith Lia Bool.
From stdpp Require Import base list strings.

Open Scope Z_scope.

(** ** Machine integers *)

Definition u8 (z : Z) : Z := z mod 256.
Definition u16 (z : Z) : Z := z mod 65536.
Definition u32 (z : Z) : Z := z mod 4294967296.

(** ** DEV_Config.cpp: the SPI transport *)

Module DevConfig.

Inductive pin := DEV_CS_PIN | DEV_DC_PIN | DEV_RST_PIN | DEV_BL_PIN.

(** What reaches the display bus, in the order it happens. *)
Inductive bus_event :=
| DigitalWrite (p : pin) (level : bool)   (* digitalWrite(p, level ? HIGH : LOW) *)
| BeginTransaction (hz : Z)               (* SPIlcd.beginTransaction(SPISettings(hz, MSBFIRST, SPI_MODE3)) *)
| Transfer (b : Z)                        (* SPIlcd.transfer(b) *)
| WriteBytes (data : list Z)              (* SPIlcd.writeBytes(data, len) *)
| EndTransaction.                         (* SPIlcd.endTransaction() *)

(** The file's static variables and the bus log. *)
Record dev := Dev {
  bulk_active : bool;          (* static bool bulk_active *)
  dmaBuffer : list Z;          (* static uint8_t dmaBuffer[DMA_BUFFER_SIZE] *)
  bus : list bus_event
}.

(** #define DMA_BUFFER_SIZE 16384 (DEV_Config.h) *)
Definition DMA_BUFFER_SIZE : Z := 16384.

Definition emit (evs : list bus_event) (d : dev) : dev :=
  Dev (bulk_active d) (dmaBuffer d) (bus d ++ evs).

Definition set_bulk_active (b : bool) (d : dev) : dev :=
  Dev b (dmaBuffer d) (bus d).

Definition set_dmaBuffer (buf : list Z) (d : dev) : dev :=
  Dev (bulk_active d) buf (bus d).

(** #define DEV_Digital_Write(_pin, _value) digitalWrite(_pin, (_value)?HIGH:LOW) *)
Definition DEV_Digital_Write (p : pin) (value : Z) (d : dev) : dev :=
  emit [DigitalWrite p (negb (value =? 0))] d.

(** What a read behind the end of an array gives: whatever the memory
    holds there, which is no element of the array.  It is marked by a value
    that no byte has. *)
Definition beyond : Z := -1.

(** A pointer argument [data] with a length [len]: the [len] bytes
    data[0 .. len-1].  The list is the array from the pointer on; a length
    that reaches behind its end reads [beyond] there, so the result always
    has [len] bytes. *)
Definition bytes_at (data : list Z) (len : Z) : list Z :=
  take (Z.to_nat len) data ++ replicate (Z.to_nat len - length data)%nat beyond.

Definition DEV_SPI_Write_DMA (data : list Z) (len : Z) (d : dev) : dev :=
  if len =? 0 then d
  else emit [BeginTransaction 80000000; WriteBytes (bytes_at data len); EndTransaction] d.

Definition DEV_SPI_Write_Bulk_Start (d : dev) : dev :=
  let d := DEV_Digital_Write DEV_CS_PIN 0 d in
  let d := DEV_Digital_Write DEV_DC_PIN 1 d in
  let d := emit [BeginTransaction 80000000] d in
  set_bulk_active true d.

Definition DEV_SPI_Write_Bulk_Data (data : list Z) (len : Z) (d : dev) : dev :=
  if (len =? 0) || negb (bulk_active d) then d
  else emit [WriteBytes (bytes_at data len)] d.

Definition DEV_SPI_Write_Bulk_End (d : dev) : dev :=
  if bulk_active d then
    let d := emit [EndTransaction] d in
    let d := DEV_Digital_Write DEV_CS_PIN 1 d in
    set_bulk_active false d
  else d.

Definition getDMABuffer (d : dev) : list Z := dmaBuffer d.

(** The state at program start: no session, nothing on the bus yet. *)
Definition power_on (buf : list Z) : dev := Dev false buf [].

(** *** Observations on the bus log *)

(** The payloads of the block writes, in order. *)
Fixpoint dma_chunks (evs : list bus_event) : list (list Z) :=
  match evs with
  | [] => []
  | WriteBytes data :: evs' => data :: dma_chunks evs'
  | _ :: evs' => dma_chunks evs'
  end.

(** All bytes sent by block writes. *)
Definition dma_bytes (evs : list bus_event) : list Z := concat (dma_chunks evs).

(** Number of times the chip select is driven high. *)
Fixpoint deasserts (evs : list bus_event) : nat :=
  match evs with
  | [] => 0%nat
  | DigitalWrite DEV_CS_PIN true :: evs' => S (deasserts evs')
  | _ :: evs' => deasserts evs'
  end.

End DevConfig.

(** ** LCD_Driver.cpp: the ST7789 driver *)

Module LcdDriver.
Import DevConfig.

Definition LCD_WIDTH : Z := 240.
Definition LCD_HEIGHT : Z := 320.
Definition HORIZONTAL : bool := false.

(** The parameters are UBYTE: the argument is truncated to eight bits. *)
Definition LCD_WriteData_Byte (da : Z) (d : dev) : dev :=
  let d := DEV_Digital_Write DEV_CS_PIN 0 d in
  let d := DEV_Digital_Write DEV_DC_PIN 1 d in
  let d := emit [BeginTransaction 60000000; Transfer (u8 da); EndTransaction] d in
  DEV_Digital_Write DEV_CS_PIN 1 d.

Definition LCD_WriteData_Word (da : Z) (d : dev) : dev :=
  let i := u8 (Z.land (Z.shiftr da 8) 255) in
  let d := DEV_Digital_Write DEV_CS_PIN 0 d in
  let d := DEV_Digital_Write DEV_DC_PIN 1 d in
  let d := emit [BeginTransaction 60000000; Transfer i; Transfer (u8 da); EndTransaction] d in
  DEV_Digital_Write DEV_CS_PIN 1 d.

Definition LCD_WriteReg (da : Z) (d : dev) : dev :=
  let d := DEV_Digital_Write DEV_CS_PIN 0 d in
  let d := DEV_Digital_Write DEV_DC_PIN 0 d in
  let d := emit [BeginTransaction 60000000; Transfer (u8 da); EndTransaction] d in
  DEV_Digital_Write DEV_CS_PIN 1 d.

(** Column range, row range, then the memory-write command.  The two
    branches on HORIZONTAL are the same text in the source. *)
Definition LCD_SetCursor (Xstart Ystart Xend Yend : Z) (d : dev) : dev :=
  let d :=
    if HORIZONTAL then
      let d := LCD_WriteReg 42 d in
      let d := LCD_WriteData_Byte (Z.shiftr Xstart 8) d in
      let d := LCD_WriteData_Byte Xstart d in
      let d := LCD_WriteData_Byte (Z.shiftr Xend 8) d in
      let d := LCD_WriteData_Byte Xend d in
      let d := LCD_WriteReg 43 d in
      let d := LCD_WriteData_Byte (Z.shiftr Ystart 8) d in
      let d := LCD_WriteData_Byte Ystart d in
      let d := LCD_WriteData_Byte (Z.shiftr Yend 8) d in
      LCD_WriteData_Byte Yend d
    else
      let d := LCD_WriteReg 42 d in
      let d := LCD_WriteData_Byte (Z.shiftr Xstart 8) d in
      let d := LCD_WriteData_Byte Xstart d in
      let d := LCD_WriteData_Byte (Z.shiftr Xend 8) d in
      let d := LCD_WriteData_Byte Xend d in
      let d := LCD_WriteReg 43 d in
      let d := LCD_WriteData_Byte (Z.shiftr Ystart 8) d in
      let d := LCD_WriteData_Byte Ystart d in
      let d := LCD_WriteData_Byte (Z.shiftr Yend 8) d in
      LCD_WriteData_Byte Yend d in
  LCD_WriteReg 44 d.

Definition LCD_SetUWORD (x y Color : Z) (d : dev) : dev :=
  LCD_WriteData_Word Color (LCD_SetCursor x y x y d).

Section Chunked.

(** The size of the transfer buffer is a macro of DEV_Config.h (16384 in
    stitch_cam_v5, 8192 in LCD_1inch9_DMA); the fill routines are stated
    for any value of it.  [dmaBuffer] has that many bytes. *)
Variable DMA_BUFFER_SIZE : Z.

(** for (uint16_t i = 0; i < DMA_BUFFER_SIZE; i += 2)
      { dmaBuffer[i] = colorHigh; dmaBuffer[i + 1] = colorLow; }

    [i] is a 16-bit counter, so [i += 2] wraps at 65536.  A store beyond
    the end of the array (the second store of the last round when the size
    is odd) is outside the buffer and is never transmitted: the list
    update leaves the buffer as it is. *)
Fixpoint fill_loop (fuel : nat) (colorHigh colorLow : Z) (i : Z) (buf : list Z)
  : option (list Z) :=
  match fuel with
  | O => None
  | S fuel' =>
      if i <? DMA_BUFFER_SIZE then
        let buf := <[Z.to_nat i := colorHigh]> buf in
        let buf := <[Z.to_nat (i + 1) := colorLow]> buf in
        fill_loop fuel' colorHigh colorLow (u16 (i + 2)) buf
      else Some buf
  end.

(** while (remaining > 0) {
      chunkSize = (remaining > DMA_BUFFER_SIZE) ? DMA_BUFFER_SIZE : remaining;
      DEV_SPI_Write_DMA(dmaBuffer, chunkSize);
      remaining -= chunkSize; } *)
Fixpoint send_loop (fuel : nat) (remaining : Z) (d : dev) : option dev :=
  match fuel with
  | O => None
  | S fuel' =>
      if 0 <? remaining then
        let chunkSize := if DMA_BUFFER_SIZE <? remaining then DMA_BUFFER_SIZE else remaining in
        let d := DEV_SPI_Write_DMA (getDMABuffer d) chunkSize d in
        send_loop fuel' (u32 (remaining - chunkSize)) d
      else Some d
  end.

(** The body shared by LCD_Clear and LCD_ClearWindow under
    USE_DMA_TRANSFER, from the chip select going low to it going high.
    [None]: a loop did not finish within [fuel] rounds. *)
Definition fill_and_send (fuel : nat) (totalBytes color : Z) (d : dev) : option dev :=
  let d := DEV_Digital_Write DEV_CS_PIN 0 d in
  let d := DEV_Digital_Write DEV_DC_PIN 1 d in
  let colorHigh := u8 (Z.shiftr color 8) in
  let colorLow := u8 (Z.land color 255) in
  match fill_loop fuel colorHigh colorLow 0 (getDMABuffer d) with
  | None => None
  | Some buf =>
      let d := set_dmaBuffer buf d in
      match send_loop fuel totalBytes d with
      | None => None
      | Some d => Some (DEV_Digital_Write DEV_CS_PIN 1 d)
      end
  end.

Definition LCD_Clear (fuel : nat) (Color : Z) (d : dev) : option dev :=
  let totalPixels := u32 (LCD_WIDTH * LCD_HEIGHT) in
  let totalBytes := u32 (totalPixels * 2) in
  let d := LCD_SetCursor 0 0 (u16 (LCD_WIDTH - 1)) (u16 (LCD_HEIGHT - 1)) d in
  fill_and_send fuel totalBytes Color d.

(** Xend and Yend are one past the last column and row: the address
    window is set to Xstart .. Xend-1 by Ystart .. Yend-1. *)
Definition LCD_ClearWindow (fuel : nat) (Xstart Ystart Xend Yend color : Z) (d : dev)
  : option dev :=
  let width := u32 (Xend - Xstart) in
  let height := u32 (Yend - Ystart) in
  let totalPixels := u32 (width * height) in
  let totalBytes := u32 (totalPixels * 2) in
  let d := LCD_SetCursor Xstart Ystart (u16 (Xend - 1)) (u16 (Yend - 1)) d in
  fill_and_send fuel totalBytes color d.

End Chunked.

(** [n] copies of the byte pair [hi; lo]. *)
Definition pixel_pairs (hi lo : Z) (n : nat) : list Z :=
  concat (replicate n [hi; lo]).

(** The pixel stream of a solid fill: [n] pixels, high byte first. *)
Definition solid_pixels (color : Z) (n : nat) : list Z :=
  pixel_pairs (u8 (Z.shiftr color 8)) (u8 (Z.land color 255)) n.

End LcdDriver.

(** ** config.h: CameraConfig

    The values are those of stitch_cam_v2/config.h, the one config.h among
    the sources. *)

Module CameraConfig.

Definition FRAME_WIDTH : Z := 320.
Definition FRAME_HEIGHT : Z := 240.
Definition FRAME_BUFFER_SIZE : Z := FRAME_WIDTH * FRAME_HEIGHT * 2.
Definition MAX_JPEG_SIZE : Z := 32768.

End CameraConfig.

(** ** lcd_manager.h: streaming a frame to the display *)

Module LcdManager.
Import DevConfig LcdDriver.

(** for (uint32_t offset = 0; offset < totalBytes; offset += chunkSize) {
      uint32_t size = min(chunkSize, totalBytes - offset);
      DEV_SPI_Write_Bulk_Data(frameBuffer + offset, size); } *)
Fixpoint frame_loop (fuel : nat) (frameBuffer : list Z) (totalBytes chunkSize offset : Z)
  (d : dev) : option dev :=
  match fuel with
  | O => None
  | S fuel' =>
      if offset <? totalBytes then
        let size := Z.min chunkSize (u32 (totalBytes - offset)) in
        let d := DEV_SPI_Write_Bulk_Data (drop (Z.to_nat offset) frameBuffer) size d in
        frame_loop fuel' frameBuffer totalBytes chunkSize (u32 (offset + chunkSize)) d
      else Some d
  end.

(** [frameBuffer = None] is the null pointer. *)
Definition displayFrame (fuel : nat) (frameBuffer : option (list Z)) (d : dev) : option dev :=
  match frameBuffer with
  | None => Some d
  | Some fb =>
      let d := LCD_SetCursor 0 0 (u16 (CameraConfig.FRAME_WIDTH - 1))
                 (u16 (CameraConfig.FRAME_HEIGHT - 1)) d in
      let d := DEV_SPI_Write_Bulk_Start d in
      let totalBytes := u32 (CameraConfig.FRAME_WIDTH * CameraConfig.FRAME_HEIGHT * 2) in
      let chunkSize := DMA_BUFFER_SIZE in
      match frame_loop fuel fb totalBytes chunkSize 0 d with
      | None => None
      | Some d => Some (DEV_SPI_Write_Bulk_End d)
      end
  end.

(** The sizes of the pieces the loop cuts [totalBytes] into. *)
Fixpoint chunk_sizes (fuel : nat) (totalBytes chunkSize offset : Z) : list Z :=
  match fuel with
  | O => []
  | S fuel' =>
      if offset <? totalBytes then
        Z.min chunkSize (u32 (totalBytes - offset))
          :: chunk_sizes fuel' totalBytes chunkSize (u32 (offset + chunkSize))
      else []
  end.

End LcdManager.

(** ** camera_manager.h: capture and decode *)

Module Camera.
Import CameraConfig.

(** Calls into the ArduCAM object and the sensor's SPI bus. *)
Inductive cam_op :=
| FlushFifo | ClearFifoFlag | StartCapture
| CsLow | SetFifoBurst | CsHigh
| SpiTransfer (out : Z).

(** Lines printed through DEBUG_PRINT*. *)
Inductive debug_msg :=
| MsgCaptureTimeout
| MsgInvalidSize (n : Z)
| MsgCaptured (n : Z)
| MsgDecodeFailed (code : Z).

(** What the sensor answers during one capture. *)
Record sensor := Sensor {
  cap_done : nat -> bool;   (* k-th read of get_bit(ARDUCHIP_TRIG, CAP_DONE_MASK) *)
  fifo_length : Z;          (* read_fifo_length() *)
  fifo_data : nat -> Z      (* i-th SPI.transfer(0x00) of the burst read *)
}.

(** One call of the output callback by the JPEG decoder. *)
Record mcu_block := Block {
  blk_x : Z; blk_y : Z; blk_w : Z; blk_h : Z; blk_bitmap : list Z
}.

Definition JDR_OK : Z := 0.

(** The static members of CameraManager, the millisecond clock read by
    millis(), and the two logs. *)
Record cam := Cam {
  isAvailable : bool;
  jpegBuffer : list Z;       (* uint8_t jpegBuffer[MAX_JPEG_SIZE] *)
  jpegLength : Z;            (* volatile uint32_t jpegLength *)
  frameBuffer : list Z;      (* uint8_t frameBuffer[FRAME_BUFFER_SIZE] *)
  now : Z;                   (* millis(), 32 bits *)
  sensor_log : list cam_op;
  serial : list debug_msg
}.

Definition set_jpegBuffer (buf : list Z) (st : cam) : cam :=
  Cam (isAvailable st) buf (jpegLength st) (frameBuffer st) (now st) (sensor_log st) (serial st).

Definition set_jpegLength (n : Z) (st : cam) : cam :=
  Cam (isAvailable st) (jpegBuffer st) n (frameBuffer st) (now st) (sensor_log st) (serial st).

Definition set_frameBuffer (fb : list Z) (st : cam) : cam :=
  Cam (isAvailable st) (jpegBuffer st) (jpegLength st) fb (now st) (sensor_log st) (serial st).

Definition call (op : cam_op) (st : cam) : cam :=
  Cam (isAvailable st) (jpegBuffer st) (jpegLength st) (frameBuffer st) (now st)
      (sensor_log st ++ [op]) (serial st).

Definition print (m : debug_msg) (st : cam) : cam :=
  Cam (isAvailable st) (jpegBuffer st) (jpegLength st) (frameBuffer st) (now st)
      (sensor_log st) (serial st ++ [m]).

(** delay(ms): the only thing that moves the clock in this model. *)
Definition delay (ms : Z) (st : cam) : cam :=
  Cam (isAvailable st) (jpegBuffer st) (jpegLength st) (frameBuffer st) (u32 (now st + ms))
      (sensor_log st) (serial st).

(** Milliseconds on the clock since [t0], as the unsigned subtraction
    [millis() - t0] computes it. *)
Definition elapsed (t0 : Z) (st : cam) : Z := u32 (now st - t0).

(** memset(buf, 0, n) *)
Definition memset0 (buf : list Z) (n : Z) : list Z :=
  replicate (Z.to_nat n) 0 ++ drop (Z.to_nat n) buf.

(** *** tjpgCallback *)

(** The inner loop over [col], [n] rounds left. *)
Fixpoint callback_cols (n : nat) (x y w row col : Z) (bitmap fb : list Z) : list Z :=
  match n with
  | O => fb
  | S n' =>
      if FRAME_WIDTH <=? x + col then fb
      else
        let dstIdx := u32 (((y + row) * FRAME_WIDTH + (x + col)) * 2) in
        let pixel := nth (Z.to_nat (row * w + col)) bitmap 0 in
        let fb := <[Z.to_nat dstIdx := u8 (Z.shiftr pixel 8)]> fb in
        let fb := <[Z.to_nat (u32 (dstIdx + 1)) := u8 (Z.land pixel 255)]> fb in
        callback_cols n' x y w row (col + 1) bitmap fb
  end.

(** The outer loop over [row], [n] rounds left. *)
Fixpoint callback_rows (n : nat) (x y w row : Z) (bitmap fb : list Z) : list Z :=
  match n with
  | O => fb
  | S n' =>
      if FRAME_HEIGHT <=? y + row then fb
      else
        let fb := callback_cols (Z.to_nat w) x y w row 0 bitmap fb in
        callback_rows n' x y w (row + 1) bitmap fb
  end.

(** Always returns true; the result is the frame buffer. *)
Definition tjpgCallback (b : mcu_block) (fb : list Z) : list Z :=
  callback_rows (Z.to_nat (blk_h b)) (blk_x b) (blk_y b) (blk_w b) 0 (blk_bitmap b) fb.

Section Hardware.

Variable hw : sensor.

(** TJpgDec.drawJpg(0, 0, jpegBuffer, jpegLength) belongs to the
    TJpg_Decoder library: it is taken as any function from the compressed
    bytes to the blocks it hands to the callback, in order, and its result
    code. *)
Variable drawJpg : list Z -> Z -> list mcu_block * Z.

(** while (!camera->get_bit(ARDUCHIP_TRIG, CAP_DONE_MASK)) {
      if (millis() - startTime > 1000) { print; return false; }
      delay(1); }

    [k] counts the reads of the trigger register.  [Some (true, _)]: the
    loop was left with the flag set; [Some (false, _)]: the function
    returned from inside the loop. *)
Fixpoint wait_done (fuel : nat) (startTime : Z) (k : nat) (st : cam) : option (bool * cam) :=
  match fuel with
  | O => None
  | S fuel' =>
      if cap_done hw k then Some (true, st)
      else if 1000 <? u32 (now st - startTime) then Some (false, print MsgCaptureTimeout st)
      else wait_done fuel' startTime (S k) (delay 1 st)
  end.

(** for (uint32_t i = 0; i < jpegLength; i++) jpegBuffer[i] = SPI.transfer(0x00); *)
Fixpoint read_fifo (n : nat) (i : nat) (st : cam) : cam :=
  match n with
  | O => st
  | S n' =>
      let st := call (SpiTransfer 0) st in
      let st := set_jpegBuffer (<[i := u8 (fifo_data hw i)]> (jpegBuffer st)) st in
      read_fifo n' (S i) st
  end.

Definition captureJPEG (fuel : nat) (st : cam) : option (bool * cam) :=
  if negb (isAvailable st) then Some (false, st)
  else
    let st := call FlushFifo st in
    let st := call ClearFifoFlag st in
    let st := call StartCapture st in
    let startTime := now st in
    match wait_done fuel startTime 0 st with
    | None => None
    | Some (false, st) => Some (false, st)
    | Some (true, st) =>
        let st := set_jpegLength (u32 (fifo_length hw)) st in
        if (jpegLength st =? 0) || (MAX_JPEG_SIZE <? jpegLength st) then
          Some (false, print (MsgInvalidSize (jpegLength st)) st)
        else
          let st := call CsLow st in
          let st := call SetFifoBurst st in
          let st := read_fifo (Z.to_nat (jpegLength st)) 0 st in
          let st := call CsHigh st in
          Some (true, print (MsgCaptured (jpegLength st)) st)
    end.

(** The three setter calls before drawJpg (scale 1, no byte swap, the
    callback) configure the decoder and are part of [drawJpg] here; the
    callback always returns true, so the decoder is never told to stop. *)
Definition decodeToFrameBuffer (st : cam) : bool * cam :=
  if jpegLength st =? 0 then (false, st)
  else
    let st := set_frameBuffer (memset0 (frameBuffer st) FRAME_BUFFER_SIZE) st in
    let '(blocks, result) := drawJpg (jpegBuffer st) (jpegLength st) in
    let st := set_frameBuffer (foldl (fun fb b => tjpgCallback b fb) (frameBuffer st) blocks) st in
    if negb (result =? JDR_OK) then (false, print (MsgDecodeFailed result) st)
    else (true, st).

End Hardware.

(** The cleared pixel buffer. *)
Definition cleared_frame : list Z := replicate (Z.to_nat FRAME_BUFFER_SIZE) 0.

(** The serial lines and sensor operations added between two states. *)
Definition printed (st st' : cam) : list debug_msg := drop (length (serial st)) (serial st').
Definition sensor_ops (st st' : cam) : list cam_op := drop (length (sensor_log st)) (sensor_log st').

(** A block that lies to the right of the frame or below it. *)
Definition clipped_out (b : mcu_block) : Prop :=
  FRAME_WIDTH <= blk_x b \/ FRAME_HEIGHT <= blk_y b.

(** The state after the static initialisers have run, with
    [isAvailable] as init() has left it. *)
Definition power_on (avail : bool) : cam :=
  Cam avail (replicate (Z.to_nat MAX_JPEG_SIZE) 0) 0 cleared_frame 0 [] [].

(** A sensor that never raises the capture-done flag. *)
Definition silent_sensor : sensor := Sensor (fun _ => false) 0 (fun _ => 0).

(** A sensor that raises the flag at the read number [k] and holds a
    frame of [len] bytes 1, 2, 3, ... *)
Definition ready_sensor (k : nat) (len : Z) : sensor :=
  Sensor (fun j => (k <=? j)%nat) len (fun i => Z.of_nat i + 1).

(** The frame data is the same in two states: only the clock and the
    logs may differ. *)
Definition same_frame (st st' : cam) : Prop :=
  isAvailable st' = isAvailable st
  /\ jpegBuffer st' = jpegBuffer st
  /\ jpegLength st' = jpegLength st
  /\ frameBuffer st' = frameBuffer st.

End Camera.

(** ** ui_manager.h: button flags *)

Module UI.

Inductive CaptureMode := INSTANT | COUNTDOWN.
(** SystemStatus::COUNTDOWN is written [COUNTING_DOWN] here, the name
    COUNTDOWN being taken by the capture mode. *)
Inductive SystemStatus := READY | ERROR | CAPTURING | COUNTING_DOWN | BUSY.
Inductive LEDColor := OFF | RED | GREEN | BLUE | YELLOW | CYAN | MAGENTA | WHITE.

(** Calls into HardwareManager and LCDManager. *)
Inductive ui_effect :=
| SetLED (c : LEDColor)
| DisplayMode (m : CaptureMode).

(** The two volatile flags, the static [lastPress] of each check
    function, the static members of UIManager, and the clock. *)
Record ui := Ui {
  captureRequested : bool;
  modeToggleRequested : bool;
  lastPress_capture : Z;      (* static unsigned long lastPress in checkCaptureButton *)
  lastPress_mode : Z;         (* static unsigned long lastPress in checkModeButton *)
  currentMode : CaptureMode;
  currentStatus : SystemStatus;
  now : Z;                    (* millis(), 32 bits *)
  effects : list ui_effect
}.

Definition set_captureRequested (b : bool) (st : ui) : ui :=
  Ui b (modeToggleRequested st) (lastPress_capture st) (lastPress_mode st)
     (currentMode st) (currentStatus st) (now st) (effects st).

Definition set_modeToggleRequested (b : bool) (st : ui) : ui :=
  Ui (captureRequested st) b (lastPress_capture st) (lastPress_mode st)
     (currentMode st) (currentStatus st) (now st) (effects st).

Definition set_lastPress_capture (t : Z) (st : ui) : ui :=
  Ui (captureRequested st) (modeToggleRequested st) t (lastPress_mode st)
     (currentMode st) (currentStatus st) (now st) (effects st).

Definition set_lastPress_mode (t : Z) (st : ui) : ui :=
  Ui (captureRequested st) (modeToggleRequested st) (lastPress_capture st) t
     (currentMode st) (currentStatus st) (now st) (effects st).

Definition set_currentMode (m : CaptureMode) (st : ui) : ui :=
  Ui (captureRequested st) (modeToggleRequested st) (lastPress_capture st) (lastPress_mode st)
     m (currentStatus st) (now st) (effects st).

Definition effect (e : ui_effect) (st : ui) : ui :=
  Ui (captureRequested st) (modeToggleRequested st) (lastPress_capture st) (lastPress_mode st)
     (currentMode st) (currentStatus st) (now st) (effects st ++ [e]).

(** Time passing: delay(ms), or anything else that takes [ms]. *)
Definition delay (ms : Z) (st : ui) : ui :=
  Ui (captureRequested st) (modeToggleRequested st) (lastPress_capture st) (lastPress_mode st)
     (currentMode st) (currentStatus st) (u32 (now st + ms)) (effects st).

Definition captureButtonISR (st : ui) : ui := set_captureRequested true st.

Definition modeButtonISR (st : ui) : ui := set_modeToggleRequested true st.

Definition updateLED (st : ui) : ui :=
  match currentStatus st with
  | READY => effect (SetLED GREEN) st
  | ERROR => effect (SetLED RED) st
  | CAPTURING => effect (SetLED YELLOW) st
  | COUNTING_DOWN => effect (SetLED CYAN) st
  | BUSY => effect (SetLED RED) st
  end.

Definition toggleMode (st : ui) : ui :=
  let st :=
    match currentMode st with
    | INSTANT => set_currentMode COUNTDOWN st
    | COUNTDOWN => set_currentMode INSTANT st
    end in
  let st := effect (SetLED BLUE) st in
  let st := effect (DisplayMode (currentMode st)) st in
  let st := delay 300 st in
  updateLED st.

Section Debounce.

(** UIConfig::BUTTON_DEBOUNCE_MS, a constant of stitch_cam_v4's config.h,
    which is not among the sources: the check functions are stated for any
    value of it (stitch_cam_v2 has DEBOUNCE_MS = 200). *)
Variable BUTTON_DEBOUNCE_MS : Z.

Definition checkCaptureButton (st : ui) : bool * ui :=
  if captureRequested st then
    let now_ := now st in
    if BUTTON_DEBOUNCE_MS <? u32 (now_ - lastPress_capture st) then
      let st := set_captureRequested false st in
      let st := set_lastPress_capture now_ st in
      (true, st)
    else
      let st := set_captureRequested false st in
      (false, st)
  else (false, st).

Definition checkModeButton (st : ui) : bool * ui :=
  if modeToggleRequested st then
    let now_ := now st in
    if BUTTON_DEBOUNCE_MS <? u32 (now_ - lastPress_mode st) then
      let st := set_modeToggleRequested false st in
      let st := set_lastPress_mode now_ st in
      let st := toggleMode st in
      (true, st)
    else
      let st := set_modeToggleRequested false st in
      (false, st)
  else (false, st).

End Debounce.

(** The state after the static initialisers have run, at clock [t]. *)
Definition boot (t : Z) : ui := Ui false false 0 0 INSTANT READY t [].

(** The two buttons side by side: flag, time of the last accepted press,
    check function. *)
Inductive button := CaptureButton | ModeButton.

Definition requested (b : button) (st : ui) : bool :=
  match b with
  | CaptureButton => captureRequested st
  | ModeButton => modeToggleRequested st
  end.

Definition lastPress (b : button) (st : ui) : Z :=
  match b with
  | CaptureButton => lastPress_capture st
  | ModeButton => lastPress_mode st
  end.

Definition clear_request (b : button) (st : ui) : ui :=
  match b with
  | CaptureButton => set_captureRequested false st
  | ModeButton => set_modeToggleRequested false st
  end.

Definition check (BUTTON_DEBOUNCE_MS : Z) (b : button) (st : ui) : bool * ui :=
  match b with
  | CaptureButton => checkCaptureButton BUTTON_DEBOUNCE_MS st
  | ModeButton => checkModeButton BUTTON_DEBOUNCE_MS st
  end.

End UI.

(** ** The display side of the bus

    What the ST7789 sees of a bus log: the chip select and data/command
    lines, the transaction framing of the SPI class, and the bytes that
    arrive, each with the level of the data/command line at the time. *)

Module Wire.
Import DevConfig.

Record wire := Mk {
  cs_low : bool;      (* chip select asserted *)
  dc_high : bool;     (* data (true) or command (false) *)
  in_txn : bool       (* between beginTransaction and endTransaction *)
}.

(** Chip select high, no transaction open. *)
Definition idle (dc : bool) : wire := Mk false dc false.

(** One event.  [None]: the event breaks the framing (a byte sent with the
    chip select high or outside a transaction, a transaction begun inside
    another, an end without a begin). *)
Definition step (w : wire) (e : bus_event) : option wire :=
  match e with
  | DigitalWrite DEV_CS_PIN level => Some (Mk (negb level) (dc_high w) (in_txn w))
  | DigitalWrite DEV_DC_PIN level => Some (Mk (cs_low w) level (in_txn w))
  | DigitalWrite _ _ => Some w
  | BeginTransaction _ => if in_txn w then None else Some (Mk (cs_low w) (dc_high w) true)
  | EndTransaction => if in_txn w then Some (Mk (cs_low w) (dc_high w) false) else None
  | Transfer _ | WriteBytes _ => if in_txn w && cs_low w then Some w else None
  end.

(** The bytes an event delivers, tagged data (true) or command (false). *)
Definition delivered (w : wire) (e : bus_event) : list (bool * Z) :=
  match e with
  | Transfer b => [(dc_high w, b)]
  | WriteBytes data => map (fun b => (dc_high w, b)) data
  | _ => []
  end.

(** A whole log: the final line state and everything delivered. *)
Fixpoint run (w : wire) (evs : list bus_event) : option (wire * list (bool * Z)) :=
  match evs with
  | [] => Some (w, [])
  | e :: evs' =>
      match step w e with
      | None => None
      | Some w' =>
          match run w' evs' with
          | None => None
          | Some (w'', rx) => Some (w'', delivered w e ++ rx)
          end
      end
  end.

Definition command (b : Z) : bool * Z := (false, b).
Definition data (b : Z) : bool * Z := (true, b).

(** The controller's reading of the addressing sequence: column address
    set (0x2A), row address set (0x2B), memory write (0x2C), each address
    16 bits, high byte first.  The result is (x0, x1, y0, y1). *)
Definition window_of (rx : list (bool * Z)) : option (Z * Z * Z * Z) :=
  match rx with
  | [c1; a; b; c; d; c2; e; f; g; h; c3] =>
      if forallb (fun x => negb (fst x)) [c1; c2; c3]
         && forallb fst [a; b; c; d; e; f; g; h]
         && (snd c1 =? 42) && (snd c2 =? 43) && (snd c3 =? 44)
      then Some (snd a * 256 + snd b, snd c * 256 + snd d,
                 snd e * 256 + snd f, snd g * 256 + snd h)
      else None
  | _ => None
  end.

(** The events the device has put on the bus since the log was [before]. *)
Definition since (before : list bus_event) (d : dev) : list bus_event :=
  drop (length before) (bus d).

(** How a log is framed: the number of transactions it begins and the
    number of times it drives the chip select low ([deasserts] counts the
    times it drives it high). *)
Fixpoint transactions (evs : list bus_event) : nat :=
  match evs with
  | [] => 0%nat
  | BeginTransaction _ :: evs' => S (transactions evs')
  | _ :: evs' => transactions evs'
  end.

Fixpoint selects (evs : list bus_event) : nat :=
  match evs with
  | [] => 0%nat
  | DigitalWrite DEV_CS_PIN false :: evs' => S (selects evs')
  | _ :: evs' => selects evs'
  end.

End Wire.

(** ** Integration_v2/DEV_Config.cpp: the byte-wise transfer *)

Module IntegrationV2.
Import DevConfig.

(** for (uint32_t i = 0; i < len; i++) SPIlcd.transfer(data[i]);
    [n] rounds left, [i] the index. *)
Fixpoint transfer_loop (n : nat) (i : nat) (data : list Z) (d : dev) : dev :=
  match n with
  | O => d
  | S n' => transfer_loop n' (S i) data (emit [Transfer (nth i data 0)] d)
  end.

Definition DEV_SPI_Write_DMA (data : list Z) (len : Z) (d : dev) : dev :=
  if len =? 0 then d
  else
    let d := emit [BeginTransaction 80000000] d in
    let d := transfer_loop (Z.to_nat len) 0 data d in
    emit [EndTransaction] d.

End IntegrationV2.

(** ** The pixel buffer as a picture *)

Module Pixels.
Import CameraConfig Camera.

(** Byte offset of the pixel in column [px], row [py]: row-major, two
    bytes a pixel. *)
Definition pixel_offset (px py : Z) : Z := (py * FRAME_WIDTH + px) * 2.

(** The pixel in column [c], row [r] of a block's bitmap. *)
Definition block_pixel (b : mcu_block) (c r : Z) : Z :=
  nth (Z.to_nat (r * blk_w b + c)) (blk_bitmap b) 0.

(** The block lies over the frame pixel (px, py). *)
Definition covers (b : mcu_block) (px py : Z) : Prop :=
  blk_x b <= px < blk_x b + blk_w b /\ blk_y b <= py < blk_y b + blk_h b.

End Pixels.

(** ** task_manager.h: one round of the camera task

    The body of the endless loop of cameraTask.  LCDManager::displayMode
    draws through GUI_Paint, which is not among the sources: it is taken as
    any function on the display device.  vTaskDelay moves the clock. *)

Module CameraTask.
Import DevConfig LcdManager Camera.

Section Round.

Variable hw : sensor.
Variable drawJpg : list Z -> Z -> list mcu_block * Z.
Variable displayMode : dev -> dev.

Definition cameraTask_round (fuel : nat) (c : cam) (d : dev) : option (cam * dev) :=
  match captureJPEG hw fuel c with
  | None => None
  | Some (false, c) => Some (delay 10 c, d)
  | Some (true, c) =>
      let '(decoded, c) := decodeToFrameBuffer drawJpg c in
      if decoded then
        match displayFrame fuel (Some (frameBuffer c)) d with
        | None => None
        | Some d => Some (delay 10 c, displayMode d)
        end
      else Some (delay 10 c, d)
  end.

End Round.

End CameraTask.

(** ** hardware_manager.h: the RGB LED *)

Module HardwareManager.
Import UI.

Inductive led_pin := LED_RED | LED_GREEN | LED_BLUE.

(** The duty of the PWM channel of each pin (8-bit resolution). *)
Record pwm := Pwm { duty_red : Z; duty_green : Z; duty_blue : Z }.

Definition ledcWrite (p : led_pin) (value : Z) (s : pwm) : pwm :=
  match p with
  | LED_RED => Pwm value (duty_green s) (duty_blue s)
  | LED_GREEN => Pwm (duty_red s) value (duty_blue s)
  | LED_BLUE => Pwm (duty_red s) (duty_green s) value
  end.

Definition setLED (color : LEDColor) (s : pwm) : pwm :=
  match color with
  | OFF =>
      let s := ledcWrite LED_RED 0 s in
      let s := ledcWrite LED_GREEN 0 s in
      ledcWrite LED_BLUE 0 s
  | RED =>
      let s := ledcWrite LED_RED 255 s in
      let s := ledcWrite LED_GREEN 0 s in
      ledcWrite LED_BLUE 0 s
  | GREEN =>
      let s := ledcWrite LED_RED 0 s in
      let s := ledcWrite LED_GREEN 255 s in
      ledcWrite LED_BLUE 0 s
  | BLUE =>
      let s := ledcWrite LED_RED 0 s in
      let s := ledcWrite LED_GREEN 0 s in
      ledcWrite LED_BLUE 255 s
  | YELLOW =>
      let s := ledcWrite LED_RED 255 s in
      let s := ledcWrite LED_GREEN 255 s in
      ledcWrite LED_BLUE 0 s
  | CYAN =>
      let s := ledcWrite LED_RED 0 s in
      let s := ledcWrite LED_GREEN 255 s in
      ledcWrite LED_BLUE 255 s
  | MAGENTA =>
      let s := ledcWrite LED_RED 255 s in
      let s := ledcWrite LED_GREEN 0 s in
      ledcWrite LED_BLUE 255 s
  | WHITE =>
      let s := ledcWrite LED_RED 255 s in
      let s := ledcWrite LED_GREEN 255 s in
      ledcWrite LED_BLUE 255 s
  end.

(** A series of setLED calls, first to last. *)
Definition show (colors : list LEDColor) (s : pwm) : pwm :=
  foldl (fun s c => setLED c s) s colors.

End HardwareManager.

(** ** stitch_cam_v3/ui_manager.h: request flags set by debounced ISRs

    The UI manager that stitch_cam_v2/task_manager.h drives.  Serial
    output is left out.  The calls of HardwareManager::setLED are logged
    in order. *)

Module UI3.

Inductive SystemStatus := IDLE | CAPTURING | SAVING | STREAMING | ERROR.

Record ui := Ui3 {
  currentMode : UI.CaptureMode;
  currentStatus : SystemStatus;
  captureRequested : bool;
  modeToggleRequested : bool;
  countdownRequested : bool;
  lastCaptureButtonTime : Z;
  lastModeButtonTime : Z;
  now : Z;                       (* millis(), 32 bits *)
  leds : list UI.LEDColor        (* HardwareManager::setLED calls *)
}.

Definition set_currentMode (m : UI.CaptureMode) (st : ui) : ui :=
  Ui3 m (currentStatus st) (captureRequested st) (modeToggleRequested st)
      (countdownRequested st) (lastCaptureButtonTime st) (lastModeButtonTime st)
      (now st) (leds st).

Definition set_currentStatus (s : SystemStatus) (st : ui) : ui :=
  Ui3 (currentMode st) s (captureRequested st) (modeToggleRequested st)
      (countdownRequested st) (lastCaptureButtonTime st) (lastModeButtonTime st)
      (now st) (leds st).

Definition set_captureRequested (b : bool) (st : ui) : ui :=
  Ui3 (currentMode st) (currentStatus st) b (modeToggleRequested st)
      (countdownRequested st) (lastCaptureButtonTime st) (lastModeButtonTime st)
      (now st) (leds st).

Definition set_modeToggleRequested (b : bool) (st : ui) : ui :=
  Ui3 (currentMode st) (currentStatus st) (captureRequested st) b
      (countdownRequested st) (lastCaptureButtonTime st) (lastModeButtonTime st)
      (now st) (leds st).

Definition set_countdownRequested (b : bool) (st : ui) : ui :=
  Ui3 (currentMode st) (currentStatus st) (captureRequested st) (modeToggleRequested st)
      b (lastCaptureButtonTime st) (lastModeButtonTime st)
      (now st) (leds st).

Definition set_lastCaptureButtonTime (t : Z) (st : ui) : ui :=
  Ui3 (currentMode st) (currentStatus st) (captureRequested st) (modeToggleRequested st)
      (countdownRequested st) t (lastModeButtonTime st)
      (now st) (leds st).

Definition set_lastModeButtonTime (t : Z) (st : ui) : ui :=
  Ui3 (currentMode st) (currentStatus st) (captureRequested st) (modeToggleRequested st)
      (countdownRequested st) (lastCaptureButtonTime st) t
      (now st) (leds st).

(** HardwareManager::setLED(color) *)
Definition setLED (color : UI.LEDColor) (st : ui) : ui :=
  Ui3 (currentMode st) (currentStatus st) (captureRequested st) (modeToggleRequested st)
      (countdownRequested st) (lastCaptureButtonTime st) (lastModeButtonTime st)
      (now st) (leds st ++ [color]).

(** delay(ms), or anything else that takes [ms]. *)
Definition delay (ms : Z) (st : ui) : ui :=
  Ui3 (currentMode st) (currentStatus st) (captureRequested st) (modeToggleRequested st)
      (countdownRequested st) (lastCaptureButtonTime st) (lastModeButtonTime st)
      (u32 (now st + ms)) (leds st).

Definition updateLED (st : ui) : ui :=
  match currentStatus st with
  | IDLE => setLED UI.GREEN st
  | CAPTURING => setLED UI.RED st
  | SAVING => setLED UI.YELLOW st
  | STREAMING => setLED UI.CYAN st
  | ERROR => setLED UI.RED st
  end.

Definition setStatus (status : SystemStatus) (st : ui) : ui :=
  updateLED (set_currentStatus status st).

Definition requestCapture (st : ui) : ui := set_captureRequested true st.
Definition requestModeToggle (st : ui) : ui := set_modeToggleRequested true st.
Definition requestCountdown (st : ui) : ui := set_countdownRequested true st.

Definition isCaptureRequested (st : ui) : bool * ui :=
  if captureRequested st then (true, set_captureRequested false st) else (false, st).

Definition isModeToggleRequested (st : ui) : bool * ui :=
  if modeToggleRequested st then (true, set_modeToggleRequested false st) else (false, st).

Definition isCountdownRequested (st : ui) : bool * ui :=
  if countdownRequested st then (true, set_countdownRequested false st) else (false, st).

Definition toggleMode (st : ui) : ui :=
  let st :=
    match currentMode st with
    | UI.INSTANT => set_currentMode UI.COUNTDOWN st
    | UI.COUNTDOWN => set_currentMode UI.INSTANT st
    end in
  let st := setLED UI.BLUE st in
  let st := delay 200 st in
  updateLED st.

Definition flashLED (color : UI.LEDColor) (durationMs : Z) (st : ui) : ui :=
  let st := setLED color st in
  let st := delay durationMs st in
  updateLED st.

(** for (uint8_t i = ...; i > 0; i--) { setLED(RED); delay(500);
    setLED(OFF); delay(500); }, with [i] rounds to go. *)
Fixpoint countdown_loop (i : nat) (st : ui) : ui :=
  match i with
  | O => st
  | S i' =>
      let st := setLED UI.RED st in
      let st := delay 500 st in
      let st := setLED UI.OFF st in
      let st := delay 500 st in
      countdown_loop i' st
  end.

Section Config.

(** UIConfig::DEBOUNCE_MS and UIConfig::COUNTDOWN_SECONDS, constants of
    stitch_cam_v3's config.h, which is not among the sources
    (stitch_cam_v2/config.h has 200 and 3). *)
Variable DEBOUNCE_MS : Z.
Variable COUNTDOWN_SECONDS : Z.

(** The loop variable is a uint8_t. *)
Definition performCountdown (st : ui) : bool * ui :=
  let st := countdown_loop (Z.to_nat (u8 COUNTDOWN_SECONDS)) st in
  let st := setLED UI.GREEN st in
  (true, st).

Definition captureButtonISR (st : ui) : ui :=
  let now_ := now st in
  if DEBOUNCE_MS <? u32 (now_ - lastCaptureButtonTime st) then
    let st := set_captureRequested true st in
    set_lastCaptureButtonTime now_ st
  else st.

Definition modeButtonISR (st : ui) : ui :=
  let now_ := now st in
  if DEBOUNCE_MS <? u32 (now_ - lastModeButtonTime st) then
    let st := set_modeToggleRequested true st in
    set_lastModeButtonTime now_ st
  else st.

(** What can happen to the capture flag between two looks of the reader:
    the contact closes again, the web server asks for a capture, time
    passes. *)
Inductive happening := Bounce | WebRequest | Wait (ms : Z).

Definition happen (st : ui) (h : happening) : ui :=
  match h with
  | Bounce => captureButtonISR st
  | WebRequest => requestCapture st
  | Wait ms => delay ms st
  end.

Definition waited (h : happening) : Z :=
  match h with Wait ms => ms | _ => 0 end.

End Config.

(** The state after the static initialisers have run, at clock [t]. *)
Definition boot (t : Z) : ui := Ui3 UI.INSTANT IDLE false false false 0 0 t [].

End UI3.

(** ** storage_manager.h: photos on the SD card

    The SD library is outside the program: what its calls return is given
    to each function as an argument, and the calls that change the card
    are logged.  Serial output is left out. *)

Module Storage.

(** An entry of a directory, as openNextFile hands it out. *)
Record entry := Entry { isDirectory : bool; name : string }.

Inductive card_call :=
| Mkdir (path : string)
| OpenWrite (filename : string)      (* SD.open(filename, FILE_WRITE) *)
| FileWrite (data : list Z)          (* file.write(data, length) *)
| FileClose
| Remove (filename : string).

Record storage := St {
  isAvailable : bool;
  photoCount : Z;                    (* uint32_t *)
  card : list card_call
}.

Definition set_isAvailable (b : bool) (st : storage) : storage :=
  St b (photoCount st) (card st).

Definition set_photoCount (n : Z) (st : storage) : storage :=
  St (isAvailable st) n (card st).

Definition call (c : card_call) (st : storage) : storage :=
  St (isAvailable st) (photoCount st) (card st ++ [c]).

(** The static initialisers. *)
Definition power_on : storage := St false 0 [].

Definition PHOTO_DIR : string := "/photos".

(** CARD_NONE of the SD library. *)
Definition CARD_NONE : Z := 0.

(** String::endsWith *)
Definition endsWith (s suffix : string) : bool :=
  let n := String.length s in
  let m := String.length suffix in
  if (m <=? n)%nat then String.eqb (String.substring (n - m) m s) suffix else false.

(** The test in the body of both directory loops. *)
Definition is_photo (file : entry) : bool :=
  negb (isDirectory file) && (endsWith (name file) ".jpg" || endsWith (name file) ".JPG").

(** The names of the photos among the entries of a directory, in the
    order of the directory. *)
Definition photos (files : list entry) : list string := name <$> filter is_photo files.

(** while (file) { ...count++...; file = root.openNextFile(); } *)
Fixpoint count_loop (files : list entry) (count : Z) : Z :=
  match files with
  | [] => count
  | file :: files' =>
      count_loop files' (if is_photo file then u32 (count + 1) else count)
  end.

(** [root]: the entries of PHOTO_DIR, or None when it cannot be opened or
    is no directory. *)
Definition countPhotos (root : option (list entry)) (st : storage) : Z :=
  if negb (isAvailable st) then 0
  else
    match root with
    | None => 0
    | Some files => count_loop files 0
    end.

(** [begin_ok], [cardType], [dir_exists], [mkdir_ok]: the results of
    SD.begin, SD.cardType, SD.exists(PHOTO_DIR), SD.mkdir(PHOTO_DIR). *)
Definition init (begin_ok : bool) (cardType : Z) (dir_exists mkdir_ok : bool)
    (root : option (list entry)) (st : storage) : storage :=
  if negb begin_ok then set_isAvailable false st
  else if cardType =? CARD_NONE then set_isAvailable false st
  else
    let st := if negb dir_exists then call (Mkdir PHOTO_DIR) st else st in
    let st := set_photoCount (countPhotos root st) st in
    set_isAvailable true st.

(** while (file && count < maxFiles) { ...fileList[count++] = name...;
    file = root.openNextFile(); } *)
Fixpoint list_loop (files : list entry) (maxFiles count : Z) (fileList : list string)
    : Z * list string :=
  match files with
  | [] => (count, fileList)
  | file :: files' =>
      if count <? maxFiles then
        if is_photo file then
          list_loop files' maxFiles (u32 (count + 1))
                    (<[Z.to_nat count := name file]> fileList)
        else list_loop files' maxFiles count fileList
      else (count, fileList)
  end.

Definition getPhotoList (fileList : list string) (maxFiles : Z)
    (root : option (list entry)) (st : storage) : Z * list string :=
  if negb (isAvailable st) then (0, fileList)
  else
    match root with
    | None => (0, fileList)
    | Some files => list_loop files maxFiles 0 fileList
    end.

Definition available (st : storage) : bool := isAvailable st.

Definition getPhotoCount (st : storage) : Z := photoCount st.

Section Names.

(** What snprintf leaves in the buffer for the format [%s/%s%04d.jpg],
    PHOTO_DIR, PHOTO_PREFIX and the number given. *)
Variable snprintf_name : Z -> string.

Definition generateFilename (st : storage) : string :=
  snprintf_name (u32 (photoCount st + 1)).

(** [jpegData]: None for a null pointer.  [open_ok]: SD.open gave a file;
    [written]: the result of file.write.  The second component is the
    filename buffer of the caller, when the call has written it. *)
Definition savePhoto (jpegData : option (list Z)) (length_ : Z)
    (open_ok : bool) (written : Z) (st : storage) : bool * option string * storage :=
  match jpegData with
  | None => (false, None, st)
  | Some data =>
      if negb (isAvailable st) || (length_ =? 0) then (false, None, st)
      else
        let filename := generateFilename st in
        let st := call (OpenWrite filename) st in
        if negb open_ok then (false, Some filename, st)
        else
          let st := call (FileWrite (take (Z.to_nat length_) data)) st in
          let st := call FileClose st in
          if negb (written =? length_) then (false, Some filename, st)
          else
            let st := set_photoCount (u32 (photoCount st + 1)) st in
            (true, Some filename, st)
  end.

(** [remove_ok]: the result of SD.remove. *)
Definition deletePhoto (filename : string) (remove_ok : bool) (st : storage)
    : bool * storage :=
  if negb (isAvailable st) then (false, st)
  else
    let st := call (Remove filename) st in
    if remove_ok then (true, set_photoCount (u32 (photoCount st - 1)) st)
    else (false, st).

(** A run of saves and deletes, each with what the card answers. *)
Inductive request :=
| Save (jpegData : option (list Z)) (length_ : Z) (open_ok : bool) (written : Z)
| Delete (filename : string) (remove_ok : bool).

Definition serve (st : storage) (r : request) : bool * storage :=
  match r with
  | Save jpegData length_ open_ok written =>
      let '(ok, _, st) := savePhoto jpegData length_ open_ok written st in (ok, st)
  | Delete filename remove_ok => deletePhoto filename remove_ok st
  end.

(** The state after the requests, with the number of saves and of deletes
    that returned true. *)
Fixpoint serve_all (rs : list request) (st : storage) : Z * Z * storage :=
  match rs with
  | [] => (0, 0, st)
  | r :: rs' =>
      let '(ok, st) := serve st r in
      let '(saved, deleted, st) := serve_all rs' st in
      match r with
      | Save _ _ _ _ => ((if ok then 1 else 0) + saved, deleted, st)
      | Delete _ _ => (saved, (if ok then 1 else 0) + deleted, st)
      end
  end.

End Names.

End Storage.

(** ** task_manager.h: the capture handlers of the UI task

    The handlers drive the UI manager, the camera and the storage manager
    (the ui_manager.h of stitch_cam_v3 and the storage_manager.h of
    stitch_cam_v4 are the ones among the sources).  There is one clock:
    time that passes in a delay or in a capture passes for the UI manager
    and for the camera alike.  The LCDManager calls that draw through
    GUI_Paint are logged.  Serial output is left out. *)

Module TaskManager.

Inductive lcd_call :=
| DisplayError (error : string)
| DisplaySaveMessage (filename : string)
| DisplayCountdown (number : Z).

Record sys := Sys {
  ui : UI3.ui;
  camera : Camera.cam;
  storage : Storage.storage;
  lcd : list lcd_call;
  filename : string          (* char filename[MAX_FILENAME_LEN] of uiTask *)
}.

Definition on_ui (f : UI3.ui -> UI3.ui) (s : sys) : sys :=
  Sys (f (ui s)) (camera s) (storage s) (lcd s) (filename s).

Definition draw (c : lcd_call) (s : sys) : sys :=
  Sys (ui s) (camera s) (storage s) (lcd s ++ [c]) (filename s).

Definition delay (ms : Z) (s : sys) : sys :=
  Sys (UI3.delay ms (ui s)) (Camera.delay ms (camera s)) (storage s) (lcd s) (filename s).

(** UIConfig, stitch_cam_v2/config.h *)
Definition COUNTDOWN_SECONDS : Z := 3.
Definition STATUS_DISPLAY_MS : Z := 2000.

(** What the handlers leave alone in the UI manager. *)
Definition same_requests (u u' : UI3.ui) : Prop :=
  UI3.currentMode u' = UI3.currentMode u
  /\ UI3.captureRequested u' = UI3.captureRequested u
  /\ UI3.modeToggleRequested u' = UI3.modeToggleRequested u
  /\ UI3.countdownRequested u' = UI3.countdownRequested u.

Section Task.

Variable hw : Camera.sensor.
Variable snprintf_name : Z -> string.

(** CameraManager::captureJPEG() *)
Definition capture (fuel : nat) (s : sys) : option (bool * sys) :=
  match Camera.captureJPEG hw fuel (camera s) with
  | None => None
  | Some (ok, c) =>
      let took := Camera.elapsed (Camera.now (camera s)) c in
      Some (ok, Sys (UI3.delay took (ui s)) c (storage s) (lcd s) (filename s))
  end.

(** StorageManager::savePhoto(CameraManager::getJPEGBuffer(),
    CameraManager::getJPEGLength(), filename) *)
Definition save (open_ok : bool) (written : Z) (s : sys) : bool * sys :=
  let '(ok, name, st) :=
    Storage.savePhoto snprintf_name (Some (Camera.jpegBuffer (camera s)))
                      (Camera.jpegLength (camera s)) open_ok written (storage s) in
  (ok, Sys (ui s) (camera s) st (lcd s)
           (match name with Some f => f | None => filename s end)).

(** The text of both handlers from the call of captureJPEG to the end. *)
Definition capture_and_save (fuel : nat) (open_ok : bool) (written : Z) (s : sys)
    : option sys :=
  match capture fuel s with
  | None => None
  | Some (false, s) =>
      let s := on_ui (UI3.setStatus UI3.ERROR) s in
      let s := draw (DisplayError "Capture Failed") s in
      let s := delay 1000 s in
      let s := on_ui (UI3.setStatus UI3.IDLE) s in
      Some s
  | Some (true, s) =>
      let s := on_ui (UI3.setStatus UI3.SAVING) s in
      let s := on_ui (UI3.setLED UI.YELLOW) s in
      let '(saved, s) := save open_ok written s in
      let s :=
        if saved then
          let s := on_ui (UI3.setLED UI.GREEN) s in
          let s := draw (DisplaySaveMessage (filename s)) s in
          delay STATUS_DISPLAY_MS s
        else
          let s := on_ui (UI3.setStatus UI3.ERROR) s in
          let s := draw (DisplayError "Save Failed") s in
          delay 1000 s in
      let s := on_ui (UI3.setStatus UI3.IDLE) s in
      Some s
  end.

Definition handleCapture (fuel : nat) (open_ok : bool) (written : Z) (s : sys)
    : option sys :=
  let s := on_ui (UI3.setStatus UI3.CAPTURING) s in
  let s := on_ui (UI3.setLED UI.RED) s in
  capture_and_save fuel open_ok written s.

(** for (uint8_t i = COUNTDOWN_SECONDS; i > 0; i--) { displayCountdown(i);
    setLED(RED); delay(500); setLED(OFF); delay(500); } *)
Fixpoint countdown_loop (i : nat) (s : sys) : sys :=
  match i with
  | O => s
  | S i' =>
      let s := draw (DisplayCountdown (Z.of_nat i)) s in
      let s := on_ui (UI3.setLED UI.RED) s in
      let s := delay 500 s in
      let s := on_ui (UI3.setLED UI.OFF) s in
      let s := delay 500 s in
      countdown_loop i' s
  end.

Definition handleCountdownCapture (fuel : nat) (open_ok : bool) (written : Z) (s : sys)
    : option sys :=
  let s := on_ui (UI3.setStatus UI3.CAPTURING) s in
  let s := countdown_loop (Z.to_nat (u8 COUNTDOWN_SECONDS)) s in
  let s := on_ui (UI3.setLED UI.RED) s in
  capture_and_save fuel open_ok written s.

(** The capture of a handler run from [s] succeeds: the camera is
    available, the capture-done flag is up at one of the first 1002 reads,
    the length register shows 1 to MAX_JPEG_SIZE. *)
Definition captured (s : sys) : Prop :=
  Camera.isAvailable (camera s) = true
  /\ (exists k, (k <= 1001)%nat /\ Camera.cap_done hw k = true)
  /\ 1 <= u32 (Camera.fifo_length hw) <= CameraConfig.MAX_JPEG_SIZE.

(** The card takes the frame: the store is available, the file opens,
    and file.write reports all the bytes written. *)
Definition stored (open_ok : bool) (written : Z) (s : sys) : Prop :=
  Storage.isAvailable (storage s) = true
  /\ open_ok = true
  /\ written = u32 (Camera.fifo_length hw).

(** The two handlers side by side. *)
Inductive handler := Instant | Countdown.

Definition handle (h : handler) (fuel : nat) (open_ok : bool) (written : Z) (s : sys)
    : option sys :=
  match h with
  | Instant => handleCapture fuel open_ok written s
  | Countdown => handleCountdownCapture fuel open_ok written s
  end.

End Task.

(** The system after the static initialisers, the camera found or not and
    the card mounted or not, with [buffer] in the file name buffer. *)
Definition start (camera_found card_mounted : bool) (buffer : string) : sys :=
  Sys (UI3.boot 0) (Camera.power_on camera_found) (Storage.St card_mounted 0 []) [] buffer.

End TaskManager.

(** ** wifi_manager.h: connecting with a timeout

    The WiFi library is outside the program: what WiFi.status() answers
    is given by the number of the read, counted from power-on, and the
    calls that act on the radio are logged.  Serial output is left out;
    delay moves the clock. *)

Module WiFi.

Inductive wifi_call := SetMode | SetHostname | Begin | Reconnect | Disconnect.

Record wifi := Wf {
  isConnected : bool;
  ipAddress : string;
  now : Z;                    (* millis(), 32 bits *)
  polls : nat;                (* reads of WiFi.status() so far *)
  calls : list wifi_call
}.

Definition set_isConnected (b : bool) (st : wifi) : wifi :=
  Wf b (ipAddress st) (now st) (polls st) (calls st).

Definition set_ipAddress (ip : string) (st : wifi) : wifi :=
  Wf (isConnected st) ip (now st) (polls st) (calls st).

Definition call (c : wifi_call) (st : wifi) : wifi :=
  Wf (isConnected st) (ipAddress st) (now st) (polls st) (calls st ++ [c]).

Definition delay (ms : Z) (st : wifi) : wifi :=
  Wf (isConnected st) (ipAddress st) (u32 (now st + ms)) (polls st) (calls st).

(** WIFI_TIMEOUT_MS, stitch_cam_v2/config.h *)
Definition WIFI_TIMEOUT_MS : Z := 30000.

Section Link.

(** [linked k]: the read number [k] of WiFi.status() gives WL_CONNECTED. *)
Variable linked : nat -> bool.

(** WiFi.localIP().toString() *)
Variable localIP : string.

(** WiFi.status() == WL_CONNECTED *)
Definition status_connected (st : wifi) : bool * wifi :=
  (linked (polls st),
   Wf (isConnected st) (ipAddress st) (now st) (S (polls st)) (calls st)).

(** while (WiFi.status() != WL_CONNECTED) {
      if (millis() - startTime > timeout) { ...; return; }
      delay(ms); }

    [Some (true, _)]: the loop was left with the link up;
    [Some (false, _)]: the function returns from inside the loop. *)
Fixpoint wait_link (fuel : nat) (startTime timeout ms : Z) (st : wifi)
    : option (bool * wifi) :=
  match fuel with
  | O => None
  | S fuel' =>
      let '(up, st) := status_connected st in
      if up then Some (true, st)
      else if timeout <? u32 (now st - startTime) then Some (false, st)
      else wait_link fuel' startTime timeout ms (delay ms st)
  end.

Definition init (fuel : nat) (st : wifi) : option wifi :=
  let st := call SetMode st in
  let st := call SetHostname st in
  let st := call Begin st in
  let startTime := now st in
  match wait_link fuel startTime WIFI_TIMEOUT_MS 250 st with
  | None => None
  | Some (false, st) => Some (set_isConnected false st)
  | Some (true, st) =>
      let st := set_isConnected true st in
      Some (set_ipAddress localIP st)
  end.

Definition connected (st : wifi) : bool * wifi := status_connected st.

Definition maintainConnection (fuel : nat) (st : wifi) : option wifi :=
  let '(up, st) := connected st in
  if negb up && isConnected st then
    let st := call Reconnect st in
    let startTime := now st in
    match wait_link fuel startTime 10000 100 st with
    | None => None
    | Some (false, st) => Some (set_isConnected false st)
    | Some (true, st) => Some (set_isConnected true st)
    end
  else Some st.

Definition disconnect (st : wifi) : wifi :=
  let st := call Disconnect st in
  set_isConnected false st.

(** maintainConnection called [n] times in a row. *)
Fixpoint maintain_times (n : nat) (fuel : nat) (st : wifi) : option wifi :=
  match n with
  | O => Some st
  | S n' =>
      match maintainConnection fuel st with
      | None => None
      | Some st => maintain_times n' fuel st
      end
  end.

End Link.

(** The static initialisers, at clock [t]. *)
Definition power_on (t : Z) : wifi := Wf false "" t 0 [].

End WiFi.

(** ** lcd_manager.h: text on the display

    The text is drawn by GUI_Paint, which is not among the sources: its
    calls are logged with their arguments, and so is LCDManager::clear. *)

Module LcdText.

(** LCDConfig, stitch_cam_v2/config.h *)
Definition WIDTH : Z := 240.
Definition HEIGHT : Z := 320.

(** LCDColor *)
Definition BLACK : Z := 0.
Definition WHITE : Z := 65535.
Definition RED : Z := 63488.
Definition GREEN : Z := 2016.

Inductive font := Font16 | Font24.

Inductive paint_call :=
| Paint_DrawString_EN (x y : Z) (text : string) (f : font) (c1 c2 : Z)
| Paint_DrawFilledRectangle_Fast (x1 y1 x2 y2 color : Z)
| Clear (color : Z).

Definition displayText (x y : Z) (text : string) (fgColor bgColor : Z)
    (log : list paint_call) : list paint_call :=
  log ++ [Paint_DrawString_EN x y text Font16 bgColor fgColor].

(** uint16_t textWidth = strlen(text) * 8: the product is a 32-bit
    size_t, cut to 16 bits.  uint16_t x = (WIDTH - textWidth) / 2: the
    difference and the quotient are ints (the division rounds towards
    zero), the result is cut to 16 bits. *)
Definition displayTextCentered (y : Z) (text : string) (fgColor bgColor : Z)
    (log : list paint_call) : list paint_call :=
  let textWidth := u16 (u32 (Z.of_nat (String.length text) * 8)) in
  let x := u16 (Z.quot (WIDTH - textWidth) 2) in
  displayText x y text fgColor bgColor log.

Definition displayStatus (status : string) (color : Z) (log : list paint_call)
    : list paint_call :=
  let log := log ++ [Paint_DrawFilledRectangle_Fast 0 (HEIGHT - 30) WIDTH HEIGHT BLACK] in
  displayTextCentered (HEIGHT - 20) status color BLACK log.

Definition displaySaveMessage (filename : string) (log : list paint_call)
    : list paint_call :=
  let log := displayStatus "Saved!" GREEN log in
  displayTextCentered (HEIGHT - 50) filename WHITE BLACK log.

Definition displayError (error : string) (log : list paint_call) : list paint_call :=
  let log := log ++ [Clear RED] in
  let log := displayTextCentered (HEIGHT / 2) "ERROR" WHITE RED log in
  displayTextCentered (HEIGHT / 2 + 20) error WHITE RED log.

(** The column at which a call draws its text, and the text. *)
Definition text_at (c : paint_call) : option (Z * string) :=
  match c with
  | Paint_DrawString_EN x _ text _ _ _ => Some (x, text)
  | _ => None
  end.

End LcdText.

(** ** web_server.h: the frame on offer *)

Module WebServer.
Import CameraConfig Camera.

(** What handleStream sends: status 503, or status 200 with the frame. *)
Inductive response :=
| NoFrameAvailable
| Jpeg (data : list Z).

Definition handleStream (c : cam) : response :=
  let jpegLen := jpegLength c in
  if (jpegLen =? 0) || (MAX_JPEG_SIZE <? jpegLen) then NoFrameAvailable
  else Jpeg (take (Z.to_nat jpegLen) (jpegBuffer c)).

End WebServer.

(** ** LCD_Driver.cpp without USE_DMA_TRANSFER

    The fills as they are compiled when USE_DMA_TRANSFER is not defined:
    one transaction, two single-byte transfers for each pixel. *)

Module LcdDriverPlain.
Import DevConfig LcdDriver.

(** for (uint32_t i = 0; i < totalPixels; i++) {
      SPIlcd.transfer(colorHigh); SPIlcd.transfer(colorLow); }
    with [n] rounds to go. *)
Fixpoint pixel_loop (n : nat) (colorHigh colorLow : Z) (d : dev) : dev :=
  match n with
  | O => d
  | S n' =>
      let d := emit [Transfer colorHigh] d in
      let d := emit [Transfer colorLow] d in
      pixel_loop n' colorHigh colorLow d
  end.

(** The body shared by LCD_Clear and LCD_ClearWindow, from the chip
    select going low to it going high. *)
Definition fill_and_send (totalPixels color : Z) (d : dev) : dev :=
  let d := DEV_Digital_Write DEV_CS_PIN 0 d in
  let d := DEV_Digital_Write DEV_DC_PIN 1 d in
  let colorHigh := u8 (Z.shiftr color 8) in
  let colorLow := u8 (Z.land color 255) in
  let d := emit [BeginTransaction 60000000] d in
  let d := pixel_loop (Z.to_nat totalPixels) colorHigh colorLow d in
  let d := emit [EndTransaction] d in
  DEV_Digital_Write DEV_CS_PIN 1 d.

Definition LCD_Clear (Color : Z) (d : dev) : dev :=
  let totalPixels := u32 (LCD_WIDTH * LCD_HEIGHT) in
  let d := LCD_SetCursor 0 0 (u16 (LCD_WIDTH - 1)) (u16 (LCD_HEIGHT - 1)) d in
  fill_and_send totalPixels Color d.

Definition LCD_ClearWindow (Xstart Ystart Xend Yend color : Z) (d : dev) : dev :=
  let width := u32 (Xend - Xstart) in
  let height := u32 (Yend - Ystart) in
  let totalPixels := u32 (width * height) in
  let d := LCD_SetCursor Xstart Ystart (u16 (Xend - 1)) (u16 (Yend - 1)) d in
  fill_and_send totalPixels color d.

End LcdDriverPlain.

(** * Properties *)

(** ** Machine integers *)

Lemma u32_small z : 0 <= z < 4294967296 -> u32 z = z.
Proof. intros H. unfold u32. now apply Z.mod_small. Qed.

Lemma u16_small z : 0 <= z < 65536 -> u16 z = z.
Proof. intros H. unfold u16. now apply Z.mod_small. Qed.

Lemma u32_range z : 0 <= u32 z < 4294967296.
Proof. unfold u32. apply Z.mod_pos_bound. lia. Qed.

(** ** The bus transport *)

Module DevConfigFacts.
Import DevConfig.

(** A length inside the array reads the array. *)
Lemma bytes_at_within data len :
  (Z.to_nat len <= length data)%nat -> bytes_at data len = take (Z.to_nat len) data.
Proof.
  intros Hin. unfold bytes_at.
  replace (Z.to_nat len - length data)%nat with 0%nat by lia. apply app_nil_r.
Qed.

(** The bytes handed over are as many as the length says. *)
Lemma bytes_at_length data len : length (bytes_at data len) = Z.to_nat len.
Proof. unfold bytes_at. rewrite length_app, length_take, length_replicate. lia. Qed.

(** A length behind the end of the array reads the whole array and then
    what lies behind it. *)
Lemma bytes_at_past_end data len :
  (length data <= Z.to_nat len)%nat ->
  bytes_at data len = data ++ replicate (Z.to_nat len - length data) beyond.
Proof. intros Hpast. unfold bytes_at. rewrite take_ge by lia. reflexivity. Qed.

Lemma dma_chunks_app evs1 evs2 :
  dma_chunks (evs1 ++ evs2) = dma_chunks evs1 ++ dma_chunks evs2.
Proof.
  induction evs1 as [|e evs1 IH]; [reflexivity|].
  destruct e; simpl; rewrite IH; reflexivity.
Qed.

Lemma dma_bytes_app evs1 evs2 :
  dma_bytes (evs1 ++ evs2) = dma_bytes evs1 ++ dma_bytes evs2.
Proof. unfold dma_bytes. rewrite dma_chunks_app. apply concat_app. Qed.

Lemma deasserts_app evs1 evs2 :
  deasserts (evs1 ++ evs2) = (deasserts evs1 + deasserts evs2)%nat.
Proof.
  induction evs1 as [|e evs1 IH]; [reflexivity|].
  destruct e as [[] []| | | |]; simpl; rewrite IH; reflexivity.
Qed.

Lemma dev_eta d : Dev (bulk_active d) (dmaBuffer d) (bus d) = d.
Proof. destruct d; reflexivity. Qed.

(** No session is open when the program starts. *)
Lemma no_session_at_power_on buf : bulk_active (power_on buf) = false.
Proof. reflexivity. Qed.

(** No session is open after DEV_SPI_Write_Bulk_End, whatever came before. *)
Lemma no_session_after_end d : bulk_active (DEV_SPI_Write_Bulk_End d) = false.
Proof. unfold DEV_SPI_Write_Bulk_End. destruct (bulk_active d) eqn:E; [reflexivity|exact E]. Qed.

Lemma session_after_start d : bulk_active (DEV_SPI_Write_Bulk_Start d) = true.
Proof. reflexivity. Qed.

(** C4.  DEV_SPI_Write_Bulk_Data called while no session is active (the
    state at power-on, see [no_session_at_power_on], or any state that
    DEV_SPI_Write_Bulk_End has left, see [no_session_after_end]) returns
    with the device state as it was, for every buffer and length: the bus
    log gains no event, so no byte is transferred, and the call has no
    failing outcome. *)
Theorem bulk_data_outside_session (d : dev) (data : list Z) (len : Z) :
  bulk_active d = false ->
  DEV_SPI_Write_Bulk_Data data len d = d
  /\ bus (DEV_SPI_Write_Bulk_Data data len d) = bus d
  /\ dma_bytes (bus (DEV_SPI_Write_Bulk_Data data len d)) = dma_bytes (bus d).
Proof.
  intros Hoff.
  assert (Hsame : DEV_SPI_Write_Bulk_Data data len d = d).
  { unfold DEV_SPI_Write_Bulk_Data. rewrite Hoff. simpl.
    rewrite orb_true_r. reflexivity. }
  rewrite Hsame. auto.
Qed.

(** Before the first start, and after a start and its end. *)
Lemma bulk_data_outside_session_witness :
  DEV_SPI_Write_Bulk_Data [1; 2; 3] 3 (power_on [0; 0]) = power_on [0; 0]
  /\ let d := DEV_SPI_Write_Bulk_End (DEV_SPI_Write_Bulk_Start (power_on [0; 0])) in
     DEV_SPI_Write_Bulk_Data [1; 2; 3] 3 d = d.
Proof.
  split.
  - apply (bulk_data_outside_session (power_on [0; 0]) [1; 2; 3] 3). reflexivity.
  - apply (bulk_data_outside_session
             (DEV_SPI_Write_Bulk_End (DEV_SPI_Write_Bulk_Start (power_on [0; 0])))
             [1; 2; 3] 3).
    reflexivity.
Defined.

(** Inside a session the same call does transfer the bytes. *)
Lemma bulk_data_in_session d data len :
  bulk_active d = true -> len <> 0 ->
  bus (DEV_SPI_Write_Bulk_Data data len d) = bus d ++ [WriteBytes (bytes_at data len)].
Proof.
  intros Hon Hlen. unfold DEV_SPI_Write_Bulk_Data. rewrite Hon.
  destruct (Z.eqb_spec len 0); [contradiction|]. reflexivity.
Qed.

(** What one call of DEV_SPI_Write_Bulk_End puts on the bus. *)
Lemma bulk_end_bus d :
  bus (DEV_SPI_Write_Bulk_End d)
  = bus d ++ (if bulk_active d then [EndTransaction; DigitalWrite DEV_CS_PIN true] else []).
Proof.
  unfold DEV_SPI_Write_Bulk_End. destruct (bulk_active d); simpl.
  - rewrite <- app_assoc. reflexivity.
  - rewrite app_nil_r. reflexivity.
Qed.

(** C7, as the code has it.  Two calls of DEV_SPI_Write_Bulk_End in a row,
    from any state, leave the same state as one call and the session
    inactive; the second call puts nothing on the bus; the first ends the
    transaction and drives the chip select high when a session was active
    and does nothing otherwise.  So the bus is de-asserted once when a
    session was active and not at all when none was. *)
Theorem bulk_end_twice (d : dev) :
  DEV_SPI_Write_Bulk_End (DEV_SPI_Write_Bulk_End d) = DEV_SPI_Write_Bulk_End d
  /\ bulk_active (DEV_SPI_Write_Bulk_End (DEV_SPI_Write_Bulk_End d)) = false
  /\ bus (DEV_SPI_Write_Bulk_End (DEV_SPI_Write_Bulk_End d)) = bus (DEV_SPI_Write_Bulk_End d)
  /\ bus (DEV_SPI_Write_Bulk_End d)
     = bus d ++ (if bulk_active d then [EndTransaction; DigitalWrite DEV_CS_PIN true] else [])
  /\ deasserts (bus (DEV_SPI_Write_Bulk_End (DEV_SPI_Write_Bulk_End d)))
     = (deasserts (bus d) + (if bulk_active d then 1 else 0))%nat.
Proof.
  assert (Hidem : DEV_SPI_Write_Bulk_End (DEV_SPI_Write_Bulk_End d) = DEV_SPI_Write_Bulk_End d).
  { unfold DEV_SPI_Write_Bulk_End at 1. rewrite no_session_after_end. reflexivity. }
  rewrite Hidem. repeat split.
  - apply no_session_after_end.
  - apply bulk_end_bus.
  - rewrite bulk_end_bus, deasserts_app. destruct (bulk_active d); reflexivity.
Qed.

(** C7, as the claim has it, fails when no session is active: from the
    power-on state two calls put nothing on the bus, so the chip select is
    driven high zero times, not once. *)
Lemma bulk_end_twice_inactive :
  let d := DEV_SPI_Write_Bulk_End (DEV_SPI_Write_Bulk_End (power_on [])) in
  bus d = [] /\ deasserts (bus d) <> 1%nat.
Proof. simpl. split; [reflexivity | discriminate]. Qed.

End DevConfigFacts.

(** ** The display driver: solid fill *)

Module LcdDriverFacts.
Import DevConfig LcdDriver DevConfigFacts.

Lemma emit_emit evs1 evs2 d : emit evs2 (emit evs1 d) = emit (evs1 ++ evs2) d.
Proof. unfold emit. simpl. rewrite app_assoc. reflexivity. Qed.

Lemma emit_nil d : emit [] d = d.
Proof. unfold emit. rewrite app_nil_r. apply dev_eta. Qed.

Lemma LCD_WriteReg_emit da d :
  LCD_WriteReg da d
  = emit [DigitalWrite DEV_CS_PIN false; DigitalWrite DEV_DC_PIN false;
          BeginTransaction 60000000; Transfer (u8 da); EndTransaction;
          DigitalWrite DEV_CS_PIN true] d.
Proof. unfold LCD_WriteReg, DEV_Digital_Write. rewrite !emit_emit. reflexivity. Qed.

Lemma LCD_WriteData_Byte_emit da d :
  LCD_WriteData_Byte da d
  = emit [DigitalWrite DEV_CS_PIN false; DigitalWrite DEV_DC_PIN true;
          BeginTransaction 60000000; Transfer (u8 da); EndTransaction;
          DigitalWrite DEV_CS_PIN true] d.
Proof. unfold LCD_WriteData_Byte, DEV_Digital_Write. rewrite !emit_emit. reflexivity. Qed.

(** The addressing commands never use a block write. *)
Lemma LCD_SetCursor_emit Xstart Ystart Xend Yend d :
  exists evs, LCD_SetCursor Xstart Ystart Xend Yend d = emit evs d /\ dma_chunks evs = [].
Proof.
  unfold LCD_SetCursor, HORIZONTAL.
  rewrite !LCD_WriteReg_emit, !LCD_WriteData_Byte_emit, !emit_emit.
  eexists. split; reflexivity.
Qed.

Section Pairs.

Variables hi lo : Z.

Lemma pixel_pairs_S n : pixel_pairs hi lo (S n) = hi :: lo :: pixel_pairs hi lo n.
Proof. reflexivity. Qed.

Lemma pixel_pairs_length n : length (pixel_pairs hi lo n) = (2 * n)%nat.
Proof. induction n as [|n IH]; [reflexivity|]. rewrite pixel_pairs_S. simpl. rewrite IH. lia. Qed.

Lemma pixel_pairs_app a b :
  pixel_pairs hi lo (a + b) = pixel_pairs hi lo a ++ pixel_pairs hi lo b.
Proof. unfold pixel_pairs. rewrite replicate_add. apply concat_app. Qed.

Lemma pixel_pairs_snoc k : pixel_pairs hi lo (S k) = pixel_pairs hi lo k ++ [hi; lo].
Proof. replace (S k) with (k + 1)%nat by lia. rewrite pixel_pairs_app. reflexivity. Qed.

Lemma take_pixel_pairs m n :
  (m <= n)%nat -> take (2 * m) (pixel_pairs hi lo n) = pixel_pairs hi lo m.
Proof.
  intros Hmn. replace n with (m + (n - m))%nat by lia.
  rewrite pixel_pairs_app. apply take_app_length'. now rewrite pixel_pairs_length.
Qed.

(** Every second byte is [hi], the others are [lo]. *)
Lemma pixel_pairs_lookup n j :
  (j < 2 * n)%nat ->
  pixel_pairs hi lo n !! j = Some (if Nat.even j then hi else lo).
Proof.
  revert j. induction n as [|n IH]; intros j Hj; [lia|].
  rewrite pixel_pairs_S. destruct j as [|[|j]]; [reflexivity|reflexivity|].
  simpl. apply IH. lia.
Qed.

End Pairs.

Section Fill.

Variables hi lo : Z.

(** The buffer holds [n] pairs: its size is [2 * n] bytes. *)
Variable n : nat.
Hypothesis n_pos : (0 < n)%nat.

Let size : Z := Z.of_nat (2 * n).

(** Two stores at an even index extend the filled prefix by one pair. *)
Lemma take_two_stores (buf : list Z) k :
  (2 * k + 1 < length buf)%nat ->
  take (2 * S k) (<[S (2 * k) := lo]> (<[(2 * k)%nat := hi]> buf))
  = take (2 * k) buf ++ [hi; lo].
Proof.
  intros Hlen.
  replace (2 * S k)%nat with (S (S (2 * k))) by lia.
  rewrite (take_S_r _ _ lo).
  2:{ apply list_lookup_insert_eq. rewrite length_insert. lia. }
  rewrite take_insert_ge by lia.
  rewrite (take_S_r _ _ hi).
  2:{ apply list_lookup_insert_eq. lia. }
  rewrite take_insert_ge by lia.
  rewrite <- app_assoc. reflexivity.
Qed.

(** The fill loop, entered with the first [k] pairs in place, ends with
    the whole buffer holding the pair pattern. *)
Lemma fill_loop_from (fuel k : nat) (buf : list Z) :
  size <= 65534 ->
  (k <= n)%nat -> (n - k < fuel)%nat ->
  length buf = (2 * n)%nat ->
  take (2 * k) buf = pixel_pairs hi lo k ->
  fill_loop size fuel hi lo (Z.of_nat (2 * k)) buf = Some (pixel_pairs hi lo n).
Proof.
  intros Hmax. revert k buf.
  induction fuel as [|fuel IH]; intros k buf Hk Hfuel Hlen Hpre; [lia|].
  cbn [fill_loop]. unfold size in *.
  destruct (Z.ltb_spec (Z.of_nat (2 * k)) (Z.of_nat (2 * n))) as [Hlt|Hge].
  - rewrite Nat2Z.id.
    replace (Z.to_nat (Z.of_nat (2 * k) + 1)) with (S (2 * k)) by lia.
    replace (u16 (Z.of_nat (2 * k) + 2)) with (Z.of_nat (2 * S k))
      by (rewrite u16_small; lia).
    apply IH; [lia | lia | now rewrite !length_insert |].
    rewrite take_two_stores by lia.
    rewrite Hpre, pixel_pairs_snoc. reflexivity.
  - assert (k = n) by lia. subst k.
    rewrite <- Hpre. rewrite take_ge by lia. reflexivity.
Qed.

Lemma fill_loop_pairs (fuel : nat) (buf : list Z) :
  size <= 65534 -> (n < fuel)%nat -> length buf = (2 * n)%nat ->
  fill_loop size fuel hi lo 0 buf = Some (pixel_pairs hi lo n).
Proof.
  intros Hmax Hfuel Hlen.
  apply (fill_loop_from fuel 0 buf); auto; lia.
Qed.

(** The send loop on a buffer holding the pattern: [m] pixels go out in
    pieces of at most one buffer each. *)
Lemma send_loop_pairs (fuel m q : nat) (r : Z) (d : dev) :
  (m < fuel)%nat -> Z.of_nat (2 * m) < 4294967296 ->
  dmaBuffer d = pixel_pairs hi lo n ->
  Z.of_nat (2 * m) = Z.of_nat q * size + r -> 0 <= r < size ->
  exists evs,
    send_loop size fuel (Z.of_nat (2 * m)) d = Some (emit evs d)
    /\ dma_bytes evs = pixel_pairs hi lo m
    /\ Forall (fun c => (0 < length c <= 2 * n)%nat) (dma_chunks evs)
    /\ map (fun c => Z.of_nat (length c)) (dma_chunks evs)
       = replicate q size ++ (if r =? 0 then [] else [r]).
Proof.
  unfold size. revert m q d.
  induction fuel as [|fuel IH]; intros m q d Hfuel Hm Hbuf Hqr Hr; [lia|].
  cbn [send_loop].
  destruct (Z.ltb_spec 0 (Z.of_nat (2 * m))) as [Hpos|Hzero].
  2:{ exists []. rewrite emit_nil. assert (m = 0)%nat by lia. subst m.
      assert (q = 0%nat) by nia. subst q. assert (r = 0) by lia. subst r.
      repeat split. constructor. }
  unfold getDMABuffer. rewrite Hbuf.
  destruct (Z.ltb_spec (Z.of_nat (2 * n)) (Z.of_nat (2 * m))) as [Hbig|Hsmall].
  - (* a full buffer goes out *)
    unfold DEV_SPI_Write_DMA.
    destruct (Z.eqb_spec (Z.of_nat (2 * n)) 0) as [E|_]; [lia|].
    rewrite bytes_at_within by (rewrite pixel_pairs_length; lia). rewrite Nat2Z.id.
    rewrite take_ge by (rewrite pixel_pairs_length; lia).
    replace (u32 (Z.of_nat (2 * m) - Z.of_nat (2 * n))) with (Z.of_nat (2 * (m - n)))
      by (rewrite u32_small; lia).
    destruct q as [|q]; [lia|].
    destruct (IH (m - n)%nat q
                (emit [BeginTransaction 80000000; WriteBytes (pixel_pairs hi lo n);
                       EndTransaction] d))
      as (evs & Hrun & Hbytes & Hsizes & Hcut); [lia | lia | exact Hbuf | lia | exact Hr |].
    eexists. rewrite Hrun, emit_emit. split; [reflexivity|]. split; [|split].
    + rewrite dma_bytes_app, Hbytes. unfold dma_bytes at 1. simpl. rewrite app_nil_r.
      rewrite <- pixel_pairs_app. f_equal. lia.
    + rewrite dma_chunks_app. apply Forall_app. split; [|exact Hsizes].
      simpl. constructor; [|constructor]. rewrite pixel_pairs_length. lia.
    + rewrite dma_chunks_app, map_app, Hcut. cbn [dma_chunks map app replicate].
      rewrite pixel_pairs_length. reflexivity.
  - (* the last, shorter piece *)
    unfold DEV_SPI_Write_DMA.
    destruct (Z.eqb_spec (Z.of_nat (2 * m)) 0) as [E|_]; [lia|].
    rewrite bytes_at_within by (rewrite pixel_pairs_length; lia). rewrite Nat2Z.id.
    rewrite take_pixel_pairs by lia.
    rewrite Z.sub_diag. change (u32 0) with 0.
    destruct fuel as [|fuel]; [lia|]. cbn [send_loop]. simpl (0 <? 0).
    eexists. split; [reflexivity|]. split; [|split].
    + unfold dma_bytes. simpl. now rewrite app_nil_r.
    + simpl. constructor; [|constructor]. rewrite pixel_pairs_length. lia.
    + cbn [dma_chunks map]. rewrite pixel_pairs_length.
      destruct q as [|[|q]]; [| |nia].
      * cbn [replicate app]. destruct (Z.eqb_spec r 0) as [E|_]; [lia|].
        do 2 f_equal. lia.
      * assert (r = 0) by lia. subst r. cbn [replicate app Z.eqb].
        do 2 f_equal. lia.
Qed.

End Fill.

(** A 16-bit color is its two bytes, high byte first. *)
Lemma color_bytes_be color :
  0 <= color < 65536 ->
  u8 (Z.shiftr color 8) * 256 + u8 (Z.land color 255) = color.
Proof.
  intros Hc. rewrite Z.shiftr_div_pow2 by lia.
  change 255 with (Z.ones 8). rewrite Z.land_ones by lia.
  change (2 ^ 8) with 256. unfold u8.
  rewrite (Z.mod_small (color / 256)) by (split; [apply Z.div_pos | apply Z.div_lt_upper_bound]; lia).
  rewrite Z.mod_mod by lia.
  pose proof (Z.div_mod color 256). lia.
Qed.

(** The block writes of LCD_ClearWindow.  For every even size of the
    transfer buffer from 2 to 65534 bytes (the fill counter has 16 bits and
    writes two bytes a round) and every call inside the display, the call
    returns and, after the addressing sequence, sends by block writes
    W * H copies of the color's high byte followed by its low byte,
    W = Xend - Xstart and H = Yend - Ystart, cut into blocks of the buffer
    size and, when the size does not divide the total, a last block of what
    remains. *)
Lemma clear_window_blocks (DMA_BUFFER_SIZE : Z) (fuel : nat)
    (Xstart Ystart Xend Yend color : Z) (d : dev) :
  0 < DMA_BUFFER_SIZE <= 65534 ->
  Z.even DMA_BUFFER_SIZE = true ->
  Z.of_nat (length (dmaBuffer d)) = DMA_BUFFER_SIZE ->
  0 <= Xstart <= Xend -> Xend <= LCD_WIDTH ->
  0 <= Ystart <= Yend -> Yend <= LCD_HEIGHT ->
  DMA_BUFFER_SIZE + (Xend - Xstart) * (Yend - Ystart) < Z.of_nat fuel ->
  exists d' evs,
    LCD_ClearWindow DMA_BUFFER_SIZE fuel Xstart Ystart Xend Yend color d = Some d'
    /\ bus d' = bus (LCD_SetCursor Xstart Ystart (u16 (Xend - 1)) (u16 (Yend - 1)) d) ++ evs
    /\ dma_bytes evs = solid_pixels color (Z.to_nat ((Xend - Xstart) * (Yend - Ystart)))
    /\ Z.of_nat (length (dma_bytes evs)) = (Xend - Xstart) * (Yend - Ystart) * 2
    /\ Forall (fun c => 0 < Z.of_nat (length c) <= DMA_BUFFER_SIZE) (dma_chunks evs)
    /\ dma_bytes (bus d')
       = dma_bytes (bus d)
         ++ solid_pixels color (Z.to_nat ((Xend - Xstart) * (Yend - Ystart)))
    /\ map (fun c => Z.of_nat (length c)) (dma_chunks evs)
       = replicate (Z.to_nat ((Xend - Xstart) * (Yend - Ystart) * 2 / DMA_BUFFER_SIZE))
                   DMA_BUFFER_SIZE
         ++ (if (Xend - Xstart) * (Yend - Ystart) * 2 mod DMA_BUFFER_SIZE =? 0 then []
             else [(Xend - Xstart) * (Yend - Ystart) * 2 mod DMA_BUFFER_SIZE]).
Proof.
  intros Hsize Heven Hbuf HX HXmax HY HYmax Hfuel.
  unfold LCD_WIDTH in HXmax. unfold LCD_HEIGHT in HYmax.
  apply Z.even_spec in Heven. destruct Heven as [half Hhalf].
  set (n := Z.to_nat half).
  assert (Hn : DMA_BUFFER_SIZE = Z.of_nat (2 * n)) by lia.
  set (W := Xend - Xstart) in *. set (H := Yend - Ystart) in *.
  assert (HWH : 0 <= W * H <= 76800) by nia.
  set (m := Z.to_nat (W * H)).
  assert (Hm : W * H * 2 = Z.of_nat (2 * m)) by lia.
  pose proof (Z.div_mod (W * H * 2) DMA_BUFFER_SIZE ltac:(lia)) as Hdm.
  pose proof (Z.mod_pos_bound (W * H * 2) DMA_BUFFER_SIZE ltac:(lia)) as Hmod.
  assert (Hdiv : 0 <= W * H * 2 / DMA_BUFFER_SIZE) by (apply Z.div_pos; lia).
  set (q := W * H * 2 / DMA_BUFFER_SIZE) in *.
  set (r := W * H * 2 mod DMA_BUFFER_SIZE) in *.
  unfold LCD_ClearWindow, fill_and_send. fold W H.
  rewrite (u32_small W) by lia. rewrite (u32_small H) by lia.
  rewrite (u32_small (W * H)) by lia. rewrite (u32_small (W * H * 2)) by lia.
  destruct (LCD_SetCursor_emit Xstart Ystart (u16 (Xend - 1)) (u16 (Yend - 1)) d)
    as (evs0 & Hcur & Hcur_chunks).
  rewrite Hcur. unfold DEV_Digital_Write. rewrite !emit_emit.
  unfold getDMABuffer. cbn [dmaBuffer emit].
  rewrite Hn, Hm.
  rewrite (fill_loop_pairs _ _ n) by lia.
  set (d1 := set_dmaBuffer _ _).
  destruct (send_loop_pairs (u8 (Z.shiftr color 8)) (u8 (Z.land color 255)) n
              ltac:(lia) fuel m (Z.to_nat q) r d1)
    as (evs & Hrun & Hbytes & Hsizes & Hcut); [lia | lia | reflexivity | lia | lia |].
  rewrite Hrun. rewrite emit_emit.
  exists (emit (evs ++ [DigitalWrite DEV_CS_PIN (negb (1 =? 0))]) d1).
  exists ([DigitalWrite DEV_CS_PIN (negb (0 =? 0)); DigitalWrite DEV_DC_PIN (negb (1 =? 0))]
            ++ evs ++ [DigitalWrite DEV_CS_PIN (negb (1 =? 0))]).
  assert (Hpix : dma_bytes ([DigitalWrite DEV_CS_PIN (negb (0 =? 0));
                             DigitalWrite DEV_DC_PIN (negb (1 =? 0))]
                            ++ evs ++ [DigitalWrite DEV_CS_PIN (negb (1 =? 0))])
                 = solid_pixels color m).
  { rewrite !dma_bytes_app, Hbytes. unfold dma_bytes. simpl. now rewrite app_nil_r. }
  split; [reflexivity|]. split.
  { subst d1. cbn [bus emit set_dmaBuffer]. rewrite <- !app_assoc. reflexivity. }
  split; [exact Hpix|]. split.
  { rewrite Hpix. unfold solid_pixels. rewrite pixel_pairs_length. lia. }
  split.
  { rewrite !dma_chunks_app. simpl. rewrite app_nil_r.
    eapply Forall_impl; [exact Hsizes|]. simpl. intros c Hc. lia. }
  split.
  { subst d1. cbn [bus emit set_dmaBuffer].
    assert (Hcur_bytes : dma_bytes evs0 = []) by (unfold dma_bytes; now rewrite Hcur_chunks).
    rewrite <- Hpix, !dma_bytes_app, Hcur_bytes.
    cbn [app]. rewrite <- !app_assoc. reflexivity. }
  rewrite !dma_chunks_app. cbn [dma_chunks app]. rewrite app_nil_r, Hcut.
  reflexivity.
Qed.

(** A 5 by 1 window through a 4-byte buffer: 10 bytes in pieces of 4, 4, 2. *)
Example clear_window_pieces :
  option_map (fun d' => dma_chunks (bus d'))
    (LCD_ClearWindow 4 20 10 20 15 21 4660 (power_on [0; 0; 0; 0]))
  = Some [[18; 52; 18; 52]; [18; 52; 18; 52]; [18; 52]].
Proof. vm_compute. reflexivity. Qed.

(** C1, as the claim has it, fails for a buffer of odd size.  With 3
    bytes the buffer is filled with high, low, high; the window with
    corners (0, 0) and (1, 0), 2 by 1, needs 4 bytes, sent as the whole
    buffer and then its first byte again: the display receives the window
    and then the second pixel as high, high. *)
Lemma clear_window_odd_buffer :
  exists d' addr,
    LCD_ClearWindow 3 10 0 0 2 1 4660 (power_on [0; 0; 0]) = Some d'
    /\ Wire.run (Wire.idle true) (bus d')
       = Some (Wire.idle true, addr ++ map Wire.data [18; 52; 18; 18])
    /\ Wire.window_of addr = Some (0, 1, 0, 0)
    /\ dma_chunks (bus d') = [[18; 52; 18]; [18]]
    /\ dma_bytes (bus d') <> solid_pixels 4660 2.
Proof.
  eexists.
  exists ([Wire.command 42; Wire.data 0; Wire.data 0; Wire.data 0; Wire.data 1;
           Wire.command 43; Wire.data 0; Wire.data 0; Wire.data 0; Wire.data 0;
           Wire.command 44]).
  split; [vm_compute; reflexivity|].
  split; [vm_compute; reflexivity|].
  split; [vm_compute; reflexivity|].
  split; [reflexivity|]. vm_compute. discriminate.
Qed.

(** With a buffer of 65536 bytes the 16-bit fill counter wraps before it
    reaches the size: the fill loop has no last round. *)
Lemma fill_loop_wraps fuel hi lo i buf :
  0 <= i < 65536 -> fill_loop 65536 fuel hi lo i buf = None.
Proof.
  revert i buf. induction fuel as [|fuel IH]; intros i buf Hi; [reflexivity|].
  cbn [fill_loop]. destruct (Z.ltb_spec i 65536); [|lia].
  apply IH. unfold u16. apply Z.mod_pos_bound. lia.
Qed.

(** With a buffer of size 0 the send loop sends pieces of 0 bytes and
    never gets nearer to the end. *)
Lemma send_loop_stuck fuel remaining d :
  0 < remaining < 4294967296 -> send_loop 0 fuel remaining d = None.
Proof.
  revert d. induction fuel as [|fuel IH]; intros d Hr; [reflexivity|].
  cbn [send_loop]. destruct (Z.ltb_spec 0 remaining); [|lia].
  rewrite Z.sub_0_r, u32_small by lia. apply IH. lia.
Qed.

End LcdDriverFacts.

(** ** The display manager: streaming a frame *)

Module LcdManagerFacts.
Import DevConfig LcdDriver LcdManager DevConfigFacts LcdDriverFacts.

Section FrameLoop.

Variable fb : list Z.
Variables totalBytes chunkSize : Z.
Hypothesis chunk_pos : 0 < chunkSize.
Hypothesis no_wrap : totalBytes + chunkSize < 4294967296.
Hypothesis fb_size : totalBytes <= Z.of_nat (length fb).

(** Inside a session the loop sends the bytes from [offset] up to
    [totalBytes], in block writes only, cut as [chunk_sizes] says.  The
    loop has ended within [fuel] rounds when [chunk_sizes] is shorter than
    [fuel]. *)
Lemma frame_loop_run (fuel : nat) (offset : Z) (d : dev) :
  0 <= offset ->
  bulk_active d = true ->
  (length (chunk_sizes fuel totalBytes chunkSize offset) < fuel)%nat ->
  exists evs,
    frame_loop fuel fb totalBytes chunkSize offset d = Some (emit evs d)
    /\ evs = map WriteBytes (dma_chunks evs)
    /\ dma_bytes evs = take (Z.to_nat (totalBytes - offset)) (drop (Z.to_nat offset) fb)
    /\ map (fun c => Z.of_nat (length c)) (dma_chunks evs)
       = chunk_sizes fuel totalBytes chunkSize offset.
Proof.
  revert offset d.
  induction fuel as [|fuel IH]; intros offset d Hoff Hon Hlen; [simpl in Hlen; lia|].
  cbn [frame_loop chunk_sizes] in *.
  destruct (Z.ltb_spec offset totalBytes) as [Hlt|Hge].
  2:{ exists []. rewrite emit_nil. repeat split.
      replace (Z.to_nat (totalBytes - offset)) with 0%nat by lia. reflexivity. }
  rewrite (u32_small (totalBytes - offset)) in * by lia.
  rewrite (u32_small (offset + chunkSize)) in * by lia.
  set (size := Z.min chunkSize (totalBytes - offset)) in *.
  assert (Hsize : 0 < size <= totalBytes - offset) by lia.
  unfold DEV_SPI_Write_Bulk_Data. rewrite Hon.
  destruct (Z.eqb_spec size 0) as [E|_]; [lia|]. cbn [orb negb].
  set (piece := bytes_at (drop (Z.to_nat offset) fb) size).
  destruct (IH (offset + chunkSize) (emit [WriteBytes piece] d))
    as (evs & Hrun & Hshape & Hbytes & Hsizes); [lia | exact Hon | simpl in Hlen; lia |].
  exists ([WriteBytes piece] ++ evs). rewrite Hrun, emit_emit.
  split; [reflexivity|]. split; [|split].
  - simpl. f_equal. exact Hshape.
  - rewrite dma_bytes_app, Hbytes. unfold dma_bytes at 1. simpl. rewrite app_nil_r.
    subst piece. rewrite bytes_at_within by (rewrite length_drop; lia).
    destruct (Z.le_ge_cases chunkSize (totalBytes - offset)) as [Hfull|Hlast].
    + replace size with chunkSize by lia.
      replace (Z.to_nat (offset + chunkSize)) with (Z.to_nat offset + Z.to_nat chunkSize)%nat by lia.
      rewrite <- drop_drop, take_take_drop. f_equal. lia.
    + replace size with (totalBytes - offset) by lia.
      replace (Z.to_nat (totalBytes - (offset + chunkSize))) with 0%nat by lia.
      rewrite take_0, app_nil_r. reflexivity.
  - simpl. f_equal; [|exact Hsizes].
    subst piece. rewrite bytes_at_length. lia.
Qed.

End FrameLoop.

(** C2, as the code has it.  Streaming a frame buffer of
    320 * 240 * 2 = 153600 bytes with displayFrame returns; between
    DEV_SPI_Write_Bulk_Start and the end of the session it puts only block
    writes on the bus; these carry exactly the 153600 bytes of the buffer,
    in order, in nine pieces of DMA_BUFFER_SIZE = 16384 bytes and a last
    piece of 153600 mod 16384 = 6144 bytes. *)
Theorem display_frame_chunks (fuel : nat) (fb : list Z) (d : dev) :
  Z.of_nat (length fb) = 153600 ->
  (11 <= fuel)%nat ->
  exists d' evs,
    displayFrame fuel (Some fb) d = Some d'
    /\ bus d' = bus (DEV_SPI_Write_Bulk_Start (LCD_SetCursor 0 0 319 239 d))
                ++ evs ++ [EndTransaction; DigitalWrite DEV_CS_PIN true]
    /\ evs = map WriteBytes (dma_chunks evs)
    /\ dma_bytes evs = fb
    /\ Z.of_nat (length (dma_bytes evs))
       = CameraConfig.FRAME_WIDTH * CameraConfig.FRAME_HEIGHT * 2
    /\ map (fun c => Z.of_nat (length c)) (dma_chunks evs)
       = replicate 9 DMA_BUFFER_SIZE ++ [153600 mod DMA_BUFFER_SIZE]
    /\ 153600 mod DMA_BUFFER_SIZE = 6144.
Proof.
  intros Hlen Hfuel.
  destruct (Nat.le_exists_sub 11 fuel Hfuel) as (k & -> & _).
  unfold displayFrame.
  change (u16 (CameraConfig.FRAME_WIDTH - 1)) with 319.
  change (u16 (CameraConfig.FRAME_HEIGHT - 1)) with 239.
  change (u32 (CameraConfig.FRAME_WIDTH * CameraConfig.FRAME_HEIGHT * 2)) with 153600.
  set (d0 := DEV_SPI_Write_Bulk_Start (LCD_SetCursor 0 0 319 239 d)).
  assert (Hon : bulk_active d0 = true) by reflexivity.
  clearbody d0.
  assert (Hcut : chunk_sizes (k + 11) 153600 DMA_BUFFER_SIZE 0
                 = replicate 9 DMA_BUFFER_SIZE ++ [153600 mod DMA_BUFFER_SIZE]).
  { rewrite Nat.add_comm. reflexivity. }
  destruct (frame_loop_run fb 153600 DMA_BUFFER_SIZE) with (fuel := (k + 11)%nat) (offset := 0) (d := d0)
    as (evs & Hrun & Hshape & Hbytes & Hsizes);
    [reflexivity | reflexivity | lia | lia | exact Hon | rewrite Hcut; simpl; lia |].
  rewrite Hrun. exists (DEV_SPI_Write_Bulk_End (emit evs d0)), evs.
  assert (Hall : dma_bytes evs = fb).
  { rewrite Hbytes. rewrite drop_0. apply take_ge. lia. }
  split; [reflexivity|]. split; [|split; [exact Hshape|split; [exact Hall|split; [|split]]]].
  - rewrite bulk_end_bus. cbn [bus emit bulk_active].
    rewrite Hon, <- app_assoc. reflexivity.
  - rewrite Hall, Hlen. reflexivity.
  - rewrite Hsizes. exact Hcut.
  - vm_compute. reflexivity.
Qed.

Lemma display_frame_chunks_witness :
  exists d' evs,
    displayFrame 11 (Some (replicate (Z.to_nat 153600) 7)) (power_on []) = Some d'
    /\ bus d' = bus (DEV_SPI_Write_Bulk_Start (LCD_SetCursor 0 0 319 239 (power_on [])))
                ++ evs ++ [EndTransaction; DigitalWrite DEV_CS_PIN true]
    /\ evs = map WriteBytes (dma_chunks evs)
    /\ dma_bytes evs = replicate (Z.to_nat 153600) 7
    /\ Z.of_nat (length (dma_bytes evs))
       = CameraConfig.FRAME_WIDTH * CameraConfig.FRAME_HEIGHT * 2
    /\ map (fun c => Z.of_nat (length c)) (dma_chunks evs)
       = replicate 9 DMA_BUFFER_SIZE ++ [153600 mod DMA_BUFFER_SIZE]
    /\ 153600 mod DMA_BUFFER_SIZE = 6144.
Proof.
  apply (display_frame_chunks 11 (replicate (Z.to_nat 153600) 7) (power_on [])).
  - rewrite length_replicate. apply Z2Nat.id. lia.
  - lia.
Defined.

(** C2, as the claim has it, fails on the size of the last piece: a
    frame of 153600 bytes goes out as nine pieces of 16384 bytes and one of
    6144 bytes, not 9216 (9 * 16384 = 147456 and 153600 - 147456 = 6144). *)
Lemma display_frame_last_piece :
  option_map (fun d' => map (fun c => Z.of_nat (length c)) (dma_chunks (bus d')))
    (displayFrame 11 (Some (replicate (Z.to_nat 153600) 0)) (power_on []))
  = Some [16384; 16384; 16384; 16384; 16384; 16384; 16384; 16384; 16384; 6144]
  /\ 153600 mod DMA_BUFFER_SIZE <> 9216.
Proof. split; [vm_compute; reflexivity | vm_compute; discriminate]. Qed.

(** The cut of the last piece is needed.  At offset 147456 a block write
    of a whole DMA_BUFFER_SIZE bytes would send the last 6144 bytes of the
    frame and then 10240 bytes from behind the buffer; with the length
    min(chunkSize, totalBytes - offset) it sends the 6144 bytes alone. *)
Lemma last_piece_needs_the_cut (fb : list Z) :
  Z.of_nat (length fb) = 153600 ->
  bytes_at (drop (Z.to_nat 147456) fb) DMA_BUFFER_SIZE
  = drop (Z.to_nat 147456) fb ++ replicate (Z.to_nat 10240) beyond
  /\ bytes_at (drop (Z.to_nat 147456) fb) (Z.min DMA_BUFFER_SIZE (153600 - 147456))
     = drop (Z.to_nat 147456) fb.
Proof.
  intros Hlen. change DMA_BUFFER_SIZE with 16384.
  assert (Hrest : Z.of_nat (length (drop (Z.to_nat 147456) fb)) = 6144).
  { rewrite length_drop. lia. }
  split.
  - rewrite bytes_at_past_end by lia. f_equal. f_equal. lia.
  - rewrite bytes_at_within by lia. apply take_ge. lia.
Qed.

(** The null pointer is sent nowhere. *)
Lemma display_frame_null fuel d : displayFrame fuel None d = Some d.
Proof. reflexivity. Qed.

End LcdManagerFacts.

(** ** The camera: capture *)

Module CameraFacts.
Import CameraConfig Camera.

Lemma same_frame_refl st : same_frame st st.
Proof. repeat split. Qed.

Lemma same_frame_trans st1 st2 st3 :
  same_frame st1 st2 -> same_frame st2 st3 -> same_frame st1 st3.
Proof. unfold same_frame. intuition congruence. Qed.

Lemma polls_same_frame n st : same_frame st (Nat.iter n (delay 1) st).
Proof.
  induction n as [|n IH]; [apply same_frame_refl|].
  simpl. eapply same_frame_trans; [exact IH|]. repeat split.
Qed.

Lemma polls_logs n st :
  serial (Nat.iter n (delay 1) st) = serial st
  /\ sensor_log (Nat.iter n (delay 1) st) = sensor_log st.
Proof. induction n as [|n IH]; [split; reflexivity|]. simpl. exact IH. Qed.

Lemma elapsed_delay t0 ms st : elapsed t0 (delay ms st) = u32 (elapsed t0 st + ms).
Proof.
  unfold elapsed, delay, u32. simpl.
  rewrite Zminus_mod_idemp_l, Zplus_mod_idemp_l. f_equal. lia.
Qed.

(** [n] polls of one millisecond move the clock by [n], modulo 2^32. *)
Lemma elapsed_polls t0 n st :
  elapsed t0 (Nat.iter n (delay 1) st) = u32 (elapsed t0 st + Z.of_nat n).
Proof.
  induction n as [|n IH].
  - simpl. rewrite Z.add_0_r. unfold elapsed, u32. now rewrite Z.mod_mod.
  - rewrite Nat.iter_succ, elapsed_delay, IH. unfold u32.
    rewrite Zplus_mod_idemp_l. f_equal. lia.
Qed.

Section Capture.

Variable hw : sensor.

(** The wait loop while the flag stays clear: it runs until the clock
    shows more than 1000 ms since [startTime], then prints and fails. *)
Lemma wait_done_timeout (fuel k : nat) (startTime : Z) (st : cam) :
  (forall j, cap_done hw j = false) ->
  elapsed startTime st <= 1001 ->
  (Z.to_nat (1001 - elapsed startTime st) < fuel)%nat ->
  wait_done hw fuel startTime k st
  = Some (false, print MsgCaptureTimeout
                   (Nat.iter (Z.to_nat (1001 - elapsed startTime st)) (delay 1) st)).
Proof.
  intros Hnever. revert k st.
  induction fuel as [|fuel IH]; intros k st He Hfuel; [lia|].
  cbn [wait_done]. rewrite Hnever. fold (elapsed startTime st).
  assert (H0 : 0 <= elapsed startTime st) by (unfold elapsed; apply u32_range).
  destruct (Z.ltb_spec 1000 (elapsed startTime st)) as [Hout|Hin].
  - replace (elapsed startTime st) with 1001 by lia. reflexivity.
  - assert (Hnext : elapsed startTime (delay 1 st) = elapsed startTime st + 1).
    { rewrite elapsed_delay. apply u32_small. lia. }
    rewrite IH by (rewrite Hnext; lia).
    rewrite Hnext.
    replace (Z.to_nat (1001 - elapsed startTime st))
      with (S (Z.to_nat (1001 - (elapsed startTime st + 1)))) by lia.
    rewrite Nat.iter_succ_r. reflexivity.
Qed.

(** The wait loop always ends within 1002 reads of the flag, and changes
    nothing but the clock and, on a timeout, the serial log. *)
Lemma wait_done_ends (fuel k : nat) (startTime : Z) (st : cam) :
  elapsed startTime st <= 1001 ->
  (Z.to_nat (1001 - elapsed startTime st) < fuel)%nat ->
  exists r st',
    wait_done hw fuel startTime k st = Some (r, st')
    /\ same_frame st st'
    /\ sensor_log st' = sensor_log st
    /\ serial st' = serial st ++ (if r then [] else [MsgCaptureTimeout]).
Proof.
  revert k st.
  induction fuel as [|fuel IH]; intros k st He Hfuel; [lia|].
  cbn [wait_done]. fold (elapsed startTime st).
  assert (H0 : 0 <= elapsed startTime st) by (unfold elapsed; apply u32_range).
  destruct (cap_done hw k).
  { exists true, st. rewrite app_nil_r. repeat split. }
  destruct (Z.ltb_spec 1000 (elapsed startTime st)) as [Hout|Hin].
  { exists false, (print MsgCaptureTimeout st). repeat split. }
  assert (Hnext : elapsed startTime (delay 1 st) = elapsed startTime st + 1).
  { rewrite elapsed_delay. apply u32_small. lia. }
  destruct (IH (S k) (delay 1 st)) as (r & st' & Hrun & Hsame & Hlog & Hser);
    [lia | lia |].
  exists r, st'. split; [exact Hrun|]. split; [exact Hsame|]. split; assumption.
Qed.

(** Whatever the fuel, a run of the wait loop that returns has changed
    nothing but the clock and, on a timeout, the serial log. *)
Lemma wait_done_frame (fuel k : nat) (startTime : Z) (st : cam) r st' :
  wait_done hw fuel startTime k st = Some (r, st') ->
  same_frame st st'
  /\ sensor_log st' = sensor_log st
  /\ serial st' = serial st ++ (if r then [] else [MsgCaptureTimeout]).
Proof.
  revert k st.
  induction fuel as [|fuel IH]; intros k st Hrun; [discriminate|].
  cbn [wait_done] in Hrun.
  destruct (cap_done hw k).
  { inversion Hrun; subst. rewrite app_nil_r. repeat split. }
  destruct (1000 <? u32 (now st - startTime)).
  { inversion Hrun; subst. repeat split. }
  apply IH in Hrun. exact Hrun.
Qed.

(** The burst read leaves the length and the serial log alone. *)
Lemma read_fifo_frame (n i : nat) (st : cam) :
  jpegLength (read_fifo hw n i st) = jpegLength st
  /\ serial (read_fifo hw n i st) = serial st
  /\ length (jpegBuffer (read_fifo hw n i st)) = length (jpegBuffer st).
Proof.
  revert i st. induction n as [|n IH]; intros i st; [repeat split|].
  cbn [read_fifo]. destruct (IH (S i)
    (set_jpegBuffer (<[i := u8 (fifo_data hw i)]> (jpegBuffer (call (SpiTransfer 0) st)))
       (call (SpiTransfer 0) st))) as (H1 & H2 & H3).
  rewrite H1, H2, H3. simpl. rewrite length_insert. repeat split.
Qed.

(** The four ways captureJPEG returns: camera unavailable, timeout,
    invalid length, success. *)
Lemma captureJPEG_cases (fuel : nat) (st : cam) r st' :
  captureJPEG hw fuel st = Some (r, st') ->
  (isAvailable st = false /\ r = false /\ st' = st)
  \/ (isAvailable st = true /\ r = false
      /\ serial st' = serial st ++ [MsgCaptureTimeout]
      /\ same_frame st st'
      /\ sensor_log st' = sensor_log st ++ [FlushFifo; ClearFifoFlag; StartCapture])
  \/ (isAvailable st = true /\ r = false
      /\ serial st' = serial st ++ [MsgInvalidSize (u32 (fifo_length hw))]
      /\ jpegLength st' = u32 (fifo_length hw)
      /\ (jpegLength st' = 0 \/ MAX_JPEG_SIZE < jpegLength st')
      /\ jpegBuffer st' = jpegBuffer st)
  \/ (isAvailable st = true /\ r = true
      /\ serial st' = serial st ++ [MsgCaptured (u32 (fifo_length hw))]
      /\ jpegLength st' = u32 (fifo_length hw)
      /\ 1 <= jpegLength st' <= MAX_JPEG_SIZE).
Proof.
  unfold captureJPEG. destruct (isAvailable st) eqn:Hav; cbn [negb].
  2:{ intros Hrun. inversion Hrun; subst. left. auto. }
  set (st0 := call StartCapture (call ClearFifoFlag (call FlushFifo st))).
  destruct (wait_done hw fuel (now st0) 0 st0) as [[[|] st1]|] eqn:Hwait; [| |discriminate].
  - (* the flag was raised *)
    apply wait_done_frame in Hwait. destruct Hwait as ((_ & Hbuf & _ & _) & Hlog & Hser).
    rewrite app_nil_r in Hser.
    cbn [jpegLength set_jpegLength].
    pose proof (u32_range (fifo_length hw)) as Hrange.
    destruct (Z.eqb_spec (u32 (fifo_length hw)) 0) as [Hzero|Hnz]; cbn [orb].
    { intros Hrun. inversion Hrun; subst. right. right. left.
      cbn. rewrite Hser. repeat split; auto. }
    destruct (Z.ltb_spec MAX_JPEG_SIZE (u32 (fifo_length hw))) as [Hbig|Hfit].
    { intros Hrun. inversion Hrun; subst. right. right. left.
      cbn. rewrite Hser. repeat split; auto. }
    intros Hrun. inversion Hrun; subst. right. right. right.
    cbn [serial print call jpegLength].
    match goal with |- context [read_fifo hw ?n ?i ?s] =>
      destruct (read_fifo_frame n i s) as (Hlen & Hser' & _) end.
    rewrite Hlen, Hser'. cbn. rewrite Hser. repeat split; auto; lia.
  - (* the loop gave up *)
    apply wait_done_frame in Hwait. destruct Hwait as (Hsame & Hlog & Hser).
    intros Hrun. inversion Hrun; subst. right. left.
    repeat split; try apply Hsame.
    + exact Hser.
    + rewrite Hlog. subst st0. cbn. rewrite <- !app_assoc. reflexivity.
Qed.

End Capture.

Lemma elapsed_start st : elapsed (now st) st = 0.
Proof. unfold elapsed. rewrite Z.sub_diag. reflexivity. Qed.

(** With fuel for 1002 reads of the flag captureJPEG returns. *)
Lemma captureJPEG_returns (hw : sensor) (fuel : nat) (st : cam) :
  (1002 <= fuel)%nat -> exists r st', captureJPEG hw fuel st = Some (r, st').
Proof.
  intros Hfuel. unfold captureJPEG.
  destruct (isAvailable st); cbn [negb]; [|eauto].
  set (st0 := call StartCapture (call ClearFifoFlag (call FlushFifo st))).
  destruct (wait_done_ends hw fuel 0 (now st0) st0) as (r & st1 & Hrun & _).
  { rewrite elapsed_start. lia. }
  { rewrite elapsed_start. lia. }
  rewrite Hrun. destruct r; [|eauto].
  destruct (_ || _); eauto.
Qed.

(** The run of captureJPEG when the flag is never raised. *)
Lemma captureJPEG_times_out (hw : sensor) (fuel : nat) (st : cam) :
  isAvailable st = true ->
  (forall k, cap_done hw k = false) ->
  (1002 <= fuel)%nat ->
  captureJPEG hw fuel st
  = Some (false, print MsgCaptureTimeout
                   (Nat.iter 1001 (delay 1)
                      (call StartCapture (call ClearFifoFlag (call FlushFifo st))))).
Proof.
  intros Hav Hnever Hfuel. unfold captureJPEG. rewrite Hav. cbn [negb].
  set (st0 := call StartCapture (call ClearFifoFlag (call FlushFifo st))).
  assert (Hstart : elapsed (now st0) st0 = 0) by apply elapsed_start.
  rewrite wait_done_timeout by (try assumption; rewrite Hstart; lia).
  rewrite Hstart. reflexivity.
Qed.

(** C5, as the code has it.  When the camera is available and the
    capture-done flag is never raised, captureJPEG returns failure; on the
    millisecond clock, which only delay(1) moves, the call has then taken
    1001 ms: not less than the timeout of 1000 ms, not more than the
    timeout and one poll interval of 1 ms.  It has printed the timeout
    line and nothing else. *)
Theorem capture_timeout_bounds (hw : sensor) (fuel : nat) (st : cam) :
  isAvailable st = true ->
  (forall k, cap_done hw k = false) ->
  (1002 <= fuel)%nat ->
  exists st',
    captureJPEG hw fuel st = Some (false, st')
    /\ elapsed (now st) st' = 1001
    /\ 1000 <= elapsed (now st) st' <= 1000 + 1
    /\ printed st st' = [MsgCaptureTimeout].
Proof.
  intros Hav Hnever Hfuel.
  rewrite (captureJPEG_times_out hw fuel st Hav Hnever Hfuel).
  set (st0 := call StartCapture (call ClearFifoFlag (call FlushFifo st))).
  eexists. split; [reflexivity|].
  assert (Hel : elapsed (now st) (print MsgCaptureTimeout (Nat.iter 1001 (delay 1) st0))
                = 1001).
  { change (elapsed (now st) (print ?m ?s)) with (elapsed (now st) s).
    rewrite elapsed_polls. change (now st) with (now st0).
    rewrite elapsed_start. reflexivity. }
  rewrite Hel. split; [reflexivity|]. split; [lia|].
  unfold printed. cbn [serial print].
  destruct (polls_logs 1001 st0) as (-> & _).
  change (serial st0) with (serial st). apply drop_app_length.
Qed.

Lemma capture_timeout_bounds_witness :
  exists st',
    captureJPEG silent_sensor 1002 (power_on true) = Some (false, st')
    /\ elapsed (now (power_on true)) st' = 1001
    /\ 1000 <= elapsed (now (power_on true)) st' <= 1000 + 1
    /\ printed (power_on true) st' = [MsgCaptureTimeout].
Proof.
  apply (capture_timeout_bounds silent_sensor 1002 (power_on true)).
  - reflexivity.
  - intros k. reflexivity.
  - lia.
Defined.

(** C5, as the claim has it, fails when the camera is not available (the
    identity check of init() did not pass): captureJPEG returns failure at
    once, with no time spent polling, although the flag is never raised. *)
Lemma capture_unavailable_no_wait :
  (forall k, cap_done silent_sensor k = false)
  /\ captureJPEG silent_sensor 1002 (power_on false) = Some (false, power_on false)
  /\ elapsed (now (power_on false)) (power_on false) = 0
  /\ ~ 1000 <= elapsed (now (power_on false)) (power_on false).
Proof.
  split; [intros k; reflexivity|]. split; [reflexivity|].
  rewrite elapsed_start. split; [reflexivity | lia].
Qed.

(** C6.  captureJPEG returns (within 1002 reads of the flag); whenever it
    returns success the stored length is the value read from the
    frame-length register and lies between 1 and MAX_JPEG_SIZE; and when
    that register reads 0 or more than MAX_JPEG_SIZE the result is
    failure. *)
Theorem capture_length_invariant (hw : sensor) (fuel : nat) (st : cam) :
  (1002 <= fuel)%nat ->
  exists r st',
    captureJPEG hw fuel st = Some (r, st')
    /\ (r = true ->
        jpegLength st' = u32 (fifo_length hw) /\ 1 <= jpegLength st' <= MAX_JPEG_SIZE)
    /\ (u32 (fifo_length hw) = 0 \/ MAX_JPEG_SIZE < u32 (fifo_length hw) -> r = false).
Proof.
  intros Hfuel.
  destruct (captureJPEG_returns hw fuel st Hfuel) as (r & st' & Hrun).
  exists r, st'. split; [exact Hrun|].
  destruct (captureJPEG_cases hw fuel st r st' Hrun)
    as [(_ & -> & _) | [(_ & -> & _) | [(_ & -> & _) | (_ & -> & _ & Hlen & Hfit)]]];
    try (split; [discriminate | reflexivity]).
  split; [auto|]. rewrite <- Hlen. lia.
Qed.

Lemma capture_length_invariant_witness :
  exists r st',
    captureJPEG (ready_sensor 3 5) 1002 (power_on true) = Some (r, st')
    /\ (r = true ->
        jpegLength st' = u32 (fifo_length (ready_sensor 3 5))
        /\ 1 <= jpegLength st' <= MAX_JPEG_SIZE)
    /\ (u32 (fifo_length (ready_sensor 3 5)) = 0
        \/ MAX_JPEG_SIZE < u32 (fifo_length (ready_sensor 3 5)) -> r = false).
Proof.
  apply (capture_length_invariant (ready_sensor 3 5) 1002 (power_on true)). lia.
Defined.

(** A capture that succeeds: the flag is up at the fourth read, the
    frame has five bytes. *)
Example capture_five_bytes :
  option_map (fun '(r, st') => (r, jpegLength st', take 6 (jpegBuffer st'), now st'))
    (captureJPEG (ready_sensor 3 5) 1002 (power_on true))
  = Some (true, 5, [1; 2; 3; 4; 5; 0], 3).
Proof. vm_compute. reflexivity. Qed.

(** Lengths the register can show that make the capture fail. *)
Example capture_zero_length :
  option_map fst (captureJPEG (ready_sensor 3 0) 1002 (power_on true)) = Some false.
Proof. vm_compute. reflexivity. Qed.

Example capture_too_long :
  option_map fst (captureJPEG (ready_sensor 3 32769) 1002 (power_on true)) = Some false.
Proof. vm_compute. reflexivity. Qed.

(** C9.  When captureJPEG returns having printed the capture-timeout
    line, it returns failure, the compressed-frame buffer and the stored
    length are what they were before the call, and the sensor has only
    been asked to flush, clear its flag and start: no payload byte was
    read. *)
Theorem capture_timeout_keeps_frame (hw : sensor) (fuel : nat) (st : cam)
    (r : bool) (st' : cam) :
  captureJPEG hw fuel st = Some (r, st') ->
  In MsgCaptureTimeout (printed st st') ->
  r = false
  /\ jpegBuffer st' = jpegBuffer st
  /\ jpegLength st' = jpegLength st
  /\ sensor_ops st st' = [FlushFifo; ClearFifoFlag; StartCapture].
Proof.
  intros Hrun Hprinted. unfold printed in Hprinted.
  destruct (captureJPEG_cases hw fuel st r st' Hrun)
    as [(_ & -> & ->) | [(_ & -> & Hser & Hsame & Hlog) | [(_ & _ & Hser & _) | (_ & _ & Hser & _)]]].
  - rewrite drop_all in Hprinted. destruct Hprinted.
  - destruct Hsame as (_ & Hbuf & Hlen & _).
    repeat split; try assumption.
    unfold sensor_ops. rewrite Hlog. apply drop_app_length.
  - rewrite Hser, drop_app_length in Hprinted.
    destruct Hprinted as [E|[]]. discriminate E.
  - rewrite Hser, drop_app_length in Hprinted.
    destruct Hprinted as [E|[]]. discriminate E.
Qed.

Lemma capture_timeout_keeps_frame_witness :
  exists st',
    captureJPEG silent_sensor 1002 (power_on true) = Some (false, st')
    /\ jpegBuffer st' = jpegBuffer (power_on true)
    /\ jpegLength st' = jpegLength (power_on true)
    /\ sensor_ops (power_on true) st' = [FlushFifo; ClearFifoFlag; StartCapture].
Proof.
  set (st' := print MsgCaptureTimeout
                (Nat.iter 1001 (delay 1)
                   (call StartCapture (call ClearFifoFlag (call FlushFifo (power_on true)))))).
  assert (Hrun : captureJPEG silent_sensor 1002 (power_on true) = Some (false, st')).
  { apply captureJPEG_times_out; [reflexivity | intros k; reflexivity | lia]. }
  exists st'. split; [exact Hrun|].
  apply (capture_timeout_keeps_frame silent_sensor 1002 (power_on true) false st' Hrun).
  vm_compute. left. reflexivity.
Defined.

End CameraFacts.

(** ** The camera: decode *)

Module DecodeFacts.
Import CameraConfig Camera.

Lemma callback_cols_length n x y w row col bitmap fb :
  length (callback_cols n x y w row col bitmap fb) = length fb.
Proof.
  revert col fb. induction n as [|n IH]; intros col fb; [reflexivity|].
  cbn [callback_cols]. destruct (FRAME_WIDTH <=? x + col); [reflexivity|].
  rewrite IH, !length_insert. reflexivity.
Qed.

Lemma callback_rows_length n x y w row bitmap fb :
  length (callback_rows n x y w row bitmap fb) = length fb.
Proof.
  revert row fb. induction n as [|n IH]; intros row fb; [reflexivity|].
  cbn [callback_rows]. destruct (FRAME_HEIGHT <=? y + row); [reflexivity|].
  rewrite IH, callback_cols_length. reflexivity.
Qed.

(** The callback never changes the size of the pixel buffer. *)
Lemma tjpgCallback_length b fb : length (tjpgCallback b fb) = length fb.
Proof. apply callback_rows_length. Qed.

(** Clipping: a block right of the frame or below it writes nothing. *)
Lemma tjpgCallback_clipped b fb : clipped_out b -> tjpgCallback b fb = fb.
Proof.
  unfold clipped_out, tjpgCallback.
  generalize (Z.to_nat (blk_h b)) as n. intros n Hout.
  assert (Hrows : forall row, 0 <= row ->
            callback_rows n (blk_x b) (blk_y b) (blk_w b) row (blk_bitmap b) fb = fb).
  { induction n as [|n IH]; intros row Hrow; [reflexivity|].
    cbn [callback_rows].
    destruct (Z.leb_spec FRAME_HEIGHT (blk_y b + row)) as [_|Hin]; [reflexivity|].
    destruct Hout as [Hx|Hy]; [|lia].
    assert (Hcols : callback_cols (Z.to_nat (blk_w b)) (blk_x b) (blk_y b) (blk_w b) row 0
                      (blk_bitmap b) fb = fb).
    { destruct (Z.to_nat (blk_w b)); [reflexivity|]. cbn [callback_cols].
      destruct (Z.leb_spec FRAME_WIDTH (blk_x b + 0)); [reflexivity | lia]. }
    rewrite Hcols. apply IH. lia. }
  apply Hrows. lia.
Qed.

Lemma foldl_clipped blocks fb :
  Forall clipped_out blocks -> foldl (fun fb b => tjpgCallback b fb) fb blocks = fb.
Proof.
  induction 1 as [|b blocks Hb _ IH]; [reflexivity|].
  cbn [foldl]. rewrite tjpgCallback_clipped by exact Hb. exact IH.
Qed.

Lemma memset0_whole buf :
  Z.of_nat (length buf) = FRAME_BUFFER_SIZE -> memset0 buf FRAME_BUFFER_SIZE = cleared_frame.
Proof.
  intros Hlen. unfold memset0, cleared_frame.
  rewrite drop_ge by lia. apply app_nil_r.
Qed.

Section Decoder.

Variable drawJpg : list Z -> Z -> list mcu_block * Z.

(** C3, as the code has it.  A decode that returns failure has either
    found the stored length 0, and then returned before the clear with the
    pixel buffer as it was; or it has cleared the pixel buffer, run the
    decoder, and got a result code other than JDR_OK, and then the pixel
    buffer is the cleared buffer with the blocks written into it that the
    decoder handed to the callback before it failed.  That is the all-zero
    buffer when the buffer has its 153600 bytes and every such block, if
    any, lies to the right of the frame or below it (x >= 320 or
    y >= 240), where the callback clips it away. *)
Theorem decode_failure_frame (st : cam) :
  fst (decodeToFrameBuffer drawJpg st) = false ->
  (jpegLength st = 0 /\ snd (decodeToFrameBuffer drawJpg st) = st)
  \/ (jpegLength st <> 0
      /\ snd (drawJpg (jpegBuffer st) (jpegLength st)) <> JDR_OK
      /\ frameBuffer (snd (decodeToFrameBuffer drawJpg st))
         = foldl (fun fb b => tjpgCallback b fb)
             (memset0 (frameBuffer st) FRAME_BUFFER_SIZE)
             (fst (drawJpg (jpegBuffer st) (jpegLength st)))
      /\ (Z.of_nat (length (frameBuffer st)) = FRAME_BUFFER_SIZE ->
          Forall clipped_out (fst (drawJpg (jpegBuffer st) (jpegLength st))) ->
          frameBuffer (snd (decodeToFrameBuffer drawJpg st)) = cleared_frame)).
Proof.
  unfold decodeToFrameBuffer.
  destruct (Z.eqb_spec (jpegLength st) 0) as [Hzero|Hnz].
  { intros _. left. split; [exact Hzero | reflexivity]. }
  cbn [jpegBuffer jpegLength frameBuffer set_frameBuffer].
  destruct (drawJpg (jpegBuffer st) (jpegLength st)) as [blocks result].
  cbn [fst snd].
  destruct (Z.eqb_spec result JDR_OK) as [Hok|Hbad]; cbn [negb fst snd]; [discriminate|].
  intros _. right. split; [exact Hnz|]. split; [exact Hbad|].
  cbn [frameBuffer print set_frameBuffer]. split; [reflexivity|].
  intros Hlen Hclipped.
  rewrite foldl_clipped by exact Hclipped. apply memset0_whole. exact Hlen.
Qed.

(** A decode that fails keeps the pixel buffer at its size. *)
Lemma decode_keeps_size (st : cam) :
  Z.of_nat (length (frameBuffer st)) = FRAME_BUFFER_SIZE ->
  Z.of_nat (length (frameBuffer (snd (decodeToFrameBuffer drawJpg st)))) = FRAME_BUFFER_SIZE.
Proof.
  intros Hlen. unfold decodeToFrameBuffer.
  destruct (jpegLength st =? 0); [exact Hlen|].
  cbn [jpegBuffer jpegLength frameBuffer set_frameBuffer].
  destruct (drawJpg (jpegBuffer st) (jpegLength st)) as [blocks result].
  assert (Hfold : forall fb, length (foldl (fun fb b => tjpgCallback b fb) fb blocks) = length fb).
  { induction blocks as [|b blocks IH]; intros fb; [reflexivity|].
    cbn [foldl]. rewrite IH. apply tjpgCallback_length. }
  destruct (negb (result =? JDR_OK)); cbn [snd frameBuffer print set_frameBuffer];
    rewrite Hfold, memset0_whole by exact Hlen;
    unfold cleared_frame; rewrite length_replicate; apply Z2Nat.id; vm_compute; discriminate.
Qed.

End Decoder.

(** A decoder that rejects a 500-byte frame after it has handed over two
    blocks, one to the right of the frame and one below it: the pixel
    buffer, full of old pixels before, is the cleared buffer afterwards. *)
Lemma decode_failure_frame_witness :
  let dec := fun (_ : list Z) (_ : Z) =>
               ([Block 320 0 8 8 [65535]; Block 16 240 8 8 [65535]], 3) in
  let st := set_frameBuffer (replicate (Z.to_nat FRAME_BUFFER_SIZE) 255)
              (set_jpegLength 500 (power_on true)) in
  fst (decodeToFrameBuffer dec st) = false
  /\ frameBuffer (snd (decodeToFrameBuffer dec st)) = cleared_frame.
Proof.
  intros dec st.
  assert (Hfail : fst (decodeToFrameBuffer dec st) = false) by reflexivity.
  split; [exact Hfail|].
  destruct (decode_failure_frame dec st Hfail) as [(Hzero & _) | (_ & _ & _ & Hclear)].
  - discriminate Hzero.
  - apply Hclear.
    + subst st. cbn [frameBuffer set_frameBuffer]. rewrite length_replicate.
      apply Z2Nat.id. vm_compute. discriminate.
    + subst dec st. cbn [fst]. unfold clipped_out.
      constructor; [left; vm_compute; discriminate|].
      constructor; [right; vm_compute; discriminate|]. constructor.
Defined.

(** C3, as the claim has it, fails when the stored length is 0 (its
    value at start, and what a capture stores when the length register
    reads 0): the decode returns failure before the clear, and the pixel
    buffer keeps the frame it held. *)
Lemma decode_failure_keeps_stale_frame :
  fst (decodeToFrameBuffer (fun _ _ => ([], JDR_OK))
         (set_frameBuffer (replicate (Z.to_nat FRAME_BUFFER_SIZE) 255) (power_on true)))
  = false
  /\ frameBuffer
       (snd (decodeToFrameBuffer (fun _ _ => ([], JDR_OK))
               (set_frameBuffer (replicate (Z.to_nat FRAME_BUFFER_SIZE) 255) (power_on true))))
     <> cleared_frame.
Proof.
  split; [reflexivity|].
  intros Heq. apply (f_equal (fun l => l !! 0%nat)) in Heq.
  vm_compute in Heq. discriminate Heq.
Qed.

(** It also fails when the decoder gives up after it has handed over a
    block: the pixels of that block stay in the buffer. *)
Lemma decode_failure_keeps_partial_blocks :
  let dec := fun (_ : list Z) (_ : Z) => ([Block 0 0 1 1 [65535]], 6) in
  let st := decodeToFrameBuffer dec (set_jpegLength 500 (power_on true)) in
  fst st = false /\ take 4 (frameBuffer (snd st)) = [255; 255; 0; 0].
Proof. split; vm_compute; reflexivity. Qed.

(** Clipping is on the right and at the bottom only.  A block to the
    left of the frame covers no pixel of it, yet the callback stores it:
    with x = -8 and y = 1 the index computed for its first pixel is
    (1 * 320 - 8) * 2 = 624, inside the buffer, in row 0. *)
Lemma decode_failure_left_block_painted :
  let dec := fun (_ : list Z) (_ : Z) => ([Block (-8) 1 1 1 [65535]], 6) in
  let st := decodeToFrameBuffer dec (set_jpegLength 500 (power_on true)) in
  fst st = false
  /\ ~ clipped_out (Block (-8) 1 1 1 [65535])
  /\ take 4 (drop 622 (frameBuffer (snd st))) = [0; 0; 255; 255].
Proof.
  split; [reflexivity|]. split; [|vm_compute; reflexivity].
  unfold clipped_out. cbn [blk_x blk_y]. change FRAME_WIDTH with 320.
  change FRAME_HEIGHT with 240. lia.
Qed.

End DecodeFacts.

(** ** The request flags *)

Module UIFacts.
Import UI.

(** Setting a flag that is set changes nothing. *)
Lemma captureButtonISR_idempotent st :
  captureButtonISR (captureButtonISR st) = captureButtonISR st.
Proof. reflexivity. Qed.

Lemma modeButtonISR_idempotent st :
  modeButtonISR (modeButtonISR st) = modeButtonISR st.
Proof. reflexivity. Qed.

(** With the flag clear a check, now or later, does nothing. *)
Lemma check_without_request D b st ms :
  requested b st = false -> check D b (delay ms st) = (false, delay ms st).
Proof.
  destruct b; simpl; intros Hclear.
  - unfold checkCaptureButton. simpl. rewrite Hclear. reflexivity.
  - unfold checkModeButton. simpl. rewrite Hclear. reflexivity.
Qed.

Lemma toggleMode_keeps_flags st :
  captureRequested (toggleMode st) = captureRequested st
  /\ modeToggleRequested (toggleMode st) = modeToggleRequested st.
Proof.
  destruct st as [cr mr lc lm mode status t evs].
  destruct mode, status; split; reflexivity.
Qed.

(** Every check leaves its flag clear. *)
Lemma check_clears D b st : requested b (snd (check D b st)) = false.
Proof.
  destruct b; simpl.
  - unfold checkCaptureButton.
    destruct (captureRequested st) eqn:Hreq; [|exact Hreq].
    destruct (D <? u32 (now st - lastPress_capture st)); reflexivity.
  - unfold checkModeButton.
    destruct (modeToggleRequested st) eqn:Hreq; [|exact Hreq].
    destruct (D <? u32 (now st - lastPress_mode st)); [|reflexivity].
    cbn [snd]. destruct (toggleMode_keeps_flags
      (set_lastPress_mode (now st) (set_modeToggleRequested false st))) as (_ & ->).
    reflexivity.
Qed.

(** C8, as the code has it.  Two runs of captureButtonISR before a check
    leave the state that one run leaves.  The check that follows triggers
    a capture exactly when more than BUTTON_DEBOUNCE_MS have passed on the
    clock since the last accepted press, and none otherwise: one capture
    at most.  Either way it leaves the flag clear, and the next check, at
    once or any time later, finds the flag clear and triggers nothing. *)
Theorem capture_flag_coalesces (BUTTON_DEBOUNCE_MS : Z) (st : ui) (ms : Z) :
  captureButtonISR (captureButtonISR st) = captureButtonISR st
  /\ fst (checkCaptureButton BUTTON_DEBOUNCE_MS (captureButtonISR (captureButtonISR st)))
     = (BUTTON_DEBOUNCE_MS <? u32 (now st - lastPress_capture st))
  /\ captureRequested
       (snd (checkCaptureButton BUTTON_DEBOUNCE_MS (captureButtonISR (captureButtonISR st))))
     = false
  /\ fst (checkCaptureButton BUTTON_DEBOUNCE_MS
            (delay ms
               (snd (checkCaptureButton BUTTON_DEBOUNCE_MS
                       (captureButtonISR (captureButtonISR st))))))
     = false.
Proof.
  split; [reflexivity|]. split; [|split].
  - unfold checkCaptureButton. simpl.
    destruct (BUTTON_DEBOUNCE_MS <? u32 (now st - lastPress_capture st)); reflexivity.
  - apply (check_clears BUTTON_DEBOUNCE_MS CaptureButton).
  - change (checkCaptureButton BUTTON_DEBOUNCE_MS ?s)
      with (check BUTTON_DEBOUNCE_MS CaptureButton s).
    rewrite check_without_request; [reflexivity|].
    exact (check_clears BUTTON_DEBOUNCE_MS CaptureButton
             (captureButtonISR (captureButtonISR st))).
Qed.

(** C8, as the claim has it, fails inside the debounce window: 100 ms
    after start, with a window of 200 ms, two requests are followed by a
    check that triggers no capture and clears the flag. *)
Lemma capture_requests_dropped :
  checkCaptureButton 200 (captureButtonISR (captureButtonISR (boot 100)))
  = (false, boot 100).
Proof. reflexivity. Qed.

(** The same for every window: a check at the very time of the last
    accepted press never triggers. *)
Lemma capture_requests_dropped_any D t :
  0 <= D -> fst (checkCaptureButton D (captureButtonISR (captureButtonISR (boot t))))
            = (D <? u32 t).
Proof.
  intros HD. unfold checkCaptureButton. simpl. rewrite Z.sub_0_r.
  destruct (D <? u32 t); reflexivity.
Qed.

(** C10.  When a button's flag is set and the check comes while the
    clock shows at most BUTTON_DEBOUNCE_MS since the last accepted press,
    the check returns false and clears the flag, leaving everything else
    (the time of the last accepted press and the mode among it) as it was;
    the request is gone: a later check, whenever it comes, returns false
    and changes nothing.  This holds for checkCaptureButton and for
    checkModeButton. *)
Theorem debounce_discards_request (BUTTON_DEBOUNCE_MS : Z) (b : button) (st : ui) (ms : Z) :
  requested b st = true ->
  u32 (now st - lastPress b st) <= BUTTON_DEBOUNCE_MS ->
  check BUTTON_DEBOUNCE_MS b st = (false, clear_request b st)
  /\ requested b (clear_request b st) = false
  /\ lastPress b (clear_request b st) = lastPress b st
  /\ currentMode (clear_request b st) = currentMode st
  /\ effects (clear_request b st) = effects st
  /\ check BUTTON_DEBOUNCE_MS b (delay ms (clear_request b st))
     = (false, delay ms (clear_request b st)).
Proof.
  intros Hreq Hwin.
  split; [|repeat split; destruct b; reflexivity].
  - destruct b; simpl in *.
    + unfold checkCaptureButton. rewrite Hreq.
      destruct (Z.ltb_spec BUTTON_DEBOUNCE_MS (u32 (now st - lastPress_capture st)));
        [lia | reflexivity].
    + unfold checkModeButton. rewrite Hreq.
      destruct (Z.ltb_spec BUTTON_DEBOUNCE_MS (u32 (now st - lastPress_mode st)));
        [lia | reflexivity].
Qed.

(** Both buttons, pressed 150 ms after a press that was accepted at
    5000 ms, with a window of 200 ms. *)
Lemma debounce_discards_request_witness :
  check 200 CaptureButton (Ui true true 5000 5000 INSTANT READY 5150 [])
  = (false, Ui false true 5000 5000 INSTANT READY 5150 [])
  /\ check 200 ModeButton (Ui true true 5000 5000 INSTANT READY 5150 [])
     = (false, Ui true false 5000 5000 INSTANT READY 5150 []).
Proof.
  split.
  - apply (debounce_discards_request 200 CaptureButton
             (Ui true true 5000 5000 INSTANT READY 5150 []) 0);
      [reflexivity | vm_compute; discriminate].
  - apply (debounce_discards_request 200 ModeButton
             (Ui true true 5000 5000 INSTANT READY 5150 []) 0);
      [reflexivity | vm_compute; discriminate].
Defined.

(** Outside the window the request is taken: the check returns true and
    records the time; for the mode button it also toggles the mode. *)
Lemma check_accepts (BUTTON_DEBOUNCE_MS : Z) (b : button) (st : ui) :
  requested b st = true ->
  BUTTON_DEBOUNCE_MS < u32 (now st - lastPress b st) ->
  fst (check BUTTON_DEBOUNCE_MS b st) = true
  /\ lastPress b (snd (check BUTTON_DEBOUNCE_MS b st)) = now st.
Proof.
  intros Hreq Hout. destruct b; simpl in *.
  - unfold checkCaptureButton. rewrite Hreq.
    destruct (Z.ltb_spec BUTTON_DEBOUNCE_MS (u32 (now st - lastPress_capture st)));
      [split; reflexivity | lia].
  - unfold checkModeButton. rewrite Hreq.
    destruct (Z.ltb_spec BUTTON_DEBOUNCE_MS (u32 (now st - lastPress_mode st))); [|lia].
    split; [reflexivity|]. cbn [snd].
    destruct st as [cr mr lc lm mode status t evs].
    destruct mode, status; reflexivity.
Qed.

End UIFacts.

(** ** What the display receives *)

Module WireFacts.
Import DevConfig LcdDriver LcdManager Wire DevConfigFacts LcdDriverFacts LcdManagerFacts.

Lemma since_emit evs d : since (bus d) (emit evs d) = evs.
Proof. unfold since. simpl. apply drop_app_length. Qed.

Lemma run_app w evs1 evs2 :
  run w (evs1 ++ evs2)
  = match run w evs1 with
    | None => None
    | Some (w1, rx1) =>
        match run w1 evs2 with
        | None => None
        | Some (w2, rx2) => Some (w2, rx1 ++ rx2)
        end
    end.
Proof.
  revert w. induction evs1 as [|e evs1 IH]; intros w.
  - simpl. destruct (run w evs2) as [[w2 rx2]|]; reflexivity.
  - cbn [run app]. destruct (step w e) as [w'|]; [|reflexivity].
    rewrite IH. destruct (run w' evs1) as [[w1 rx1]|]; [|reflexivity].
    destruct (run w1 evs2) as [[w2 rx2]|]; [|reflexivity].
    now rewrite app_assoc.
Qed.

(** A 16-bit value is its two bytes, high byte first. *)
Lemma word_bytes_be x : 0 <= x < 65536 -> u8 (Z.shiftr x 8) * 256 + u8 x = x.
Proof.
  intros Hx. rewrite Z.shiftr_div_pow2 by lia. change (2 ^ 8) with 256. unfold u8.
  rewrite (Z.mod_small (x / 256))
    by (split; [apply Z.div_pos | apply Z.div_lt_upper_bound]; lia).
  pose proof (Z.div_mod x 256). lia.
Qed.

(** What LCD_SetCursor delivers, from any line state with no transaction
    open: three commands and eight address bytes; the chip select ends
    high. *)
Lemma cursor_delivered w Xstart Ystart Xend Yend d :
  in_txn w = false ->
  run w (since (bus d) (LCD_SetCursor Xstart Ystart Xend Yend d))
  = Some (idle false,
          [command 42; data (u8 (Z.shiftr Xstart 8)); data (u8 Xstart);
           data (u8 (Z.shiftr Xend 8)); data (u8 Xend);
           command 43; data (u8 (Z.shiftr Ystart 8)); data (u8 Ystart);
           data (u8 (Z.shiftr Yend 8)); data (u8 Yend);
           command 44]).
Proof.
  intros Hw. destruct w as [cs dc txn]. simpl in Hw. subst txn.
  unfold LCD_SetCursor, HORIZONTAL.
  rewrite !LCD_WriteReg_emit, !LCD_WriteData_Byte_emit, !emit_emit, since_emit.
  reflexivity.
Qed.

Lemma cursor_round_trip_aux (w : wire) (Xstart Ystart Xend Yend : Z) (d : dev) :
  in_txn w = false ->
  0 <= Xstart < 65536 -> 0 <= Xend < 65536 ->
  0 <= Ystart < 65536 -> 0 <= Yend < 65536 ->
  exists rx,
    run w (since (bus d) (LCD_SetCursor Xstart Ystart Xend Yend d)) = Some (idle false, rx)
    /\ window_of rx = Some (Xstart, Xend, Ystart, Yend).
Proof.
  intros Hw HXs HXe HYs HYe.
  eexists. split; [apply cursor_delivered; exact Hw|].
  unfold command, data, window_of. cbn [forallb fst snd negb andb Z.eqb Pos.eqb].
  rewrite !word_bytes_be by assumption. reflexivity.
Qed.

(** X2.  The addressing sequence round-trips: read back the way the
    controller reads it, the bytes of LCD_SetCursor give the four 16-bit
    coordinates it was called with, and the sequence keeps the framing and
    leaves the chip select high. *)
Theorem cursor_round_trip (w : wire) (Xstart Ystart Xend Yend : Z) (d : dev) :
  in_txn w = false ->
  0 <= Xstart < 65536 -> 0 <= Xend < 65536 ->
  0 <= Ystart < 65536 -> 0 <= Yend < 65536 ->
  exists rx,
    run w (since (bus d) (LCD_SetCursor Xstart Ystart Xend Yend d)) = Some (idle false, rx)
    /\ window_of rx = Some (Xstart, Xend, Ystart, Yend).
Proof.
  intros Hw HXs HXe HYs HYe.
  apply cursor_round_trip_aux; assumption.
Qed.

Lemma cursor_round_trip_witness :
  exists rx,
    run (idle true) (since (bus (power_on [])) (LCD_SetCursor 10 300 239 319 (power_on [])))
    = Some (idle false, rx)
    /\ window_of rx = Some (10, 239, 300, 319).
Proof.
  apply (cursor_round_trip (idle true) 10 300 239 319 (power_on [])); first [reflexivity | lia].
Defined.

Section Chunks.

Variables hi lo : Z.
Variable n : nat.
Hypothesis n_pos : (0 < n)%nat.

(** The send loop on a buffer holding the pair pattern, as the display
    sees it: with the chip select low and no transaction open, [m] pixels
    arrive, each piece in a transaction of its own, and the lines end as
    they were. *)
Lemma send_loop_delivered (fuel m : nat) (d : dev) :
  (m < fuel)%nat -> Z.of_nat (2 * m) < 4294967296 ->
  dmaBuffer d = pixel_pairs hi lo n ->
  exists evs,
    send_loop (Z.of_nat (2 * n)) fuel (Z.of_nat (2 * m)) d = Some (emit evs d)
    /\ forall w, cs_low w = true -> in_txn w = false ->
         run w evs = Some (w, map (fun b => (dc_high w, b)) (pixel_pairs hi lo m)).
Proof.
  revert m d.
  induction fuel as [|fuel IH]; intros m d Hfuel Hm Hbuf; [lia|].
  cbn [send_loop].
  destruct (Z.ltb_spec 0 (Z.of_nat (2 * m))) as [Hpos|Hzero].
  2:{ exists []. rewrite emit_nil. assert (m = 0)%nat by lia. subst m.
      split; [reflexivity|]. intros w _ _. reflexivity. }
  unfold getDMABuffer. rewrite Hbuf.
  assert (Hone : forall (w : wire) (c : list Z), cs_low w = true -> in_txn w = false ->
            run w [BeginTransaction 80000000; WriteBytes c; EndTransaction]
            = Some (w, map (fun b => (dc_high w, b)) c)).
  { intros [cs dc txn] c Hcs Htxn. simpl in *. subst. simpl. now rewrite app_nil_r. }
  destruct (Z.ltb_spec (Z.of_nat (2 * n)) (Z.of_nat (2 * m))) as [Hbig|Hsmall].
  - unfold DEV_SPI_Write_DMA.
    destruct (Z.eqb_spec (Z.of_nat (2 * n)) 0) as [E|_]; [lia|].
    rewrite bytes_at_within by (rewrite pixel_pairs_length; lia). rewrite Nat2Z.id.
    rewrite take_ge by (rewrite pixel_pairs_length; lia).
    replace (u32 (Z.of_nat (2 * m) - Z.of_nat (2 * n))) with (Z.of_nat (2 * (m - n)))
      by (rewrite u32_small; lia).
    destruct (IH (m - n)%nat
                (emit [BeginTransaction 80000000; WriteBytes (pixel_pairs hi lo n);
                       EndTransaction] d))
      as (evs & Hrun & Hrx); [lia | lia | exact Hbuf |].
    eexists. rewrite Hrun, emit_emit. split; [reflexivity|].
    intros w Hcs Htxn. rewrite run_app, (Hone w _ Hcs Htxn), (Hrx w Hcs Htxn).
    rewrite <- map_app, <- pixel_pairs_app.
    replace (n + (m - n))%nat with m by lia. reflexivity.
  - unfold DEV_SPI_Write_DMA.
    destruct (Z.eqb_spec (Z.of_nat (2 * m)) 0) as [E|_]; [lia|].
    rewrite bytes_at_within by (rewrite pixel_pairs_length; lia). rewrite Nat2Z.id.
    rewrite take_pixel_pairs by lia.
    rewrite Z.sub_diag. change (u32 0) with 0.
    destruct fuel as [|fuel]; [lia|]. cbn [send_loop]. simpl (0 <? 0).
    eexists. split; [reflexivity|].
    intros w Hcs Htxn. apply Hone; assumption.
Qed.

End Chunks.

(** The fill, from the chip select going low to it going high, as the
    display sees it: [pixels] pixels of the color, as data. *)
Lemma fill_and_send_delivered (DMA_BUFFER_SIZE : Z) (fuel : nat) (pixels color : Z) (d : dev) :
  0 < DMA_BUFFER_SIZE <= 65534 ->
  Z.even DMA_BUFFER_SIZE = true ->
  Z.of_nat (length (dmaBuffer d)) = DMA_BUFFER_SIZE ->
  0 <= pixels -> 2 * pixels < 4294967296 ->
  DMA_BUFFER_SIZE + pixels < Z.of_nat fuel ->
  exists d',
    fill_and_send DMA_BUFFER_SIZE fuel (2 * pixels) color d = Some d'
    /\ bulk_active d' = bulk_active d
    /\ bus d' = bus d ++ since (bus d) d'
    /\ forall w, in_txn w = false ->
         run w (since (bus d) d')
         = Some (idle true, map data (solid_pixels color (Z.to_nat pixels))).
Proof.
  intros Hsize Heven Hbuf Hpix Hmax Hfuel.
  apply Z.even_spec in Heven. destruct Heven as [half Hhalf].
  set (n := Z.to_nat half).
  assert (Hn : DMA_BUFFER_SIZE = Z.of_nat (2 * n)) by lia.
  set (m := Z.to_nat pixels).
  assert (Hm : 2 * pixels = Z.of_nat (2 * m)) by lia.
  unfold fill_and_send, DEV_Digital_Write. rewrite !emit_emit.
  unfold getDMABuffer. cbn [dmaBuffer emit].
  rewrite Hn, Hm. rewrite (fill_loop_pairs _ _ n) by lia.
  set (d1 := set_dmaBuffer _ _).
  destruct (send_loop_delivered (u8 (Z.shiftr color 8)) (u8 (Z.land color 255)) n
              ltac:(lia) fuel m d1)
    as (evs & Hrun & Hrx); [lia | lia | reflexivity |].
  rewrite Hrun, emit_emit. eexists. split; [reflexivity|].
  assert (Hsince : since (bus d)
            (emit (evs ++ [DigitalWrite DEV_CS_PIN (negb (1 =? 0))]) d1)
          = [DigitalWrite DEV_CS_PIN (negb (0 =? 0))]
              ++ [DigitalWrite DEV_DC_PIN (negb (1 =? 0))]
              ++ evs ++ [DigitalWrite DEV_CS_PIN (negb (1 =? 0))]).
  { unfold since. subst d1. cbn [bus emit set_dmaBuffer].
    rewrite <- !app_assoc. apply drop_app_length. }
  split; [reflexivity|]. split.
  { rewrite Hsince. subst d1. cbn [bus emit set_dmaBuffer].
    rewrite <- !app_assoc. reflexivity. }
  intros [cs dc txn] Htxn. simpl in Htxn. subst txn.
  rewrite Hsince. cbn [app run step delivered negb Z.eqb cs_low dc_high in_txn].
  rewrite run_app, (Hrx (Mk true true false) eq_refl eq_refl).
  cbn. rewrite !app_nil_r. reflexivity.
Qed.

(** The events of two calls in a row. *)
Lemma since_split (d d0 d' : dev) :
  bus d0 = bus d ++ since (bus d) d0 ->
  bus d' = bus d0 ++ since (bus d0) d' ->
  since (bus d) d' = since (bus d) d0 ++ since (bus d0) d'.
Proof.
  intros H0 H'. unfold since at 1. rewrite H', H0, <- app_assoc. apply drop_app_length.
Qed.

Lemma cursor_since Xstart Ystart Xend Yend d :
  bus (LCD_SetCursor Xstart Ystart Xend Yend d)
  = bus d ++ since (bus d) (LCD_SetCursor Xstart Ystart Xend Yend d)
  /\ dmaBuffer (LCD_SetCursor Xstart Ystart Xend Yend d) = dmaBuffer d
  /\ bulk_active (LCD_SetCursor Xstart Ystart Xend Yend d) = bulk_active d.
Proof.
  destruct (LCD_SetCursor_emit Xstart Ystart Xend Yend d) as (evs0 & -> & _).
  rewrite since_emit. repeat split.
Qed.

(** X1.  LCD_Clear, for every even size of the transfer buffer from 2 to
    65534: the call returns; the display receives the address window
    0 .. 239 by 0 .. 319, the whole panel, and then exactly
    240 * 320 = 76800 pixels of the color, high byte first, as data;
    the framing is kept and the chip select ends high. *)
Theorem clear_fills_panel (DMA_BUFFER_SIZE : Z) (fuel : nat) (Color : Z) (d : dev) (w : wire) :
  0 < DMA_BUFFER_SIZE <= 65534 ->
  Z.even DMA_BUFFER_SIZE = true ->
  Z.of_nat (length (dmaBuffer d)) = DMA_BUFFER_SIZE ->
  DMA_BUFFER_SIZE + 76800 < Z.of_nat fuel ->
  in_txn w = false ->
  exists d' addr,
    LCD_Clear DMA_BUFFER_SIZE fuel Color d = Some d'
    /\ run w (since (bus d) d')
       = Some (idle true, addr ++ map data (solid_pixels Color (Z.to_nat (LCD_WIDTH * LCD_HEIGHT))))
    /\ window_of addr = Some (0, LCD_WIDTH - 1, 0, LCD_HEIGHT - 1).
Proof.
  intros Hsize Heven Hbuf Hfuel Hw. unfold LCD_Clear.
  change (u32 (u32 (LCD_WIDTH * LCD_HEIGHT) * 2)) with (2 * (LCD_WIDTH * LCD_HEIGHT)).
  change (u16 (LCD_WIDTH - 1)) with 239. change (u16 (LCD_HEIGHT - 1)) with 319.
  destruct (cursor_since 0 0 239 319 d) as (Hbus0 & Hbuf0 & _).
  pose proof (cursor_delivered w 0 0 239 319 d Hw) as Haddr.
  set (d0 := LCD_SetCursor 0 0 239 319 d) in *. clearbody d0.
  destruct (fill_and_send_delivered DMA_BUFFER_SIZE fuel (LCD_WIDTH * LCD_HEIGHT) Color d0)
    as (d' & Hrun & _ & Hbus' & Hrx);
    [first [assumption | congruence | discriminate | reflexivity] .. |].
  exists d'. eexists. split; [exact Hrun|]. split.
  - rewrite (since_split d d0 d' Hbus0 Hbus'), run_app, Haddr, (Hrx (idle false) eq_refl).
    reflexivity.
  - reflexivity.
Qed.

Lemma clear_fills_panel_witness :
  exists d' addr,
    LCD_Clear 4 (Z.to_nat 76805) 31 (power_on [0; 0; 0; 0]) = Some d'
    /\ run (idle true) (since (bus (power_on [0; 0; 0; 0])) d')
       = Some (idle true, addr ++ map data (solid_pixels 31 (Z.to_nat (LCD_WIDTH * LCD_HEIGHT))))
    /\ window_of addr = Some (0, LCD_WIDTH - 1, 0, LCD_HEIGHT - 1).
Proof.
  apply (clear_fills_panel 4 (Z.to_nat 76805) 31 (power_on [0; 0; 0; 0]) (idle true));
    first [reflexivity | lia].
Defined.

(** LCD_ClearWindow on a window that is not empty, as the display sees it. *)
Lemma clear_window_stream (DMA_BUFFER_SIZE : Z) (fuel : nat)
    (Xstart Ystart Xend Yend color : Z) (d : dev) (w : wire) :
  0 < DMA_BUFFER_SIZE <= 65534 ->
  Z.even DMA_BUFFER_SIZE = true ->
  Z.of_nat (length (dmaBuffer d)) = DMA_BUFFER_SIZE ->
  0 <= Xstart < Xend -> Xend <= LCD_WIDTH ->
  0 <= Ystart < Yend -> Yend <= LCD_HEIGHT ->
  DMA_BUFFER_SIZE + (Xend - Xstart) * (Yend - Ystart) < Z.of_nat fuel ->
  in_txn w = false ->
  exists d' addr x0 x1 y0 y1,
    LCD_ClearWindow DMA_BUFFER_SIZE fuel Xstart Ystart Xend Yend color d = Some d'
    /\ window_of addr = Some (x0, x1, y0, y1)
    /\ (x0, x1, y0, y1) = (Xstart, Xend - 1, Ystart, Yend - 1)
    /\ run w (since (bus d) d')
       = Some (idle true,
               addr ++ map data (solid_pixels color
                                   (Z.to_nat ((x1 - x0 + 1) * (y1 - y0 + 1))))).
Proof.
  intros Hsize Heven Hbuf HX HXmax HY HYmax Hfuel Hw.
  unfold LCD_WIDTH in HXmax. unfold LCD_HEIGHT in HYmax.
  assert (HWH : 0 <= (Xend - Xstart) * (Yend - Ystart) <= 76800) by nia.
  unfold LCD_ClearWindow.
  rewrite (u32_small (Xend - Xstart)), (u32_small (Yend - Ystart)) by lia.
  rewrite (u32_small ((Xend - Xstart) * (Yend - Ystart))) by lia.
  rewrite (u32_small ((Xend - Xstart) * (Yend - Ystart) * 2)) by lia.
  rewrite (u16_small (Xend - 1)), (u16_small (Yend - 1)) by lia.
  rewrite (Z.mul_comm _ 2).
  destruct (cursor_since Xstart Ystart (Xend - 1) (Yend - 1) d) as (Hbus0 & Hbuf0 & _).
  destruct (cursor_round_trip_aux w Xstart Ystart (Xend - 1) (Yend - 1) d Hw)
    as (addr & Haddr & Hwin); try lia.
  set (d0 := LCD_SetCursor Xstart Ystart (Xend - 1) (Yend - 1) d) in *. clearbody d0.
  destruct (fill_and_send_delivered DMA_BUFFER_SIZE fuel
              ((Xend - Xstart) * (Yend - Ystart)) color d0)
    as (d' & Hrun & _ & Hbus' & Hrx);
    [first [assumption | congruence | lia] .. |].
  exists d', addr, Xstart, (Xend - 1), Ystart, (Yend - 1).
  split; [exact Hrun|]. split; [exact Hwin|]. split; [reflexivity|].
  rewrite (since_split d d0 d' Hbus0 Hbus'), run_app, Haddr, (Hrx (idle false) eq_refl).
  do 5 f_equal. lia.
Qed.

(** X3.  LCD_ClearWindow, for every even size of the transfer buffer from
    2 to 65534 and every non-empty window inside the panel: the display
    receives the address window Xstart .. Xend-1 by Ystart .. Yend-1 and
    then exactly as many pixels as that window has, all of the color, as
    data; the framing is kept and the chip select ends high. *)
Theorem clear_window_delivered (DMA_BUFFER_SIZE : Z) (fuel : nat)
    (Xstart Ystart Xend Yend color : Z) (d : dev) (w : wire) :
  0 < DMA_BUFFER_SIZE <= 65534 ->
  Z.even DMA_BUFFER_SIZE = true ->
  Z.of_nat (length (dmaBuffer d)) = DMA_BUFFER_SIZE ->
  0 <= Xstart < Xend -> Xend <= LCD_WIDTH ->
  0 <= Ystart < Yend -> Yend <= LCD_HEIGHT ->
  DMA_BUFFER_SIZE + (Xend - Xstart) * (Yend - Ystart) < Z.of_nat fuel ->
  in_txn w = false ->
  exists d' addr x0 x1 y0 y1,
    LCD_ClearWindow DMA_BUFFER_SIZE fuel Xstart Ystart Xend Yend color d = Some d'
    /\ window_of addr = Some (x0, x1, y0, y1)
    /\ (x0, x1, y0, y1) = (Xstart, Xend - 1, Ystart, Yend - 1)
    /\ run w (since (bus d) d')
       = Some (idle true,
               addr ++ map data (solid_pixels color
                                   (Z.to_nat ((x1 - x0 + 1) * (y1 - y0 + 1))))).
Proof. apply clear_window_stream. Qed.

Lemma clear_window_delivered_witness :
  exists d' addr x0 x1 y0 y1,
    LCD_ClearWindow 4 20 10 20 15 21 4660 (power_on [0; 0; 0; 0]) = Some d'
    /\ window_of addr = Some (x0, x1, y0, y1)
    /\ (x0, x1, y0, y1) = (10, 15 - 1, 20, 21 - 1)
    /\ run (idle true) (since (bus (power_on [0; 0; 0; 0])) d')
       = Some (idle true,
               addr ++ map data (solid_pixels 4660
                                   (Z.to_nat ((x1 - x0 + 1) * (y1 - y0 + 1))))).
Proof.
  apply (clear_window_delivered 4 20 10 20 15 21 4660 (power_on [0; 0; 0; 0]) (idle true));
    first [reflexivity | unfold LCD_WIDTH, LCD_HEIGHT; simpl; lia].
Defined.

(** Block writes inside an open transaction with the chip select low. *)
Lemma run_block_writes (w : wire) (chunks : list (list Z)) :
  cs_low w = true -> in_txn w = true ->
  run w (map WriteBytes chunks) = Some (w, map (fun b => (dc_high w, b)) (concat chunks)).
Proof.
  intros Hcs Htxn. induction chunks as [|c chunks IH]; [reflexivity|].
  cbn [map run step]. rewrite Htxn, Hcs. cbn [andb]. rewrite IH.
  cbn [delivered concat]. now rewrite map_app.
Qed.

(** Block writes begin no transaction and leave the chip select alone. *)
Lemma transactions_app evs1 evs2 :
  transactions (evs1 ++ evs2) = (transactions evs1 + transactions evs2)%nat.
Proof.
  induction evs1 as [|e evs1 IH]; [reflexivity|].
  destruct e; cbn [app transactions]; rewrite IH; reflexivity.
Qed.

Lemma selects_app evs1 evs2 :
  selects (evs1 ++ evs2) = (selects evs1 + selects evs2)%nat.
Proof.
  induction evs1 as [|e evs1 IH]; [reflexivity|].
  destruct e as [[] []| | | |]; cbn [app selects]; rewrite IH; reflexivity.
Qed.

Lemma block_writes_unframed (chunks : list (list Z)) :
  transactions (map WriteBytes chunks) = 0%nat
  /\ selects (map WriteBytes chunks) = 0%nat
  /\ deasserts (map WriteBytes chunks) = 0%nat.
Proof. induction chunks as [|c chunks IH]; [repeat split|]. exact IH. Qed.

(** The whole of displayFrame as the display sees it: the log is the
    addressing sequence followed by the frame part, and the frame part is
    one transaction under one assertion of the chip select. *)
Lemma display_frame_framed (fuel : nat) (fb : list Z) (d : dev) (w : wire) :
  Z.of_nat (length fb) = CameraConfig.FRAME_BUFFER_SIZE ->
  (11 <= fuel)%nat ->
  in_txn w = false ->
  exists d' cursor frame addr,
    displayFrame fuel (Some fb) d = Some d'
    /\ since (bus d) d' = cursor ++ frame
    /\ run w cursor = Some (idle false, addr)
    /\ window_of addr
       = Some (0, CameraConfig.FRAME_WIDTH - 1, 0, CameraConfig.FRAME_HEIGHT - 1)
    /\ run (idle false) frame = Some (idle true, map data fb)
    /\ transactions frame = 1%nat
    /\ selects frame = 1%nat
    /\ deasserts frame = 1%nat
    /\ bulk_active d' = false.
Proof.
  intros Hlen Hfuel Hw.
  change CameraConfig.FRAME_BUFFER_SIZE with 153600 in Hlen.
  destruct (Nat.le_exists_sub 11 fuel Hfuel) as (k & -> & _).
  unfold displayFrame.
  change (u16 (CameraConfig.FRAME_WIDTH - 1)) with 319.
  change (u16 (CameraConfig.FRAME_HEIGHT - 1)) with 239.
  change (u32 (CameraConfig.FRAME_WIDTH * CameraConfig.FRAME_HEIGHT * 2)) with 153600.
  destruct (cursor_since 0 0 319 239 d) as (Hbus0 & _ & _).
  destruct (cursor_round_trip_aux w 0 0 319 239 d Hw) as (addr & Haddr & Hwin); try lia.
  set (d0 := LCD_SetCursor 0 0 319 239 d) in *. clearbody d0.
  assert (Hstart : DEV_SPI_Write_Bulk_Start d0
                   = set_bulk_active true
                       (emit [DigitalWrite DEV_CS_PIN false; DigitalWrite DEV_DC_PIN true;
                              BeginTransaction 80000000] d0)).
  { unfold DEV_SPI_Write_Bulk_Start, DEV_Digital_Write. rewrite !emit_emit. reflexivity. }
  rewrite Hstart.
  set (d1 := set_bulk_active true _).
  assert (Hcut : (length (chunk_sizes (k + 11) 153600 DMA_BUFFER_SIZE 0) < k + 11)%nat).
  { rewrite Nat.add_comm. simpl. lia. }
  destruct (frame_loop_run fb 153600 DMA_BUFFER_SIZE) with (fuel := (k + 11)%nat) (offset := 0) (d := d1)
    as (evs & Hrun & Hshape & Hbytes & _);
    [reflexivity | reflexivity | lia | lia | reflexivity | exact Hcut |].
  rewrite Hrun.
  assert (Hall : dma_bytes evs = fb).
  { rewrite Hbytes, drop_0. apply take_ge. lia. }
  assert (Hend : DEV_SPI_Write_Bulk_End (emit evs d1)
                 = set_bulk_active false
                     (emit (evs ++ [EndTransaction; DigitalWrite DEV_CS_PIN true]) d1)).
  { unfold DEV_SPI_Write_Bulk_End, DEV_Digital_Write. cbn [bulk_active emit d1 set_bulk_active].
    rewrite !emit_emit. reflexivity. }
  rewrite Hend.
  assert (Hsince : since (bus d)
            (set_bulk_active false
               (emit (evs ++ [EndTransaction; DigitalWrite DEV_CS_PIN true]) d1))
          = since (bus d) d0
              ++ [DigitalWrite DEV_CS_PIN false; DigitalWrite DEV_DC_PIN true;
                  BeginTransaction 80000000]
              ++ evs ++ [EndTransaction; DigitalWrite DEV_CS_PIN true]).
  { unfold since at 1. subst d1. cbn [bus emit set_bulk_active].
    rewrite Hbus0, <- !app_assoc. apply drop_app_length. }
  destruct (block_writes_unframed (dma_chunks evs)) as (Ht & Hs & Hd).
  rewrite <- Hshape in Ht, Hs, Hd.
  eexists. exists (since (bus d) d0).
  exists ([DigitalWrite DEV_CS_PIN false; DigitalWrite DEV_DC_PIN true;
           BeginTransaction 80000000]
          ++ evs ++ [EndTransaction; DigitalWrite DEV_CS_PIN true]).
  exists addr.
  split; [reflexivity|]. split; [exact Hsince|]. split; [exact Haddr|].
  split; [exact Hwin|]. split; [|split; [|split; [|split; [|reflexivity]]]].
  - cbn [app run step delivered idle cs_low dc_high in_txn negb].
    rewrite run_app, Hshape, run_block_writes by reflexivity.
    fold (dma_bytes evs). rewrite Hall. cbn. now rewrite app_nil_r.
  - cbn [app transactions]. rewrite transactions_app, Ht. reflexivity.
  - cbn [app selects]. rewrite selects_app, Hs. reflexivity.
  - cbn [app deasserts]. rewrite deasserts_app, Hd. reflexivity.
Qed.

(** The bytes of displayFrame, in one. *)
Lemma display_frame_stream (fuel : nat) (fb : list Z) (d : dev) (w : wire) :
  Z.of_nat (length fb) = CameraConfig.FRAME_BUFFER_SIZE ->
  (11 <= fuel)%nat ->
  in_txn w = false ->
  exists d' addr,
    displayFrame fuel (Some fb) d = Some d'
    /\ run w (since (bus d) d') = Some (idle true, addr ++ map data fb)
    /\ window_of addr
       = Some (0, CameraConfig.FRAME_WIDTH - 1, 0, CameraConfig.FRAME_HEIGHT - 1)
    /\ bulk_active d' = false.
Proof.
  intros Hlen Hfuel Hw.
  destruct (display_frame_framed fuel fb d w Hlen Hfuel Hw)
    as (d' & cursor & frame & addr & Hrun & Hsplit & Hcur & Hwin & Hframe & _ & _ & _ & Hoff).
  exists d', addr. split; [exact Hrun|]. split; [|split; [exact Hwin | exact Hoff]].
  rewrite Hsplit, run_app, Hcur, Hframe. reflexivity.
Qed.

(** X4.  displayFrame on a frame buffer of 153600 bytes returns.  What
    it puts on the bus is the addressing sequence, which the display reads
    as the window 0 .. 319 by 0 .. 239, followed by the frame part, which
    delivers exactly the bytes of the buffer, in order, as data.  The
    frame part begins one transaction and drives the chip select low once
    and high once: with the framing kept, all the bytes of the frame travel
    inside one transaction with the chip select held low.  Afterwards the
    chip select is high, no transaction is open and no bulk session is
    active. *)
Theorem display_frame_delivered (fuel : nat) (fb : list Z) (d : dev) (w : wire) :
  Z.of_nat (length fb) = CameraConfig.FRAME_BUFFER_SIZE ->
  (11 <= fuel)%nat ->
  in_txn w = false ->
  exists d' cursor frame addr,
    displayFrame fuel (Some fb) d = Some d'
    /\ since (bus d) d' = cursor ++ frame
    /\ run w cursor = Some (idle false, addr)
    /\ window_of addr
       = Some (0, CameraConfig.FRAME_WIDTH - 1, 0, CameraConfig.FRAME_HEIGHT - 1)
    /\ run (idle false) frame = Some (idle true, map data fb)
    /\ transactions frame = 1%nat
    /\ selects frame = 1%nat
    /\ deasserts frame = 1%nat
    /\ run w (since (bus d) d') = Some (idle true, addr ++ map data fb)
    /\ bulk_active d' = false.
Proof.
  intros Hlen Hfuel Hw.
  destruct (display_frame_framed fuel fb d w Hlen Hfuel Hw)
    as (d' & cursor & frame & addr & Hrun & Hsplit & Hcur & Hwin & Hframe & Ht & Hs & Hd & Hoff).
  exists d', cursor, frame, addr.
  repeat (split; [assumption|]). split; [|exact Hoff].
  rewrite Hsplit, run_app, Hcur, Hframe. reflexivity.
Qed.

Lemma display_frame_delivered_witness :
  exists d' cursor frame addr,
    displayFrame 11 (Some (replicate (Z.to_nat 153600) 7)) (power_on []) = Some d'
    /\ since (bus (power_on [])) d' = cursor ++ frame
    /\ run (idle true) cursor = Some (idle false, addr)
    /\ window_of addr
       = Some (0, CameraConfig.FRAME_WIDTH - 1, 0, CameraConfig.FRAME_HEIGHT - 1)
    /\ run (idle false) frame = Some (idle true, map data (replicate (Z.to_nat 153600) 7))
    /\ transactions frame = 1%nat
    /\ selects frame = 1%nat
    /\ deasserts frame = 1%nat
    /\ run (idle true) (since (bus (power_on [])) d')
       = Some (idle true, addr ++ map data (replicate (Z.to_nat 153600) 7))
    /\ bulk_active d' = false.
Proof.
  apply (display_frame_delivered 11 (replicate (Z.to_nat 153600) 7) (power_on []) (idle true)).
  - rewrite length_replicate. change CameraConfig.FRAME_BUFFER_SIZE with 153600.
    apply Z2Nat.id. lia.
  - lia.
  - reflexivity.
Defined.

Lemma land_255 a : Z.land a 255 = a mod 256.
Proof. change 255 with (Z.ones 8). rewrite Z.land_ones by lia. reflexivity. Qed.

(** X5.  LCD_SetUWORD agrees with the fill of a window of one pixel: for
    every even size of the transfer buffer, LCD_SetUWORD(x, y, color) and
    LCD_ClearWindow(x, y, x + 1, y + 1, color) make the display receive
    the same bytes: the address window x .. x by y .. y and the two bytes
    of the color, high byte first. *)
Theorem set_pixel_is_unit_fill (DMA_BUFFER_SIZE : Z) (fuel : nat) (x y color : Z)
    (d : dev) (w : wire) :
  0 < DMA_BUFFER_SIZE <= 65534 ->
  Z.even DMA_BUFFER_SIZE = true ->
  Z.of_nat (length (dmaBuffer d)) = DMA_BUFFER_SIZE ->
  DMA_BUFFER_SIZE + 1 < Z.of_nat fuel ->
  0 <= x < 65535 -> 0 <= y < 65535 ->
  in_txn w = false ->
  exists d' addr,
    LCD_ClearWindow DMA_BUFFER_SIZE fuel x y (x + 1) (y + 1) color d = Some d'
    /\ run w (since (bus d) d') = run w (since (bus d) (LCD_SetUWORD x y color d))
    /\ run w (since (bus d) (LCD_SetUWORD x y color d))
       = Some (idle true,
               addr ++ [data (u8 (Z.shiftr color 8)); data (u8 color)])
    /\ window_of addr = Some (x, x, y, y).
Proof.
  intros Hsize Heven Hbuf Hfuel Hx Hy Hw.
  destruct (cursor_since x y x y d) as (Hbus0 & Hbuf0 & _).
  destruct (cursor_round_trip_aux w x y x y d Hw) as (addr & Haddr & Hwin); try lia.
  assert (Hword : run w (since (bus d) (LCD_SetUWORD x y color d))
                  = Some (idle true, addr ++ [data (u8 (Z.shiftr color 8)); data (u8 color)])).
  { unfold LCD_SetUWORD.
    set (d0 := LCD_SetCursor x y x y d) in *. clearbody d0.
    assert (Hw0 : LCD_WriteData_Word color d0
                  = emit [DigitalWrite DEV_CS_PIN false; DigitalWrite DEV_DC_PIN true;
                          BeginTransaction 60000000;
                          Transfer (u8 (Z.land (Z.shiftr color 8) 255)); Transfer (u8 color);
                          EndTransaction; DigitalWrite DEV_CS_PIN true] d0).
    { unfold LCD_WriteData_Word, DEV_Digital_Write. rewrite !emit_emit. reflexivity. }
    rewrite Hw0.
    assert (Hs : since (bus d) (emit [DigitalWrite DEV_CS_PIN false; DigitalWrite DEV_DC_PIN true;
                          BeginTransaction 60000000;
                          Transfer (u8 (Z.land (Z.shiftr color 8) 255)); Transfer (u8 color);
                          EndTransaction; DigitalWrite DEV_CS_PIN true] d0)
                 = since (bus d) d0
                   ++ [DigitalWrite DEV_CS_PIN false; DigitalWrite DEV_DC_PIN true;
                          BeginTransaction 60000000;
                          Transfer (u8 (Z.land (Z.shiftr color 8) 255)); Transfer (u8 color);
                          EndTransaction; DigitalWrite DEV_CS_PIN true]).
    { unfold since at 1. cbn [bus emit]. rewrite Hbus0, <- app_assoc. apply drop_app_length. }
    rewrite Hs, run_app, Haddr. cbn.
    rewrite land_255. unfold u8 at 1. rewrite Z.mod_mod by lia. reflexivity. }
  unfold LCD_ClearWindow.
  replace (x + 1 - x) with 1 by lia. replace (y + 1 - y) with 1 by lia.
  replace (x + 1 - 1) with x by lia. replace (y + 1 - 1) with y by lia.
  rewrite (u16_small x), (u16_small y) by lia.
  change (u32 (u32 (u32 1 * u32 1) * 2)) with (2 * 1).
  set (d0 := LCD_SetCursor x y x y d) in *. clearbody d0.
  destruct (fill_and_send_delivered DMA_BUFFER_SIZE fuel 1 color d0)
    as (d' & Hrun & _ & Hbus' & Hrx);
    [first [assumption | congruence | lia] .. |].
  exists d', addr. split; [exact Hrun|]. split; [|split; [exact Hword | exact Hwin]].
  rewrite Hword.
  rewrite (since_split d d0 d' Hbus0 Hbus'), run_app, Haddr, (Hrx (idle false) eq_refl).
  unfold solid_pixels. cbn [Z.to_nat Pos.to_nat Pos.iter_op Nat.add pixel_pairs replicate concat map app].
  rewrite land_255. unfold u8 at 2. rewrite Z.mod_mod by lia. reflexivity.
Qed.

Lemma set_pixel_is_unit_fill_witness :
  exists d' addr,
    LCD_ClearWindow 4 6 7 9 (7 + 1) (9 + 1) 63488 (power_on [0; 0; 0; 0]) = Some d'
    /\ run (idle true) (since (bus (power_on [0; 0; 0; 0])) d')
       = run (idle true)
           (since (bus (power_on [0; 0; 0; 0])) (LCD_SetUWORD 7 9 63488 (power_on [0; 0; 0; 0])))
    /\ run (idle true)
         (since (bus (power_on [0; 0; 0; 0])) (LCD_SetUWORD 7 9 63488 (power_on [0; 0; 0; 0])))
       = Some (idle true, addr ++ [data (u8 (Z.shiftr 63488 8)); data (u8 63488)])
    /\ window_of addr = Some (7, 7, 9, 9).
Proof.
  apply (set_pixel_is_unit_fill 4 6 7 9 63488 (power_on [0; 0; 0; 0]) (idle true));
    first [reflexivity | lia].
Defined.


Lemma run_transfers (w : wire) (l : list Z) :
  cs_low w = true -> in_txn w = true ->
  run w (map Transfer l) = Some (w, map (fun b => (dc_high w, b)) l).
Proof.
  intros Hcs Htxn. induction l as [|b l IH]; [reflexivity|].
  cbn [map run step]. rewrite Htxn, Hcs. cbn [andb]. rewrite IH. reflexivity.
Qed.



(** X7.  A bulk session composes: DEV_SPI_Write_Bulk_Start, two calls of
    DEV_SPI_Write_Bulk_Data and DEV_SPI_Write_Bulk_End deliver the bytes of
    the first buffer followed by those of the second, as data, with the
    framing kept; the four calls together begin one transaction and drive
    the chip select low once and high once, so all the bytes travel inside
    one transaction with the chip select held low; a call with length 0
    adds nothing; afterwards the lines are idle and the session is over. *)
Theorem bulk_session_concatenates (a b : list Z) (la lb : Z) (d : dev) (w : wire) :
  in_txn w = false ->
  let d' := DEV_SPI_Write_Bulk_End
              (DEV_SPI_Write_Bulk_Data b lb
                 (DEV_SPI_Write_Bulk_Data a la (DEV_SPI_Write_Bulk_Start d))) in
  run w (since (bus d) d') = Some (idle true, map data (bytes_at a la ++ bytes_at b lb))
  /\ transactions (since (bus d) d') = 1%nat
  /\ selects (since (bus d) d') = 1%nat
  /\ deasserts (since (bus d) d') = 1%nat
  /\ bulk_active d' = false.
Proof.
  intros Hw d'. subst d'. destruct w as [cs dc txn]. simpl in Hw. subst txn.
  destruct d as [act buf log].
  unfold DEV_SPI_Write_Bulk_Start, DEV_SPI_Write_Bulk_Data, DEV_SPI_Write_Bulk_End,
    DEV_Digital_Write, since.
  assert (Hzero : forall l : list Z, forall n, n = 0 -> bytes_at l n = []).
  { intros l n ->. reflexivity. }
  destruct (Z.eqb_spec la 0) as [Ha|Ha]; destruct (Z.eqb_spec lb 0) as [Hb|Hb];
    cbn [orb negb bulk_active set_bulk_active emit bus dmaBuffer];
    rewrite ?(Hzero a la Ha), ?(Hzero b lb Hb);
    rewrite <- ?app_assoc, drop_app_length;
    cbn; rewrite ?app_nil_r, ?map_app; repeat split; reflexivity.
Qed.

Lemma bulk_session_concatenates_witness :
  let d' := DEV_SPI_Write_Bulk_End
              (DEV_SPI_Write_Bulk_Data [3; 4; 5] 2
                 (DEV_SPI_Write_Bulk_Data [1; 2] 2 (DEV_SPI_Write_Bulk_Start (power_on [])))) in
  run (idle true) (since (bus (power_on [])) d')
  = Some (idle true, map data (bytes_at [1; 2] 2 ++ bytes_at [3; 4; 5] 2))
  /\ transactions (since (bus (power_on [])) d') = 1%nat
  /\ selects (since (bus (power_on [])) d') = 1%nat
  /\ deasserts (since (bus (power_on [])) d') = 1%nat
  /\ bulk_active d' = false.
Proof.
  apply (bulk_session_concatenates [1; 2] [3; 4; 5] 2 2 (power_on []) (idle true)).
  reflexivity.
Defined.

(** ** The solid fill, byte for byte *)

Lemma color_high_low color :
  0 <= color < 65536 ->
  u8 (Z.shiftr color 8) = color / 256 /\ u8 (Z.land color 255) = color mod 256.
Proof.
  intros Hc. split.
  - rewrite Z.shiftr_div_pow2 by lia. change (2 ^ 8) with 256.
    apply Z.mod_small. split; [apply Z.div_pos | apply Z.div_lt_upper_bound]; lia.
  - rewrite land_255. unfold u8. apply Z.mod_mod. lia.
Qed.

(** C1, as the code has it.  For every even size of the transfer buffer
    from 2 to 65534 bytes (the fill counter has 16 bits and writes two
    bytes a round), every 16-bit color and every window with corners
    x0 <= x1 < LCD_WIDTH and y0 <= y1 < LCD_HEIGHT, the call
    LCD_ClearWindow(x0, y0, x1 + 1, y1 + 1, color) (the code takes the
    column and row one past the last) returns, and the display receives
    the address window x0 .. x1 by y0 .. y1 and then, as data, exactly
    W * H * 2 bytes, W = x1 - x0 + 1 and H = y1 - y0 + 1, and nothing else;
    the framing is kept and the chip select ends high.  Every pair of
    these bytes is the color, high byte first.  They are the bytes of the
    block writes, which come in blocks of the buffer size followed, when
    the size does not divide W * H * 2, by one last block cut to the bytes
    that remain. *)
Theorem clear_window_exact (DMA_BUFFER_SIZE : Z) (fuel : nat)
    (x0 y0 x1 y1 color : Z) (d : dev) (w : wire) :
  0 < DMA_BUFFER_SIZE <= 65534 ->
  Z.even DMA_BUFFER_SIZE = true ->
  Z.of_nat (length (dmaBuffer d)) = DMA_BUFFER_SIZE ->
  0 <= x0 <= x1 -> x1 < LCD_WIDTH ->
  0 <= y0 <= y1 -> y1 < LCD_HEIGHT ->
  0 <= color < 65536 ->
  DMA_BUFFER_SIZE + (x1 - x0 + 1) * (y1 - y0 + 1) < Z.of_nat fuel ->
  in_txn w = false ->
  let W := x1 - x0 + 1 in
  let H := y1 - y0 + 1 in
  exists d' addr pixels,
    LCD_ClearWindow DMA_BUFFER_SIZE fuel x0 y0 (x1 + 1) (y1 + 1) color d = Some d'
    /\ run w (since (bus d) d') = Some (idle true, addr ++ map data pixels)
    /\ window_of addr = Some (x0, x1, y0, y1)
    /\ Z.of_nat (length pixels) = W * H * 2
    /\ (forall k, (k < Z.to_nat (W * H))%nat ->
        pixels !! (2 * k)%nat = Some (color / 256)
        /\ pixels !! (2 * k + 1)%nat = Some (color mod 256))
    /\ dma_bytes (since (bus d) d') = pixels
    /\ map (fun c => Z.of_nat (length c)) (dma_chunks (since (bus d) d'))
       = replicate (Z.to_nat (W * H * 2 / DMA_BUFFER_SIZE)) DMA_BUFFER_SIZE
         ++ (if W * H * 2 mod DMA_BUFFER_SIZE =? 0 then []
             else [W * H * 2 mod DMA_BUFFER_SIZE]).
Proof.
  intros Hsize Heven Hbuf HX HXmax HY HYmax Hcolor Hfuel Hw W H.
  assert (HW : x1 + 1 - x0 = W) by (unfold W; lia).
  assert (HH : y1 + 1 - y0 = H) by (unfold H; lia).
  assert (HWH : 0 < W * H) by (unfold W, H; nia).
  destruct (clear_window_stream DMA_BUFFER_SIZE fuel x0 y0 (x1 + 1) (y1 + 1) color d w)
    as (d' & addr & a & b & c & e & Hrun & Hwin & Htuple & Hrx);
    [first [assumption | lia | rewrite HW, HH; exact Hfuel] .. |].
  inversion Htuple; subst a b c e. clear Htuple.
  replace (x1 + 1 - 1) with x1 in * by lia.
  replace (y1 + 1 - 1) with y1 in * by lia.
  fold W H in Hrx.
  destruct (clear_window_blocks DMA_BUFFER_SIZE fuel x0 y0 (x1 + 1) (y1 + 1) color d)
    as (d2 & evs & Hrun2 & Hbus & Hbytes & Hlen & _ & _ & Hcut);
    [first [assumption | lia | rewrite HW, HH; exact Hfuel] .. |].
  rewrite Hrun in Hrun2. inversion Hrun2; subst d2. clear Hrun2.
  rewrite HW, HH in Hbytes, Hlen, Hcut.
  destruct (LCD_SetCursor_emit x0 y0 (u16 (x1 + 1 - 1)) (u16 (y1 + 1 - 1)) d)
    as (evs0 & Hcur & Hnone).
  assert (Hsince : since (bus d) d' = evs0 ++ evs).
  { unfold since. rewrite Hbus, Hcur. cbn [bus emit].
    rewrite <- app_assoc. apply drop_app_length. }
  assert (Hall : dma_bytes (since (bus d) d') = solid_pixels color (Z.to_nat (W * H))).
  { rewrite Hsince, dma_bytes_app, Hbytes. unfold dma_bytes at 1. rewrite Hnone.
    reflexivity. }
  exists d', addr, (solid_pixels color (Z.to_nat (W * H))).
  split; [exact Hrun|]. split; [exact Hrx|]. split; [exact Hwin|].
  split; [rewrite <- Hbytes; exact Hlen|].
  split; [|split; [exact Hall|]].
  - intros k Hk. unfold solid_pixels.
    destruct (color_high_low color Hcolor) as (-> & ->).
    rewrite !pixel_pairs_lookup by lia.
    rewrite Nat.even_add, Nat.even_mul. cbn [Nat.even orb Bool.eqb].
    split; reflexivity.
  - rewrite Hsince, dma_chunks_app, Hnone. exact Hcut.
Qed.

(** The window 10 .. 14 by 20 .. 20 through a 4-byte buffer. *)
Lemma clear_window_exact_witness :
  let W := 14 - 10 + 1 in
  let H := 20 - 20 + 1 in
  exists d' addr pixels,
    LCD_ClearWindow 4 20 10 20 (14 + 1) (20 + 1) 4660 (power_on [0; 0; 0; 0]) = Some d'
    /\ run (idle true) (since (bus (power_on [0; 0; 0; 0])) d')
       = Some (idle true, addr ++ map data pixels)
    /\ window_of addr = Some (10, 14, 20, 20)
    /\ Z.of_nat (length pixels) = W * H * 2
    /\ (forall k, (k < Z.to_nat (W * H))%nat ->
        pixels !! (2 * k)%nat = Some (4660 / 256)
        /\ pixels !! (2 * k + 1)%nat = Some (4660 mod 256))
    /\ dma_bytes (since (bus (power_on [0; 0; 0; 0])) d') = pixels
    /\ map (fun c => Z.of_nat (length c))
           (dma_chunks (since (bus (power_on [0; 0; 0; 0])) d'))
       = replicate (Z.to_nat (W * H * 2 / 4)) 4
         ++ (if W * H * 2 mod 4 =? 0 then [] else [W * H * 2 mod 4]).
Proof.
  apply (clear_window_exact 4 20 10 20 14 20 4660 (power_on [0; 0; 0; 0]) (idle true));
    first [reflexivity | unfold LCD_WIDTH, LCD_HEIGHT; simpl; lia].
Defined.

(** The same window as the bus has it: the ten pixel bytes in blocks of
    4, 4 and 2. *)
Example clear_window_exact_run :
  option_map (fun d' => dma_chunks (since [] d'))
    (LCD_ClearWindow 4 20 10 20 15 21 4660 (power_on [0; 0; 0; 0]))
  = Some [[18; 52; 18; 52]; [18; 52; 18; 52]; [18; 52]].
Proof. vm_compute. reflexivity. Qed.

End WireFacts.

(** ** The callback as a painter *)

Module PixelFacts.
Import CameraConfig Camera Pixels DecodeFacts.

Section Block.

Variables x y w : Z.
Variable bitmap : list Z.
Hypothesis x_pos : 0 <= x.
Hypothesis y_pos : 0 <= y.

Let pix (row col : Z) : Z := nth (Z.to_nat (row * w + col)) bitmap 0.

(** The columns loop leaves alone every byte outside the columns it is
    about to visit. *)
Lemma cols_miss (n : nat) (row col : Z) (fb : list Z) (j : nat) :
  0 <= row -> y + row < FRAME_HEIGHT -> 0 <= col ->
  Z.of_nat j < pixel_offset (x + col) (y + row)
  \/ pixel_offset (x + col + Z.of_nat n) (y + row) <= Z.of_nat j
  \/ pixel_offset FRAME_WIDTH (y + row) <= Z.of_nat j ->
  callback_cols n x y w row col bitmap fb !! j = fb !! j.
Proof.
  unfold pixel_offset, FRAME_WIDTH, FRAME_HEIGHT.
  intros Hrow Hy. revert col fb.
  induction n as [|n IH]; intros col fb Hcol Hj; [reflexivity|].
  cbn [callback_cols]. unfold FRAME_WIDTH.
  destruct (Z.leb_spec 320 (x + col)) as [_|Hin]; [reflexivity|].
  rewrite IH by lia.
  rewrite (u32_small (((y + row) * 320 + (x + col)) * 2)) by lia.
  rewrite u32_small by lia.
  rewrite !list_lookup_insert_ne by lia. reflexivity.
Qed.

(** A column it visits gets the two bytes of its pixel, high byte first. *)
Lemma cols_hit (n : nat) (row col : Z) (fb : list Z) (c : Z) :
  0 <= row -> y + row < FRAME_HEIGHT -> 0 <= col ->
  Z.of_nat (length fb) = FRAME_BUFFER_SIZE ->
  col <= c < col + Z.of_nat n -> x + c < FRAME_WIDTH ->
  callback_cols n x y w row col bitmap fb !! Z.to_nat (pixel_offset (x + c) (y + row))
  = Some (u8 (Z.shiftr (pix row c) 8))
  /\ callback_cols n x y w row col bitmap fb !! Z.to_nat (pixel_offset (x + c) (y + row) + 1)
     = Some (u8 (Z.land (pix row c) 255)).
Proof.
  unfold FRAME_BUFFER_SIZE, FRAME_WIDTH, FRAME_HEIGHT.
  intros Hrow Hy. revert col fb.
  induction n as [|n IH]; intros col fb Hcol Hlen Hc Hx; [lia|].
  cbn [callback_cols]. unfold FRAME_WIDTH.
  destruct (Z.leb_spec 320 (x + col)) as [Hout|Hin]; [lia|].
  rewrite (u32_small (((y + row) * 320 + (x + col)) * 2)) by lia.
  rewrite u32_small by lia.
  destruct (Z.eq_dec c col) as [->|Hne].
  - rewrite !cols_miss
      by (unfold pixel_offset, FRAME_WIDTH, FRAME_HEIGHT; lia).
    unfold pixel_offset, FRAME_WIDTH.
    rewrite list_lookup_insert_ne by lia.
    rewrite list_lookup_insert_eq by lia.
    rewrite list_lookup_insert_eq by (rewrite length_insert; lia).
    split; reflexivity.
  - apply IH; [lia | rewrite !length_insert; exact Hlen | lia | exact Hx].
Qed.

(** The rows loop leaves alone every byte that lies in none of the rows
    it is about to visit, or right of the block or of the frame in such a
    row. *)
Lemma rows_miss (n : nat) (row : Z) (fb : list Z) (j : nat) :
  0 <= row ->
  (forall r, row <= r < row + Z.of_nat n -> y + r < FRAME_HEIGHT ->
     Z.of_nat j < pixel_offset x (y + r)
     \/ pixel_offset (x + Z.of_nat (Z.to_nat w)) (y + r) <= Z.of_nat j
     \/ pixel_offset FRAME_WIDTH (y + r) <= Z.of_nat j) ->
  callback_rows n x y w row bitmap fb !! j = fb !! j.
Proof.
  revert row fb.
  induction n as [|n IH]; intros row fb Hrow Hj; [reflexivity|].
  cbn [callback_rows].
  destruct (Z.leb_spec FRAME_HEIGHT (y + row)) as [_|Hin]; [reflexivity|].
  rewrite IH; [|lia|intros r Hr; apply Hj; lia].
  apply cols_miss; [lia | lia | lia |].
  rewrite !Z.add_0_r. apply Hj; lia.
Qed.

(** A pixel of a row it visits, inside the block and the frame, gets its
    two bytes. *)
Lemma rows_hit (n : nat) (row : Z) (fb : list Z) (r c : Z) :
  0 <= row ->
  Z.of_nat (length fb) = FRAME_BUFFER_SIZE ->
  row <= r < row + Z.of_nat n -> y + r < FRAME_HEIGHT ->
  0 <= c < w -> x + c < FRAME_WIDTH ->
  callback_rows n x y w row bitmap fb !! Z.to_nat (pixel_offset (x + c) (y + r))
  = Some (u8 (Z.shiftr (pix r c) 8))
  /\ callback_rows n x y w row bitmap fb !! Z.to_nat (pixel_offset (x + c) (y + r) + 1)
     = Some (u8 (Z.land (pix r c) 255)).
Proof.
  revert row fb.
  induction n as [|n IH]; intros row fb Hrow Hlen Hr Hy Hc Hx; [lia|].
  cbn [callback_rows].
  destruct (Z.leb_spec FRAME_HEIGHT (y + row)) as [Hout|Hin]; [lia|].
  destruct (Z.eq_dec r row) as [->|Hne].
  - rewrite !rows_miss.
    + apply cols_hit; try assumption; lia.
    + lia.
    + intros r' Hr' _. left. unfold pixel_offset, FRAME_WIDTH in *. lia.
    + lia.
    + intros r' Hr' _. left. unfold pixel_offset, FRAME_WIDTH in *. lia.
  - apply IH; try assumption; [lia | | lia].
    rewrite callback_cols_length. exact Hlen.
Qed.

End Block.

(** X8.  tjpgCallback paints the block into the picture, clipped to the
    frame: for a block at a non-negative position, every frame pixel the
    block lies over gets the two bytes of the block's pixel there, high
    byte first, at the row-major offset (py * 320 + px) * 2; every other
    frame pixel keeps both its bytes. *)
Theorem tjpgCallback_paints (b : mcu_block) (fb : list Z) (px py : Z) :
  0 <= blk_x b -> 0 <= blk_y b ->
  Z.of_nat (length fb) = FRAME_BUFFER_SIZE ->
  0 <= px < FRAME_WIDTH -> 0 <= py < FRAME_HEIGHT ->
  (covers b px py ->
     tjpgCallback b fb !! Z.to_nat (pixel_offset px py)
     = Some (u8 (Z.shiftr (block_pixel b (px - blk_x b) (py - blk_y b)) 8))
     /\ tjpgCallback b fb !! Z.to_nat (pixel_offset px py + 1)
        = Some (u8 (Z.land (block_pixel b (px - blk_x b) (py - blk_y b)) 255)))
  /\ (~ covers b px py ->
        tjpgCallback b fb !! Z.to_nat (pixel_offset px py)
        = fb !! Z.to_nat (pixel_offset px py)
        /\ tjpgCallback b fb !! Z.to_nat (pixel_offset px py + 1)
           = fb !! Z.to_nat (pixel_offset px py + 1)).
Proof.
  intros Hx Hy Hlen Hpx Hpy. unfold covers, tjpgCallback. split.
  - intros (Hcx & Hcy).
    replace px with (blk_x b + (px - blk_x b)) at 1 3 by lia.
    replace py with (blk_y b + (py - blk_y b)) at 1 3 by lia.
    unfold block_pixel.
    apply rows_hit; try assumption; lia.
  - intros Hout.
    assert (Hmiss : forall k, (k = Z.to_nat (pixel_offset px py)
                               \/ k = Z.to_nat (pixel_offset px py + 1)) ->
              callback_rows (Z.to_nat (blk_h b)) (blk_x b) (blk_y b) (blk_w b) 0
                (blk_bitmap b) fb !! k = fb !! k).
    { intros k Hk. apply rows_miss; [assumption | assumption | lia |].
      intros r Hr Hry. unfold pixel_offset, FRAME_WIDTH, FRAME_HEIGHT in *. lia. }
    split; apply Hmiss; auto.
Qed.

Lemma tjpgCallback_paints_witness :
  tjpgCallback (Block 318 0 4 1 [4660; 22136; 1; 2]) cleared_frame
    !! Z.to_nat (pixel_offset 319 0)
  = Some (u8 (Z.shiftr (block_pixel (Block 318 0 4 1 [4660; 22136; 1; 2]) (319 - 318) (0 - 0)) 8)).
Proof.
  apply (tjpgCallback_paints (Block 318 0 4 1 [4660; 22136; 1; 2]) cleared_frame 319 0).
  - simpl. lia.
  - simpl. lia.
  - unfold cleared_frame. rewrite length_replicate. apply Z2Nat.id. vm_compute. discriminate.
  - unfold FRAME_WIDTH. lia.
  - unfold FRAME_HEIGHT. lia.
  - unfold covers. simpl. lia.
Defined.

End PixelFacts.

(** ** The camera: a capture that succeeds *)

Module CaptureRunFacts.
Import CameraConfig Camera CameraFacts.

Section Run.

Variable hw : sensor.

(** The wait loop when the flag is first up at the read number [k0]. *)
Lemma wait_done_raised (k0 : nat) (startTime : Z) :
  (forall j, (j < k0)%nat -> cap_done hw j = false) ->
  cap_done hw k0 = true ->
  (k0 <= 1001)%nat ->
  forall (fuel k : nat) (st : cam),
    (k <= k0)%nat -> elapsed startTime st = Z.of_nat k -> (k0 - k < fuel)%nat ->
    wait_done hw fuel startTime k st = Some (true, Nat.iter (k0 - k) (delay 1) st).
Proof.
  intros Hbefore Hup Hk0.
  induction fuel as [|fuel IH]; intros k st Hk Hel Hfuel; [lia|].
  cbn [wait_done]. fold (elapsed startTime st). rewrite Hel.
  destruct (Nat.eq_dec k k0) as [->|Hne].
  - rewrite Hup, Nat.sub_diag. reflexivity.
  - rewrite Hbefore by lia.
    destruct (Z.ltb_spec 1000 (Z.of_nat k)) as [Hout|_]; [lia|].
    rewrite (IH (S k) (delay 1 st)); [| lia | | lia].
    + replace (k0 - k)%nat with (S (k0 - S k)) by lia.
      rewrite Nat.iter_succ_r. reflexivity.
    + rewrite elapsed_delay, Hel. rewrite u32_small by lia. lia.
Qed.

(** A run of the wait loop that ends with the flag up has seen it up at
    one of the first 1002 reads. *)
Lemma wait_done_true_inv (startTime : Z) (fuel k : nat) (st st' : cam) :
  (k <= 1001)%nat ->
  elapsed startTime st = Z.of_nat k ->
  wait_done hw fuel startTime k st = Some (true, st') ->
  exists j, (k <= j <= 1001)%nat /\ cap_done hw j = true.
Proof.
  revert k st. induction fuel as [|fuel IH]; intros k st Hk Hel Hrun; [discriminate|].
  cbn [wait_done] in Hrun. fold (elapsed startTime st) in Hrun. rewrite Hel in Hrun.
  destruct (cap_done hw k) eqn:Hup.
  - exists k. split; [lia | exact Hup].
  - destruct (Z.ltb_spec 1000 (Z.of_nat k)) as [Hout|Hin]; [discriminate|].
    destruct (IH (S k) (delay 1 st)) as (j & Hj & Hupj); [lia | | exact Hrun |].
    + rewrite elapsed_delay, Hel. rewrite u32_small by lia. lia.
    + exists j. split; [lia | exact Hupj].
Qed.

(** The burst read fills the first [n] bytes from the sensor and leaves
    the rest of the buffer. *)
Lemma read_fifo_buffer (n i : nat) (st : cam) :
  (i + n <= length (jpegBuffer st))%nat ->
  jpegBuffer (read_fifo hw n i st)
  = take i (jpegBuffer st) ++ map (fun j => u8 (fifo_data hw j)) (seq i n)
      ++ drop (i + n) (jpegBuffer st)
  /\ sensor_log (read_fifo hw n i st) = sensor_log st ++ replicate n (SpiTransfer 0)
  /\ now (read_fifo hw n i st) = now st
  /\ frameBuffer (read_fifo hw n i st) = frameBuffer st
  /\ isAvailable (read_fifo hw n i st) = isAvailable st.
Proof.
  revert i st. induction n as [|n IH]; intros i st Hlen.
  - cbn [read_fifo seq map replicate app]. rewrite Nat.add_0_r, take_drop, app_nil_r.
    repeat split.
  - cbn [read_fifo].
    set (st1 := set_jpegBuffer _ _).
    destruct (IH (S i) st1) as (Hbuf & Hlog & Hnow & Hfb & Hav).
    { subst st1. cbn [jpegBuffer set_jpegBuffer call]. rewrite length_insert. lia. }
    rewrite Hbuf, Hlog, Hnow, Hfb, Hav. subst st1.
    cbn [jpegBuffer sensor_log now frameBuffer isAvailable set_jpegBuffer call].
    split; [|repeat split].
    + rewrite (take_S_r _ _ (u8 (fifo_data hw i)))
        by (apply list_lookup_insert_eq; lia).
      rewrite take_insert_ge by lia.
      rewrite drop_insert_lt by lia.
      cbn [seq map]. rewrite <- !app_assoc. cbn [app].
      replace (S i + n)%nat with (i + S n)%nat by lia. reflexivity.
    + rewrite <- app_assoc. reflexivity.
Qed.

End Run.

(** The run of a capture that succeeds, step by step. *)
Lemma captureJPEG_success_run (hw : sensor) (fuel k0 : nat) (st : cam) :
  isAvailable st = true ->
  (forall j, (j < k0)%nat -> cap_done hw j = false) ->
  cap_done hw k0 = true ->
  (k0 <= 1001)%nat -> (k0 < fuel)%nat ->
  1 <= u32 (fifo_length hw) <= MAX_JPEG_SIZE ->
  Z.of_nat (length (jpegBuffer st)) = MAX_JPEG_SIZE ->
  exists st',
    captureJPEG hw fuel st = Some (true, st')
    /\ jpegLength st' = u32 (fifo_length hw)
    /\ jpegBuffer st'
       = map (fun i => u8 (fifo_data hw i)) (seq 0 (Z.to_nat (u32 (fifo_length hw))))
           ++ drop (Z.to_nat (u32 (fifo_length hw))) (jpegBuffer st)
    /\ elapsed (now st) st' = Z.of_nat k0
    /\ sensor_ops st st'
       = [FlushFifo; ClearFifoFlag; StartCapture; CsLow; SetFifoBurst]
           ++ replicate (Z.to_nat (u32 (fifo_length hw))) (SpiTransfer 0) ++ [CsHigh]
    /\ frameBuffer st' = frameBuffer st.
Proof.
  intros Hav Hbefore Hup Hk0 Hfuel Hlen Hbuf.
  unfold captureJPEG. rewrite Hav. cbn [negb].
  set (st0 := call StartCapture (call ClearFifoFlag (call FlushFifo st))).
  rewrite (wait_done_raised hw k0 (now st0) Hbefore Hup Hk0 fuel 0 st0);
    [| lia | apply elapsed_start | lia].
  rewrite Nat.sub_0_r.
  set (st1 := Nat.iter k0 (delay 1) st0).
  cbn [jpegLength set_jpegLength].
  destruct (Z.eqb_spec (u32 (fifo_length hw)) 0) as [E|_]; [lia|].
  destruct (Z.ltb_spec MAX_JPEG_SIZE (u32 (fifo_length hw))) as [E|_]; [lia|].
  cbn [orb].
  set (n := Z.to_nat (u32 (fifo_length hw))).
  set (st2 := call SetFifoBurst (call CsLow (set_jpegLength (u32 (fifo_length hw)) st1))).
  destruct (polls_same_frame k0 st0) as (_ & Hb1 & _ & Hf1).
  destruct (polls_logs k0 st0) as (_ & Hl1).
  fold st1 in Hb1, Hf1, Hl1.
  destruct (read_fifo_buffer hw n 0 st2) as (Hbuf' & Hlog' & Hnow' & Hfb' & _).
  { subst st2. cbn [jpegBuffer call set_jpegLength]. rewrite Hb1. subst st0. cbn [jpegBuffer call]. lia. }
  destruct (read_fifo_frame hw n 0 st2) as (Hlen' & _ & _).
  eexists. split; [reflexivity|].
  cbn [jpegLength jpegBuffer frameBuffer print call].
  change (Z.to_nat (jpegLength st2)) with n.
  rewrite Hlen', Hbuf', Hfb'. subst st2.
  cbn [jpegLength jpegBuffer frameBuffer sensor_log now call set_jpegLength] in *.
  rewrite Hb1, Hf1. subst st0. cbn [jpegBuffer frameBuffer call].
  split; [reflexivity|]. split; [reflexivity|]. split; [|split; [|reflexivity]].
  - unfold elapsed. cbn [now print call]. rewrite Hnow'. cbn [now call set_jpegLength].
    fold (elapsed (now st) st1). subst st1.
    rewrite elapsed_polls.
    change (elapsed (now st) (call StartCapture (call ClearFifoFlag (call FlushFifo st))))
      with (elapsed (now st) st).
    rewrite elapsed_start. apply u32_small. lia.
  - unfold sensor_ops. cbn [sensor_log print call]. rewrite Hlog'. rewrite Hl1.
    cbn [sensor_log call]. rewrite <- !app_assoc. cbn [app]. apply drop_app_length.
Qed.

(** X9.  A capture that succeeds.  When the camera is available, the
    capture-done flag is first up at the read number k0 <= 1001 and the
    length register shows n with 1 <= n <= MAX_JPEG_SIZE, captureJPEG
    returns true after k0 ms of polling; the stored length is n, the first
    n bytes of the compressed-frame buffer are the n bytes read from the
    sensor, in order, and the bytes behind them are what they were; the
    sensor was asked for exactly n bytes, between chip select low and
    high; the pixel buffer is untouched. *)
Theorem capture_reads_frame (hw : sensor) (fuel k0 : nat) (st : cam) :
  isAvailable st = true ->
  (forall j, (j < k0)%nat -> cap_done hw j = false) ->
  cap_done hw k0 = true ->
  (k0 <= 1001)%nat -> (k0 < fuel)%nat ->
  1 <= u32 (fifo_length hw) <= MAX_JPEG_SIZE ->
  Z.of_nat (length (jpegBuffer st)) = MAX_JPEG_SIZE ->
  exists st',
    captureJPEG hw fuel st = Some (true, st')
    /\ jpegLength st' = u32 (fifo_length hw)
    /\ jpegBuffer st'
       = map (fun i => u8 (fifo_data hw i)) (seq 0 (Z.to_nat (u32 (fifo_length hw))))
           ++ drop (Z.to_nat (u32 (fifo_length hw))) (jpegBuffer st)
    /\ elapsed (now st) st' = Z.of_nat k0
    /\ sensor_ops st st'
       = [FlushFifo; ClearFifoFlag; StartCapture; CsLow; SetFifoBurst]
           ++ replicate (Z.to_nat (u32 (fifo_length hw))) (SpiTransfer 0) ++ [CsHigh]
    /\ frameBuffer st' = frameBuffer st.
Proof. apply captureJPEG_success_run. Qed.

Lemma capture_reads_frame_witness :
  exists st',
    captureJPEG (ready_sensor 3 5) 10 (power_on true) = Some (true, st')
    /\ jpegLength st' = u32 (fifo_length (ready_sensor 3 5))
    /\ jpegBuffer st'
       = map (fun i => u8 (fifo_data (ready_sensor 3 5) i))
           (seq 0 (Z.to_nat (u32 (fifo_length (ready_sensor 3 5)))))
           ++ drop (Z.to_nat (u32 (fifo_length (ready_sensor 3 5)))) (jpegBuffer (power_on true))
    /\ elapsed (now (power_on true)) st' = Z.of_nat 3
    /\ sensor_ops (power_on true) st'
       = [FlushFifo; ClearFifoFlag; StartCapture; CsLow; SetFifoBurst]
           ++ replicate (Z.to_nat (u32 (fifo_length (ready_sensor 3 5)))) (SpiTransfer 0)
           ++ [CsHigh]
    /\ frameBuffer st' = frameBuffer (power_on true).
Proof.
  apply (capture_reads_frame (ready_sensor 3 5) 10 3 (power_on true)).
  - reflexivity.
  - intros j Hj. destruct j as [|[|[|j]]]; [reflexivity | reflexivity | reflexivity | lia].
  - reflexivity.
  - lia.
  - lia.
  - vm_compute. split; discriminate.
  - cbn [jpegBuffer power_on]. rewrite length_replicate. apply Z2Nat.id. vm_compute. discriminate.
Defined.

(** The first read at which a flag is up. *)
Lemma first_up (f : nat -> bool) (n : nat) :
  f n = true ->
  exists k0, (k0 <= n)%nat /\ f k0 = true /\ forall j, (j < k0)%nat -> f j = false.
Proof.
  assert (Hscan : forall m,
            (forall j, (j < m)%nat -> f j = false)
            \/ exists k0, (k0 < m)%nat /\ f k0 = true /\ forall j, (j < k0)%nat -> f j = false).
  { induction m as [|m [Hnone|(k0 & Hk0 & Hup & Hbefore)]].
    - left. intros j Hj. lia.
    - destruct (f m) eqn:Hm.
      + right. exists m. repeat split; [lia | exact Hm | exact Hnone].
      + left. intros j Hj. destruct (Nat.eq_dec j m) as [->|Hne]; [exact Hm | apply Hnone; lia].
    - right. exists k0. repeat split; [lia | exact Hup | exact Hbefore]. }
  intros Hn. destruct (Hscan (S n)) as [Hnone|(k0 & Hk0 & Hup & Hbefore)].
  - rewrite Hnone in Hn by lia. discriminate.
  - exists k0. repeat split; [lia | exact Hup | exact Hbefore].
Qed.

(** When the result is true. *)
Lemma captureJPEG_true_iff (hw : sensor) (fuel : nat) (st : cam) :
  (1002 <= fuel)%nat ->
  option_map fst (captureJPEG hw fuel st) = Some true
  <-> isAvailable st = true
      /\ (exists k, (k <= 1001)%nat /\ cap_done hw k = true)
      /\ 1 <= u32 (fifo_length hw) <= MAX_JPEG_SIZE.
Proof.
  intros Hfuel. unfold captureJPEG.
  set (st0 := call StartCapture (call ClearFifoFlag (call FlushFifo st))).
  pose proof (u32_range (fifo_length hw)) as Hrange.
  split.
  - destruct (isAvailable st); cbn [negb]; [|discriminate].
    destruct (wait_done hw fuel (now st0) 0 st0) as [[[|] st1]|] eqn:Hwait;
      [| discriminate | discriminate].
    apply wait_done_true_inv in Hwait; [| lia | apply elapsed_start].
    destruct Hwait as (j & Hj & Hup).
    cbn [jpegLength set_jpegLength].
    destruct (Z.eqb_spec (u32 (fifo_length hw)) 0) as [E|Hnz]; cbn [orb]; [discriminate|].
    destruct (Z.ltb_spec MAX_JPEG_SIZE (u32 (fifo_length hw))) as [E|Hfit]; [discriminate|].
    intros _. split; [reflexivity|]. split; [|lia].
    exists j. split; [lia | exact Hup].
  - intros (Hav & (k & Hk & Hup) & Hlen).
    rewrite Hav. cbn [negb].
    destruct (first_up (cap_done hw) k Hup) as (k0 & Hk0 & Hup0 & Hbefore).
    rewrite (wait_done_raised hw k0 (now st0) Hbefore Hup0 ltac:(lia) fuel 0 st0);
      [| lia | apply elapsed_start | lia].
    cbn [jpegLength set_jpegLength].
    destruct (Z.eqb_spec (u32 (fifo_length hw)) 0) as [E|_]; [lia|].
    destruct (Z.ltb_spec MAX_JPEG_SIZE (u32 (fifo_length hw))) as [E|_]; [lia|].
    reflexivity.
Qed.

(** X10.  captureJPEG succeeds exactly when the camera is available, the
    capture-done flag is up at one of the first 1002 reads (read numbers 0
    to 1001, one millisecond apart), and the length register shows a value
    from 1 to MAX_JPEG_SIZE.  A flag that comes up later is not seen. *)
Theorem capture_succeeds_iff (hw : sensor) (fuel : nat) (st : cam) :
  (1002 <= fuel)%nat ->
  option_map fst (captureJPEG hw fuel st) = Some true
  <-> isAvailable st = true
      /\ (exists k, (k <= 1001)%nat /\ cap_done hw k = true)
      /\ 1 <= u32 (fifo_length hw) <= MAX_JPEG_SIZE.
Proof. apply captureJPEG_true_iff. Qed.

Lemma capture_succeeds_iff_witness :
  option_map fst (captureJPEG (ready_sensor 1001 5) 1002 (power_on true)) = Some true
  /\ ~ option_map fst (captureJPEG (ready_sensor 1002 5) 1002 (power_on true)) = Some true.
Proof.
  split.
  - apply (capture_succeeds_iff (ready_sensor 1001 5) 1002 (power_on true)); [lia|].
    split; [reflexivity|]. split; [|vm_compute; split; discriminate].
    exists (Z.to_nat 1001). split; [lia | vm_compute; reflexivity].
  - intros Hrun.
    apply (capture_succeeds_iff (ready_sensor 1002 5) 1002 (power_on true)) in Hrun; [|lia].
    destruct Hrun as (_ & (k & Hk & Hup) & _).
    cbn [cap_done ready_sensor] in Hup. apply Nat.leb_le in Hup. lia.
Defined.

(** captureJPEG never writes the pixel buffer. *)
Lemma read_fifo_pixels (hw : sensor) (n i : nat) (st : cam) :
  frameBuffer (read_fifo hw n i st) = frameBuffer st.
Proof.
  revert i st. induction n as [|n IH]; intros i st; [reflexivity|].
  cbn [read_fifo]. rewrite IH. reflexivity.
Qed.

Lemma captureJPEG_keeps_pixels (hw : sensor) (fuel : nat) (st : cam) r st' :
  captureJPEG hw fuel st = Some (r, st') -> frameBuffer st' = frameBuffer st.
Proof.
  unfold captureJPEG. destruct (isAvailable st); cbn [negb].
  2:{ intros E. inversion E. reflexivity. }
  set (st0 := call StartCapture (call ClearFifoFlag (call FlushFifo st))).
  destruct (wait_done hw fuel (now st0) 0 st0) as [[[|] st1]|] eqn:Hwait; [| |discriminate].
  - apply wait_done_frame in Hwait. destruct Hwait as ((_ & _ & _ & Hfb) & _).
    destruct (_ || _); intros E; inversion E; subst; cbn [frameBuffer print call];
      rewrite ?read_fifo_pixels; cbn [frameBuffer call set_jpegLength]; exact Hfb.
  - apply wait_done_frame in Hwait. destruct Hwait as ((_ & _ & _ & Hfb) & _).
    intros E. inversion E; subst. exact Hfb.
Qed.

End CaptureRunFacts.

(** ** One round of the camera task *)

Module CameraTaskFacts.
Import DevConfig LcdManager Camera CameraTask Wire.
Import CameraFacts DecodeFacts CaptureRunFacts WireFacts.

(** X11.  One round of the camera task returns, and it writes to the
    display only after a capture and a decode that both succeeded: then
    the display receives the full-frame address window and exactly the
    bytes of the pixel buffer as the decode left it, before displayMode
    draws; after a failed capture or a failed decode the display device is
    left exactly as it was. *)
Theorem camera_round_shows_decoded_frame (hw : sensor)
    (drawJpg : list Z -> Z -> list mcu_block * Z) (displayMode : dev -> dev)
    (fuel : nat) (c : cam) (d : dev) (w : wire) :
  (1002 <= fuel)%nat ->
  Z.of_nat (length (frameBuffer c)) = CameraConfig.FRAME_BUFFER_SIZE ->
  in_txn w = false ->
  exists c' d',
    cameraTask_round hw drawJpg displayMode fuel c d = Some (c', d')
    /\ match captureJPEG hw fuel c with
       | Some (true, c1) =>
           if fst (decodeToFrameBuffer drawJpg c1) then
             exists df addr,
               d' = displayMode df
               /\ run w (since (bus d) df) = Some (idle true, addr ++ map data (frameBuffer c'))
               /\ window_of addr = Some (0, 319, 0, 239)
               /\ frameBuffer c' = frameBuffer (snd (decodeToFrameBuffer drawJpg c1))
           else d' = d
       | _ => d' = d
       end.
Proof.
  intros Hfuel Hlen Hw. unfold cameraTask_round.
  destruct (captureJPEG_returns hw fuel c Hfuel) as (r & c1 & Hcap).
  rewrite Hcap. destruct r; [|eauto].
  pose proof (captureJPEG_keeps_pixels hw fuel c true c1 Hcap) as Hpix.
  pose proof (decode_keeps_size drawJpg c1 ltac:(congruence)) as Hsize.
  destruct (decodeToFrameBuffer drawJpg c1) as [decoded c2]. cbn [fst snd] in *.
  destruct decoded; [|eauto].
  destruct (display_frame_stream fuel (frameBuffer c2) d w Hsize ltac:(lia) Hw)
    as (df & addr & Hshow & Hrx & Hwin & _).
  rewrite Hshow. eexists. eexists. split; [reflexivity|].
  exists df, addr. repeat split; assumption.
Qed.

Lemma camera_round_shows_decoded_frame_witness :
  exists c1 c' df addr,
    captureJPEG (ready_sensor 3 5) 1002 (power_on true) = Some (true, c1)
    /\ fst (decodeToFrameBuffer (fun _ _ => ([Block 0 0 2 1 [63488; 31]], 0)) c1) = true
    /\ cameraTask_round (ready_sensor 3 5) (fun _ _ => ([Block 0 0 2 1 [63488; 31]], 0))
         (fun d => d) 1002 (power_on true) (DevConfig.power_on []) = Some (c', df)
    /\ run (idle true) (since (bus (DevConfig.power_on [])) df)
       = Some (idle true, addr ++ map data (frameBuffer c'))
    /\ window_of addr = Some (0, 319, 0, 239)
    /\ frameBuffer c'
       = frameBuffer (snd (decodeToFrameBuffer (fun _ _ => ([Block 0 0 2 1 [63488; 31]], 0)) c1)).
Proof.
  destruct (captureJPEG_success_run (ready_sensor 3 5) 1002 3 (power_on true))
    as (c1 & Hcap & Hn & _).
  - reflexivity.
  - intros j Hj. destruct j as [|[|[|j]]]; [reflexivity | reflexivity | reflexivity | lia].
  - reflexivity.
  - lia.
  - lia.
  - vm_compute. split; discriminate.
  - cbn [jpegBuffer power_on]. rewrite length_replicate. apply Z2Nat.id. vm_compute. discriminate.
  - assert (Hdec : fst (decodeToFrameBuffer (fun _ _ => ([Block 0 0 2 1 [63488; 31]], 0)) c1)
                   = true).
    { unfold decodeToFrameBuffer. rewrite Hn. reflexivity. }
    destruct (camera_round_shows_decoded_frame (ready_sensor 3 5)
                (fun _ _ => ([Block 0 0 2 1 [63488; 31]], 0)) (fun d => d)
                1002 (power_on true) (DevConfig.power_on []) (idle true))
      as (c' & d' & Hround & Hcase).
    + lia.
    + cbn [frameBuffer power_on]. unfold cleared_frame. rewrite length_replicate.
      apply Z2Nat.id. vm_compute. discriminate.
    + reflexivity.
    + rewrite Hcap in Hcase. cbv beta iota in Hcase. rewrite Hdec in Hcase.
      destruct Hcase as (df & addr & Hd & Hrx & Hwin & Hfb). subst d'.
      exists c1, c', df, addr. repeat split; assumption.
Defined.

End CameraTaskFacts.

(** ** The RGB LED *)

Module HardwareFacts.
Import UI HardwareManager.

Lemma setLED_any_state c s s' : setLED c s = setLED c s'.
Proof. destruct c; reflexivity. Qed.

Lemma show_last colors c s : show (colors ++ [c]) s = setLED c (show colors s).
Proof. unfold show. rewrite foldl_app. reflexivity. Qed.

(** X12.  setLED writes all three channels every time, so nothing of the
    colour shown before stays on: after any series of calls the duties are
    those of the last colour alone, whatever the channels held.  Each duty
    is fully off or fully on, and the eight colours give eight different
    settings, so the channels tell which colour was set last. *)
Theorem setLED_leaves_last_color (colors : list LEDColor) (c c' : LEDColor) (s s' : pwm) :
  show (colors ++ [c]) s = setLED c s'
  /\ (duty_red (setLED c s) = 0 \/ duty_red (setLED c s) = 255)
  /\ (duty_green (setLED c s) = 0 \/ duty_green (setLED c s) = 255)
  /\ (duty_blue (setLED c s) = 0 \/ duty_blue (setLED c s) = 255)
  /\ (setLED c s = setLED c' s' -> c = c').
Proof.
  split; [rewrite show_last; apply setLED_any_state|].
  repeat split.
  - destruct c; simpl; auto.
  - destruct c; simpl; auto.
  - destruct c; simpl; auto.
  - destruct c, c'; simpl; intros H; first [reflexivity | discriminate H].
Qed.

End HardwareFacts.

(** ** Debounce in the reader (stitch_cam_v4) over the clock's roll-over *)

Module DebounceFacts.
Import UI.

Lemma u32_elapsed t dt :
  0 <= dt < 4294967296 -> u32 (u32 (t + dt) - t) = dt.
Proof.
  intros Hdt. unfold u32. rewrite Zminus_mod_idemp_l.
  replace (t + dt - t) with dt by lia. apply Z.mod_small. exact Hdt.
Qed.

Lemma u32_add_l a b : u32 (u32 a + b) = u32 (a + b).
Proof. unfold u32. apply Zplus_mod_idemp_l. Qed.

(** X13.  The check of either button decides on the time that has passed since
    the last accepted press, also when millis() has rolled over in
    between: with the flag set, [dt] ms after the last accepted press
    (0 <= dt < 2^32), the press is taken exactly when dt exceeds
    BUTTON_DEBOUNCE_MS, however the two clock readings compare. *)
Theorem debounce_measures_elapsed (BUTTON_DEBOUNCE_MS : Z) (b : button) (st : ui) (dt : Z) :
  requested b st = true ->
  0 <= dt < 4294967296 ->
  now st = u32 (lastPress b st + dt) ->
  fst (check BUTTON_DEBOUNCE_MS b st) = (BUTTON_DEBOUNCE_MS <? dt).
Proof.
  intros Hreq Hdt Hnow.
  destruct b; simpl in *.
  - unfold checkCaptureButton. rewrite Hreq, Hnow, u32_elapsed by exact Hdt.
    destruct (BUTTON_DEBOUNCE_MS <? dt); reflexivity.
  - unfold checkModeButton. rewrite Hreq, Hnow, u32_elapsed by exact Hdt.
    destruct (BUTTON_DEBOUNCE_MS <? dt); reflexivity.
Qed.

(** A press accepted 96 ms before the roll-over, the next one 300 ms
    later, when the clock shows 204: taken, with a window of 200 ms. *)
Lemma debounce_measures_elapsed_witness :
  fst (check 200 CaptureButton (Ui true false 4294967200 0 INSTANT READY 204 [])) = true.
Proof.
  apply (debounce_measures_elapsed 200 CaptureButton
           (Ui true false 4294967200 0 INSTANT READY 204 []) 300);
    [reflexivity | lia | reflexivity].
Defined.

End DebounceFacts.

(** ** Debounce in the ISR (stitch_cam_v3) *)

Module UI3Facts.
Import UI3 DebounceFacts.

Section Burst.

Variable D : Z.

(** While no more than [D] ms have passed since the accepted press at
    [t0], nothing that happens moves the time of the accepted press or
    clears the flag, and only a web request sets it. *)
Lemma burst_inv (hs : list happening) : forall (st : ui) (t0 w : Z),
  lastCaptureButtonTime st = t0 ->
  now st = u32 (t0 + w) ->
  0 <= w ->
  Forall (fun h => 0 <= waited h) hs ->
  w + foldr Z.add 0 (map waited hs) <= D ->
  D < 4294967296 ->
  let st' := foldl (happen D) st hs in
  lastCaptureButtonTime st' = t0
  /\ now st' = u32 (t0 + (w + foldr Z.add 0 (map waited hs)))
  /\ (captureRequested st = true -> captureRequested st' = true)
  /\ (Forall (fun h => h <> WebRequest) hs -> captureRequested st' = captureRequested st).
Proof.
  induction hs as [|h hs IH]; intros st t0 w Hlast Hnow Hw Hpos Hsum HD; simpl in *.
  - rewrite Z.add_0_r. auto.
  - inversion Hpos as [|? ? Hh Hrest]; subst.
    assert (Hs : 0 <= foldr Z.add 0 (map waited hs)).
    { clear -Hrest. induction Hrest; simpl; lia. }
    destruct h as [| |ms]; simpl in *.
    + (* a bounce inside the window *)
      assert (Hsame : captureButtonISR D st = st).
      { unfold captureButtonISR. rewrite Hnow, u32_elapsed by lia.
        destruct (Z.ltb_spec D w); [lia | reflexivity]. }
      rewrite Hsame.
      destruct (IH st (lastCaptureButtonTime st) w eq_refl Hnow Hw Hrest ltac:(lia) HD)
        as (H1 & H2 & H3 & H4).
      repeat split; try assumption.
      intros Hno. apply H4. inversion Hno; assumption.
    + destruct (IH (requestCapture st) (lastCaptureButtonTime st) w
                  eq_refl Hnow Hw Hrest ltac:(lia) HD) as (H1 & H2 & H3 & H4).
      repeat split; try assumption.
      * intros _. apply H3. reflexivity.
      * intros Hno. inversion Hno as [|? ? Hne]. contradiction.
    + destruct (IH (delay ms st) (lastCaptureButtonTime st) (w + ms) eq_refl)
        as (H1 & H2 & H3 & H4); try assumption; try lia.
      { simpl. rewrite Hnow, u32_add_l. f_equal. lia. }
      repeat split; try assumption.
      * rewrite H2. f_equal. lia.
      * intros Hno. apply H4. inversion Hno; assumption.
Qed.

End Burst.

Lemma waits_app hs1 hs2 :
  foldr Z.add 0 (map waited (hs1 ++ hs2))
  = foldr Z.add 0 (map waited hs1) + foldr Z.add 0 (map waited hs2).
Proof. induction hs1; simpl; lia. Qed.

Lemma waits_nonneg hs : Forall (fun h => 0 <= waited h) hs -> 0 <= foldr Z.add 0 (map waited hs).
Proof. induction 1; simpl; lia. Qed.

(** X14.  One press, one capture.  A press that the ISR takes (more than
    DEBOUNCE_MS after the one taken before) sets the flag and the time of
    the press.  Whatever happens during the next DEBOUNCE_MS before the
    reader looks (the contact bouncing, the web server asking as well,
    time passing), the reader then finds the flag set once: its look
    returns true and a second look false.  And the bounces that come after
    the reader's look, still inside the DEBOUNCE_MS of the press, do not
    raise the flag again. *)
Theorem bounce_gives_one_capture (DEBOUNCE_MS : Z) (before after : list happening) (st : ui) :
  DEBOUNCE_MS < 4294967296 ->
  DEBOUNCE_MS < u32 (now st - lastCaptureButtonTime st) ->
  0 <= now st < 4294967296 ->
  Forall (fun h => 0 <= waited h) (before ++ after) ->
  foldr Z.add 0 (map waited (before ++ after)) <= DEBOUNCE_MS ->
  Forall (fun h => h <> WebRequest) after ->
  let st1 := foldl (happen DEBOUNCE_MS) (captureButtonISR DEBOUNCE_MS st) before in
  let st2 := snd (isCaptureRequested st1) in
  lastCaptureButtonTime st1 = now st
  /\ fst (isCaptureRequested st1) = true
  /\ fst (isCaptureRequested st2) = false
  /\ captureRequested (foldl (happen DEBOUNCE_MS) st2 after) = false
  /\ lastCaptureButtonTime (foldl (happen DEBOUNCE_MS) st2 after) = now st.
Proof.
  intros HD Htaken Hnow Hpos Hsum Hno st1 st2.
  apply Forall_app in Hpos as [Hpos1 Hpos2].
  rewrite waits_app in Hsum.
  pose proof (waits_nonneg _ Hpos1) as Hs1.
  pose proof (waits_nonneg _ Hpos2) as Hs2.
  assert (Hisr : captureButtonISR DEBOUNCE_MS st
                 = set_lastCaptureButtonTime (now st) (set_captureRequested true st)).
  { unfold captureButtonISR.
    destruct (Z.ltb_spec DEBOUNCE_MS (u32 (now st - lastCaptureButtonTime st)));
      [reflexivity | lia]. }
  assert (Hnow0 : now st = u32 (now st + 0)).
  { rewrite Z.add_0_r. symmetry. apply u32_small. exact Hnow. }
  destruct (burst_inv DEBOUNCE_MS before (captureButtonISR DEBOUNCE_MS st) (now st) 0)
    as (H1 & H2 & H3 & _);
    [rewrite Hisr; reflexivity | rewrite Hisr; exact Hnow0 | lia | exact Hpos1 | lia
    | exact HD |].
  fold st1 in H1, H2, H3.
  assert (Hflag : captureRequested st1 = true) by (apply H3; rewrite Hisr; reflexivity).
  assert (Hst2 : st2 = set_captureRequested false st1).
  { unfold st2, isCaptureRequested. rewrite Hflag. reflexivity. }
  split; [exact H1|].
  split; [unfold isCaptureRequested; rewrite Hflag; reflexivity|].
  split; [rewrite Hst2; reflexivity|].
  destruct (burst_inv DEBOUNCE_MS after st2 (now st) (0 + foldr Z.add 0 (map waited before)))
    as (K1 & _ & _ & K4);
    [rewrite Hst2; exact H1 | rewrite Hst2; exact H2 | lia | exact Hpos2 | lia | exact HD |].
  split; [|exact K1].
  rewrite (K4 Hno), Hst2. reflexivity.
Qed.

(** A press 1000 ms after start, window 200 ms: two bounces and a web
    request inside 150 ms before the reader looks, one more bounce 40 ms
    after. *)
Lemma bounce_gives_one_capture_witness :
  fst (isCaptureRequested
         (foldl (happen 200) (captureButtonISR 200 (boot 1000))
                [Wait 50; Bounce; WebRequest; Wait 100; Bounce])) = true
  /\ captureRequested
       (foldl (happen 200)
          (snd (isCaptureRequested
                  (foldl (happen 200) (captureButtonISR 200 (boot 1000))
                         [Wait 50; Bounce; WebRequest; Wait 100; Bounce])))
          [Wait 40; Bounce]) = false.
Proof.
  assert (Hpos : Forall (fun h => 0 <= waited h)
                   ([Wait 50; Bounce; WebRequest; Wait 100; Bounce] ++ [Wait 40; Bounce])).
  { repeat constructor; simpl; lia. }
  assert (Hno : Forall (fun h => h <> WebRequest) [Wait 40; Bounce]).
  { repeat constructor; discriminate. }
  split;
    apply (bounce_gives_one_capture 200
             [Wait 50; Bounce; WebRequest; Wait 100; Bounce] [Wait 40; Bounce] (boot 1000));
    first [exact Hpos | exact Hno | vm_compute; reflexivity
          | simpl; lia | vm_compute; discriminate ].
Defined.

(** ** The countdown *)

Lemma countdown_loop_run (n : nat) : forall st,
  countdown_loop n st
  = Ui3 (currentMode st) (currentStatus st) (captureRequested st) (modeToggleRequested st)
        (countdownRequested st) (lastCaptureButtonTime st) (lastModeButtonTime st)
        (if n is O then now st else u32 (now st + 1000 * Z.of_nat n))
        (leds st ++ mjoin (replicate n [UI.RED; UI.OFF])).
Proof.
  induction n as [|n IH]; intros st.
  - simpl. rewrite app_nil_r. destruct st; reflexivity.
  - cbn [countdown_loop]. rewrite IH. cbn -[Z.of_nat Z.mul u32].
    f_equal.
    + destruct n as [|n].
      * rewrite u32_add_l. apply (f_equal u32). lia.
      * rewrite u32_add_l, <- Z.add_assoc, u32_add_l. apply (f_equal u32). lia.
    + rewrite <- !app_assoc. reflexivity.
Qed.

(** X15.  performCountdown returns true after exactly 1000 ms for each of its
    rounds, having set the LED to red and off once a round and to green at
    the end, whatever the status is; it changes nothing else.  The number
    of rounds is COUNTDOWN_SECONDS cut to 8 bits, the width of the loop
    variable. *)
Theorem countdown_blinks (COUNTDOWN_SECONDS : Z) (st : ui) :
  0 <= now st < 4294967296 ->
  performCountdown COUNTDOWN_SECONDS st
  = (true,
     Ui3 (currentMode st) (currentStatus st) (captureRequested st) (modeToggleRequested st)
         (countdownRequested st) (lastCaptureButtonTime st) (lastModeButtonTime st)
         (u32 (now st + 1000 * u8 COUNTDOWN_SECONDS))
         (leds st
          ++ mjoin (replicate (Z.to_nat (u8 COUNTDOWN_SECONDS)) [UI.RED; UI.OFF])
          ++ [UI.GREEN])).
Proof.
  intros Hnow. unfold performCountdown. rewrite countdown_loop_run.
  assert (Hu : 0 <= u8 COUNTDOWN_SECONDS) by (unfold u8; apply Z.mod_pos_bound; lia).
  unfold setLED. cbn [currentMode currentStatus captureRequested modeToggleRequested
    countdownRequested lastCaptureButtonTime lastModeButtonTime now leds].
  rewrite <- app_assoc. f_equal. f_equal.
  destruct (Z.to_nat (u8 COUNTDOWN_SECONDS)) as [|k] eqn:Hk.
  - replace (u8 COUNTDOWN_SECONDS) with 0 by lia.
    rewrite Z.mul_0_r, Z.add_0_r. symmetry. apply u32_small. exact Hnow.
  - rewrite <- Hk, Z2Nat.id by exact Hu. reflexivity.
Qed.

(** Three seconds from the start, in the middle of a save. *)
Lemma countdown_blinks_witness :
  performCountdown 3 (setStatus SAVING (boot 0))
  = (true,
     Ui3 UI.INSTANT SAVING false false false 0 0 3000
         [UI.YELLOW; UI.RED; UI.OFF; UI.RED; UI.OFF; UI.RED; UI.OFF; UI.GREEN]).
Proof.
  apply (countdown_blinks 3 (setStatus SAVING (boot 0))). simpl. lia.
Defined.

End UI3Facts.

(** ** The photo counter and the card *)

Module StorageFacts.
Import Storage DebounceFacts.

Lemma u32_bounds z : 0 <= u32 z < 4294967296.
Proof. unfold u32. apply Z.mod_pos_bound. lia. Qed.

Lemma count_loop_photos (files : list entry) : forall count,
  0 <= count < 4294967296 ->
  count_loop files count = u32 (count + Z.of_nat (length (photos files))).
Proof.
  unfold photos.
  induction files as [|file files IH]; intros count Hc; simpl.
  - rewrite Z.add_0_r. symmetry. apply u32_small. exact Hc.
  - destruct (is_photo file) eqn:Hp.
    + rewrite filter_cons_True by (rewrite Hp; exact I).
      rewrite IH by apply u32_bounds. rewrite u32_add_l.
      apply (f_equal u32). rewrite fmap_cons. simpl length. lia.
    + rewrite filter_cons_False by (rewrite Hp; exact id).
      apply IH. exact Hc.
Qed.

(** X16.  init counts the photos before it sets isAvailable, and countPhotos
    returns 0 while isAvailable is false.  So init succeeds exactly when
    SD.begin succeeds and a card is there; a failed init leaves the count
    and the card alone; a successful init on a store that was not
    available (as after power-on) sets the count to 0 whatever the card
    holds; only a successful init of a store that was available already
    counts the photos in PHOTO_DIR. *)
Theorem init_counts_only_when_available
    (begin_ok : bool) (cardType : Z) (dir_exists mkdir_ok : bool)
    (root : option (list entry)) (st : storage) :
  let st' := init begin_ok cardType dir_exists mkdir_ok root st in
  isAvailable st' = begin_ok && negb (cardType =? CARD_NONE)
  /\ (isAvailable st' = false -> photoCount st' = photoCount st /\ card st' = card st)
  /\ (isAvailable st' = true -> isAvailable st = false -> photoCount st' = 0)
  /\ (isAvailable st' = true -> isAvailable st = true ->
      photoCount st'
      = match root with
        | Some files => u32 (Z.of_nat (length (photos files)))
        | None => 0
        end).
Proof.
  unfold init. destruct begin_ok; simpl.
  2:{ repeat split; intros; try discriminate; reflexivity. }
  destruct (cardType =? CARD_NONE); simpl.
  { repeat split; intros; try discriminate; reflexivity. }
  split; [reflexivity|]. split; [discriminate|].
  split; intros _ Hav; unfold countPhotos.
  - destruct dir_exists; simpl; rewrite Hav; reflexivity.
  - destruct dir_exists; simpl; rewrite Hav; simpl; destruct root; try reflexivity;
      rewrite count_loop_photos by lia; reflexivity.
Qed.

(** A card with two photos, a text file and a directory: the first init
    after power-on counts none, a second init counts two. *)
Lemma init_counts_only_when_available_witness :
  let root := Some [Entry false "IMG_0001.jpg"; Entry false "notes.txt";
                    Entry true "old.jpg"; Entry false "IMG_0002.JPG"] in
  photoCount (init true 2 true true root power_on) = 0
  /\ photoCount (init true 2 true true root (init true 2 true true root power_on)) = 2.
Proof.
  intros root. split.
  - apply (init_counts_only_when_available true 2 true true root power_on); reflexivity.
  - apply (init_counts_only_when_available true 2 true true root
             (init true 2 true true root power_on)); reflexivity.
Defined.

Section Names.

Variable snprintf_name : Z -> string.

Lemma u32_succ_pred z : u32 (u32 (u32 (z + 1) - 1) + 1) = u32 (z + 1).
Proof.
  rewrite u32_add_l.
  replace (u32 (z + 1) - 1 + 1) with (u32 (z + 1)) by lia.
  unfold u32. rewrite Z.mod_mod by lia. reflexivity.
Qed.

(** X17.  The file name depends on the counter alone, and deletePhoto lowers
    the counter whichever file it removes.  So after a save that
    succeeded and a delete that succeeded, the next save opens for
    writing the very file name of the save before: unless the file
    deleted was that one, a photo on the card is written over. *)
Theorem save_after_delete_reuses_name
    (data1 data2 : list Z) (len1 len2 : Z) (deleted : string)
    (open_ok : bool) (written : Z) (st : storage) :
  isAvailable st = true ->
  len1 <> 0 -> len2 <> 0 ->
  let r1 := savePhoto snprintf_name (Some data1) len1 true len1 st in
  let r2 := deletePhoto deleted true (snd r1) in
  let r3 := savePhoto snprintf_name (Some data2) len2 open_ok written (snd r2) in
  fst r1 = (true, Some (snprintf_name (u32 (photoCount st + 1))))
  /\ fst r2 = true
  /\ snd (fst r3) = Some (snprintf_name (u32 (photoCount st + 1)))
  /\ card (snd r3)
     = card st
       ++ [OpenWrite (snprintf_name (u32 (photoCount st + 1)));
           FileWrite (take (Z.to_nat len1) data1); FileClose;
           Remove deleted;
           OpenWrite (snprintf_name (u32 (photoCount st + 1)))]
       ++ (if open_ok then [FileWrite (take (Z.to_nat len2) data2); FileClose] else []).
Proof.
  intros Hav Hl1 Hl2.
  unfold savePhoto at 1. rewrite Hav. simpl.
  destruct (Z.eqb_spec len1 0) as [|_]; [contradiction|].
  rewrite Z.eqb_refl. simpl.
  unfold deletePhoto, savePhoto, generateFilename. simpl. rewrite Hav. simpl.
  destruct (Z.eqb_spec len2 0) as [|_]; [contradiction|].
  rewrite u32_succ_pred. rewrite ?Hav. simpl.
  split; [reflexivity|]. split; [reflexivity|].
  destruct open_ok; simpl.
  - destruct (written =? len2); simpl; (split; [reflexivity|]);
      rewrite <- !app_assoc; reflexivity.
  - split; [reflexivity|]. rewrite <- !app_assoc. reflexivity.
Qed.

Lemma serve_keeps_available st r : isAvailable (snd (serve snprintf_name st r)) = isAvailable st.
Proof.
  destruct r as [[data|] len open_ok written | filename remove_ok]; simpl.
  - unfold savePhoto. destruct (isAvailable st) eqn:Hav; simpl; [|exact Hav].
    destruct (len =? 0); simpl; [exact Hav|].
    destruct open_ok; simpl; [|exact Hav].
    destruct (written =? len); simpl; exact Hav.
  - reflexivity.
  - unfold deletePhoto. destruct (isAvailable st) eqn:Hav; simpl; [|exact Hav].
    destruct remove_ok; simpl; exact Hav.
Qed.

Lemma serve_count st r :
  photoCount (snd (serve snprintf_name st r))
  = match r with
    | Save _ _ _ _ =>
        if fst (serve snprintf_name st r) then u32 (photoCount st + 1) else photoCount st
    | Delete _ _ =>
        if fst (serve snprintf_name st r) then u32 (photoCount st - 1) else photoCount st
    end.
Proof.
  destruct r as [[data|] len open_ok written | filename remove_ok]; simpl.
  - unfold savePhoto. destruct (isAvailable st); simpl; [|reflexivity].
    destruct (len =? 0); simpl; [reflexivity|].
    destruct open_ok; simpl; [|reflexivity].
    destruct (written =? len); reflexivity.
  - reflexivity.
  - unfold deletePhoto. destruct (isAvailable st); simpl; [|reflexivity].
    destruct remove_ok; reflexivity.
Qed.

Lemma u32_add_sub_l a b c : u32 (u32 a + b - c) = u32 (a + b - c).
Proof.
  replace (u32 a + b - c) with (u32 a + (b - c)) by lia.
  rewrite u32_add_l. apply (f_equal u32). lia.
Qed.

Lemma serve_all_count (rs : list request) : forall st,
  0 <= photoCount st < 4294967296 ->
  let '(saved, deleted, st') := serve_all snprintf_name rs st in
  photoCount st' = u32 (photoCount st + saved - deleted)
  /\ isAvailable st' = isAvailable st
  /\ 0 <= saved /\ 0 <= deleted
  /\ saved + deleted <= Z.of_nat (length rs).
Proof.
  induction rs as [|r rs IH]; intros st Hc.
  - simpl. rewrite Z.add_0_r, Z.sub_0_r, u32_small by exact Hc.
    repeat split; lia.
  - cbn [serve_all].
    pose proof (serve_keeps_available st r) as Hav.
    pose proof (serve_count st r) as Hcount.
    destruct (serve snprintf_name st r) as [ok st1]. cbn [fst snd] in Hav, Hcount.
    assert (Hc1 : 0 <= photoCount st1 < 4294967296).
    { rewrite Hcount. destruct r, ok; first [apply u32_bounds | exact Hc]. }
    specialize (IH st1 Hc1).
    destruct (serve_all snprintf_name rs st1) as [[saved deleted] st'].
    destruct IH as (IH1 & IH2 & IH3 & IH4 & IH5).
    rewrite length_cons.
    destruct r; destruct ok; (split; [|split; [congruence|lia]]);
      rewrite IH1, Hcount; rewrite ?u32_add_sub_l;
      apply (f_equal u32); lia.
Qed.

(** X18.  photoCount follows the calls, not the card: after any run of saves
    and deletes, with whatever data and names and whatever the card
    answers, it is the count before plus the saves that returned true
    minus the deletes that returned true, in 32 bits; and an unavailable
    store stays unavailable and an available one available. *)
Theorem count_is_saves_minus_deletes (rs : list request) (st : storage) :
  0 <= photoCount st < 4294967296 ->
  photoCount (snd (serve_all snprintf_name rs st))
  = u32 (photoCount st + fst (fst (serve_all snprintf_name rs st))
                       - snd (fst (serve_all snprintf_name rs st)))
  /\ isAvailable (snd (serve_all snprintf_name rs st)) = isAvailable st.
Proof.
  intros Hc. pose proof (serve_all_count rs st Hc) as H.
  destruct (serve_all snprintf_name rs st) as [[saved deleted] st'].
  simpl. destruct H as (H1 & H2 & _). split; assumption.
Qed.

(** X19.  The first start-up with photos on the card.  init leaves the count
    at 0 whatever the directory holds; a delete that succeeds then takes
    the 32-bit count below 0, to 4294967295, which is what getPhotoCount
    reports; and the save after that is named with number 0. *)
Theorem delete_after_first_init_wraps
    (cardType : Z) (dir_exists mkdir_ok : bool) (root : option (list entry))
    (filename : string) (data : list Z) (len : Z) (open_ok : bool) (written : Z) :
  cardType <> CARD_NONE ->
  len <> 0 ->
  let st1 := init true cardType dir_exists mkdir_ok root power_on in
  let r2 := deletePhoto filename true st1 in
  let r3 := savePhoto snprintf_name (Some data) len open_ok written (snd r2) in
  available st1 = true
  /\ getPhotoCount st1 = 0
  /\ fst r2 = true
  /\ getPhotoCount (snd r2) = 4294967295
  /\ snd (fst r3) = Some (snprintf_name 0).
Proof.
  intros Hcard Hlen. unfold init. simpl.
  destruct (Z.eqb_spec cardType CARD_NONE) as [|_]; [contradiction|].
  unfold savePhoto, deletePhoto, generateFilename.
  destruct dir_exists; simpl;
    (destruct (Z.eqb_spec len 0) as [|_]; [contradiction|]);
    repeat split; destruct open_ok; simpl; try reflexivity;
    destruct (written =? len); reflexivity.
Qed.

End Names.

(** Two of three saves land and one of two deletes. *)
Lemma count_is_saves_minus_deletes_witness :
  photoCount
    (snd (serve_all (fun n => "IMG") 
            [Save (Some [255; 216]) 2 true 2; Save (Some [255; 216]) 2 false 0;
             Delete "/photos/a.txt" true; Save (Some [255; 216]) 2 true 2;
             Delete "/photos/b.jpg" false]
            (St true 7 []))) = 8.
Proof.
  apply (count_is_saves_minus_deletes (fun n => "IMG")
           [Save (Some [255; 216]) 2 true 2; Save (Some [255; 216]) 2 false 0;
            Delete "/photos/a.txt" true; Save (Some [255; 216]) 2 true 2;
            Delete "/photos/b.jpg" false]
           (St true 7 [])).
  simpl. lia.
Defined.

Lemma save_after_delete_reuses_name_witness :
  snd (fst (savePhoto (fun n => if n =? 4 then "/photos/IMG_0004.jpg" else "other")
              (Some [255; 216; 255]) 3 true 3
              (snd (deletePhoto "/photos/IMG_0001.jpg" true
                      (snd (savePhoto
                              (fun n => if n =? 4 then "/photos/IMG_0004.jpg" else "other")
                              (Some [255; 216]) 2 true 2 (St true 3 []))))))) 
  = Some "/photos/IMG_0004.jpg".
Proof.
  apply (save_after_delete_reuses_name
           (fun n => if n =? 4 then "/photos/IMG_0004.jpg" else "other")
           [255; 216] [255; 216; 255] 2 3 "/photos/IMG_0001.jpg" true 3 (St true 3 []));
    [reflexivity | discriminate | discriminate].
Defined.

(** A card with a photo on it, which is deleted after the first start. *)
Lemma delete_after_first_init_wraps_witness :
  getPhotoCount
    (snd (deletePhoto "/photos/IMG_0001.jpg" true
            (init true 2 true true (Some [Entry false "IMG_0001.jpg"]) power_on)))
  = 4294967295.
Proof.
  apply (delete_after_first_init_wraps (fun n => "IMG") 2 true true
           (Some [Entry false "IMG_0001.jpg"]) "/photos/IMG_0001.jpg" [255] 1 true 1);
    discriminate.
Defined.

(** ** The photo list *)

Lemma list_loop_run (files : list entry) : forall (maxFiles count : Z) (fileList : list string),
  0 <= count <= maxFiles ->
  maxFiles < 4294967296 ->
  maxFiles <= Z.of_nat (length fileList) ->
  let k := Z.min (maxFiles - count) (Z.of_nat (length (photos files))) in
  list_loop files maxFiles count fileList
  = (count + k,
     take (Z.to_nat count) fileList ++ take (Z.to_nat k) (photos files)
     ++ drop (Z.to_nat (count + k)) fileList).
Proof.
  unfold photos.
  induction files as [|file files IH]; intros maxFiles count fileList Hc Hmax Hlen; simpl.
  - rewrite Z.min_r by lia. rewrite Z.add_0_r. simpl. rewrite take_drop. reflexivity.
  - destruct (Z.ltb_spec count maxFiles) as [Hlt|Hge].
    + destruct (is_photo file) eqn:Hp.
      * rewrite filter_cons_True by (rewrite Hp; exact I).
        rewrite u32_small by lia.
        rewrite IH; [|lia|lia|rewrite length_insert; lia].
        rewrite fmap_cons. simpl length.
        set (n := length (name <$> filter is_photo files)).
        replace (Z.min (maxFiles - count) (Z.of_nat (S n)))
          with (1 + Z.min (maxFiles - (count + 1)) (Z.of_nat n)) by lia.
        set (k := Z.min (maxFiles - (count + 1)) (Z.of_nat n)).
        assert (Hk : 0 <= k) by lia.
        f_equal; [lia|].
        replace (Z.to_nat (count + 1)) with (S (Z.to_nat count)) by lia.
        replace (Z.to_nat (1 + k)) with (S (Z.to_nat k)) by lia.
        replace (Z.to_nat (count + (1 + k))) with (Z.to_nat (count + 1 + k)) by (f_equal; lia).
        rewrite drop_insert_lt by lia.
        rewrite (take_S_r _ _ (name file)).
        -- rewrite take_insert_ge by lia. rewrite <- app_assoc. reflexivity.
        -- apply list_lookup_insert_eq. lia.
      * rewrite filter_cons_False by (rewrite Hp; exact id).
        apply IH; assumption.
    + replace (maxFiles - count) with 0 by lia.
      rewrite Z.min_l by lia. rewrite Z.add_0_r. simpl. rewrite take_drop. reflexivity.
Qed.

(** X20.  getPhotoList on an available store whose PHOTO_DIR opens: it returns
    the smaller of maxFiles and the number of photos in the directory
    (the entries that are no directories and end in .jpg or .JPG), puts
    the names of that many photos, the first ones in directory order, at
    the start of the array, and leaves the rest of the array as it was.
    With room for all of them the result is what countPhotos returns. *)
Theorem getPhotoList_lists_first_photos
    (fileList : list string) (maxFiles : Z) (files : list entry) (st : storage) :
  isAvailable st = true ->
  0 <= maxFiles < 4294967296 ->
  maxFiles <= Z.of_nat (length fileList) ->
  let n := Z.min maxFiles (Z.of_nat (length (photos files))) in
  getPhotoList fileList maxFiles (Some files) st
  = (n, take (Z.to_nat n) (photos files) ++ drop (Z.to_nat n) fileList)
  /\ (Z.of_nat (length (photos files)) <= maxFiles ->
      fst (getPhotoList fileList maxFiles (Some files) st) = countPhotos (Some files) st).
Proof.
  intros Hav Hmax Hlen n.
  assert (Hrun : getPhotoList fileList maxFiles (Some files) st
                 = (n, take (Z.to_nat n) (photos files) ++ drop (Z.to_nat n) fileList)).
  { unfold getPhotoList. rewrite Hav. simpl.
    rewrite list_loop_run by lia.
    rewrite Z.sub_0_r, Z.add_0_l. reflexivity. }
  split; [exact Hrun|].
  intros Hroom. rewrite Hrun. unfold countPhotos. rewrite Hav. simpl.
  rewrite count_loop_photos by lia. rewrite Z.add_0_l, u32_small by lia.
  unfold n. lia.
Qed.

(** Room for two names, three photos on the card. *)
Lemma getPhotoList_lists_first_photos_witness :
  getPhotoList ["x"; "y"; "z"] 2
    (Some [Entry false "a.jpg"; Entry true "dir.jpg"; Entry false "b.JPG";
           Entry false "c.jpg"])
    (St true 0 [])
  = (2, ["a.jpg"; "b.JPG"; "z"]).
Proof.
  apply (getPhotoList_lists_first_photos ["x"; "y"; "z"] 2
           [Entry false "a.jpg"; Entry true "dir.jpg"; Entry false "b.JPG";
            Entry false "c.jpg"] (St true 0 []));
    [reflexivity | lia | simpl; lia].
Defined.

End StorageFacts.

(** ** The capture handlers *)

Module TaskFacts.
Import TaskManager CameraFacts CaptureRunFacts DebounceFacts.

Section Handlers.

Variable hw : Camera.sensor.
Variable snprintf_name : Z -> string.

Lemma countdown_loop_keeps (n : nat) : forall s,
  same_requests (ui s) (ui (countdown_loop n s))
  /\ Camera.isAvailable (camera (countdown_loop n s)) = Camera.isAvailable (camera s)
  /\ storage (countdown_loop n s) = storage s
  /\ filename (countdown_loop n s) = filename s.
Proof.
  induction n as [|n IH]; intros s; [repeat split|].
  cbn [countdown_loop]. destruct (IH (delay 500 (on_ui (UI3.setLED UI.OFF)
    (delay 500 (on_ui (UI3.setLED UI.RED) (draw (DisplayCountdown (Z.of_nat (S n))) s))))))
    as ((H1 & H2 & H3 & H4) & H5 & H6 & H7).
  cbn zeta. rewrite H5, H6, H7. repeat split; assumption.
Qed.

(** The last step of a case of [capture_and_save_ends]: the state is
    known, the clauses are read off it. *)
Ltac read_off :=
  cbn; rewrite ?last_snoc;
  split; [reflexivity|]; split; [reflexivity|]; split; [repeat split|];
  split;
    [ intros (Hc' & Hs1 & Hs2 & Hs3);
      first [ solve [repeat split; reflexivity] | congruence | contradiction ] |];
  split;
    [ intros Hno;
      first [ solve [split; [reflexivity | eexists; reflexivity]]
            | exfalso; apply Hno; split; [assumption | repeat split; congruence] ] |];
  intros Hno; first [contradiction | split; reflexivity].

(** From the capture on. *)
Lemma capture_and_save_ends (fuel : nat) (open_ok : bool) (written : Z) (s : sys) :
  (1002 <= fuel)%nat ->
  exists s',
    capture_and_save hw snprintf_name fuel open_ok written s = Some s'
    /\ UI3.currentStatus (ui s') = UI3.IDLE
    /\ last (UI3.leds (ui s')) = Some UI.GREEN
    /\ same_requests (ui s) (ui s')
    /\ (captured hw s /\ stored hw open_ok written s ->
        Storage.photoCount (storage s') = u32 (Storage.photoCount (storage s) + 1)
        /\ filename s' = snprintf_name (u32 (Storage.photoCount (storage s) + 1))
        /\ last (lcd s') = Some (DisplaySaveMessage (filename s')))
    /\ (~ (captured hw s /\ stored hw open_ok written s) ->
        Storage.photoCount (storage s') = Storage.photoCount (storage s)
        /\ exists error, last (lcd s') = Some (DisplayError error))
    /\ (~ captured hw s -> storage s' = storage s /\ filename s' = filename s).
Proof.
  intros Hfuel. unfold capture_and_save, capture.
  destruct (captureJPEG_returns hw fuel (camera s) Hfuel) as (r & c1 & Hcap).
  pose proof (captureJPEG_true_iff hw fuel (camera s) Hfuel) as Hiff.
  pose proof (captureJPEG_cases hw fuel (camera s) r c1 Hcap) as Hcases.
  rewrite Hcap in Hiff |- *. cbn [option_map fst] in Hiff.
  fold (captured hw s) in Hiff.
  destruct r.
  - (* the capture succeeded *)
    assert (Hc : captured hw s) by (apply Hiff; reflexivity).
    assert (Hlen : Camera.jpegLength c1 = u32 (Camera.fifo_length hw)
                   /\ 1 <= Camera.jpegLength c1).
    { destruct Hcases as [(_ & E & _)|[(_ & E & _)|[(_ & E & _)|(_ & _ & _ & H1 & H2)]]];
        try discriminate E. split; [exact H1 | lia]. }
    destruct Hlen as (Hlen & Hpos).
    unfold save, Storage.savePhoto. cbn [camera storage filename lcd ui on_ui].
    destruct (Z.eqb_spec (Camera.jpegLength c1) 0) as [E|_]; [lia|].
    rewrite orb_false_r.
    destruct (Storage.isAvailable (storage s)) eqn:Hav; cbn [negb].
    + destruct open_ok; cbn [negb].
      * destruct (Z.eqb_spec written (Camera.jpegLength c1)) as [Hw|Hw]; cbn [negb].
        -- eexists. split; [reflexivity|]. read_off.
        -- eexists. split; [reflexivity|]. read_off.
      * eexists. split; [reflexivity|]. read_off.
    + eexists. split; [reflexivity|]. read_off.
  - (* the capture failed *)
    assert (Hnc : ~ captured hw s) by (intros Hc; apply Hiff in Hc; discriminate).
    eexists. split; [reflexivity|]. read_off.
Qed.

(** X21.  Whatever happens, a capture handler comes back with the status IDLE
    and the LED green, and leaves the mode and the three request flags as
    they were.  It saves a photo exactly when the capture succeeds and the
    card takes the frame (the store is available, the file opens and the
    write is complete): the photo count goes up by one, the file name
    buffer holds the name made from the new count, and the save message
    with that name is the last thing drawn.  In every other case the count
    stays and the last thing drawn is an error screen; and when the
    capture fails the storage manager is not called at all: its state and
    the file name buffer are untouched.  After a capture that succeeded
    the guards of savePhoto on the data never fire, since the stored
    length is at least 1. *)
Theorem handler_saves_or_shows_error
    (h : handler) (fuel : nat) (open_ok : bool) (written : Z) (s : sys) :
  (1002 <= fuel)%nat ->
  exists s',
    handle hw snprintf_name h fuel open_ok written s = Some s'
    /\ UI3.currentStatus (ui s') = UI3.IDLE
    /\ last (UI3.leds (ui s')) = Some UI.GREEN
    /\ same_requests (ui s) (ui s')
    /\ (captured hw s /\ stored hw open_ok written s ->
        Storage.photoCount (storage s') = u32 (Storage.photoCount (storage s) + 1)
        /\ filename s' = snprintf_name (u32 (Storage.photoCount (storage s) + 1))
        /\ last (lcd s') = Some (DisplaySaveMessage (filename s')))
    /\ (~ (captured hw s /\ stored hw open_ok written s) ->
        Storage.photoCount (storage s') = Storage.photoCount (storage s)
        /\ exists error, last (lcd s') = Some (DisplayError error))
    /\ (~ captured hw s -> storage s' = storage s /\ filename s' = filename s).
Proof.
  intros Hfuel.
  destruct h; cbn [handle]; unfold handleCapture, handleCountdownCapture.
  - apply (capture_and_save_ends fuel open_ok written
             (on_ui (UI3.setLED UI.RED) (on_ui (UI3.setStatus UI3.CAPTURING) s)) Hfuel).
  - destruct (countdown_loop_keeps (Z.to_nat (u8 COUNTDOWN_SECONDS))
                (on_ui (UI3.setStatus UI3.CAPTURING) s))
      as ((K1 & K2 & K3 & K4) & K5 & K6 & K7).
    change (storage (on_ui (UI3.setStatus UI3.CAPTURING) s)) with (storage s) in K6.
    change (filename (on_ui (UI3.setStatus UI3.CAPTURING) s)) with (filename s) in K7.
    change (camera (on_ui (UI3.setStatus UI3.CAPTURING) s)) with (camera s) in K5.
    assert (K0 : same_requests (ui s) (ui (on_ui (UI3.setStatus UI3.CAPTURING) s)))
      by (repeat split).
    revert K0 K1 K2 K3 K4 K5 K6 K7.
    generalize (countdown_loop (Z.to_nat (u8 COUNTDOWN_SECONDS))
                  (on_ui (UI3.setStatus UI3.CAPTURING) s)).
    generalize (ui (on_ui (UI3.setStatus UI3.CAPTURING) s)).
    intros u0 s1 (K01 & K02 & K03 & K04) K1 K2 K3 K4 K5 K6 K7.
    destruct (capture_and_save_ends fuel open_ok written
                (on_ui (UI3.setLED UI.RED) s1) Hfuel)
      as (s' & Hrun & Hidle & Hled & (R1 & R2 & R3 & R4) & Hsave & Hfail & Hnone).
    assert (Hcap : captured hw (on_ui (UI3.setLED UI.RED) s1) <-> captured hw s).
    { unfold captured. split; intros (H1 & H2 & H3); (split; [|split; assumption]).
      - rewrite <- K5. exact H1.
      - change (Camera.isAvailable (camera s1) = true). rewrite K5. exact H1. }
    assert (Hsto : stored hw open_ok written (on_ui (UI3.setLED UI.RED) s1)
                   <-> stored hw open_ok written s).
    { unfold stored. split; intros (H1 & H2 & H3); (split; [|split; assumption]).
      - rewrite <- K6. exact H1.
      - change (Storage.isAvailable (storage s1) = true). rewrite K6. exact H1. }
    cbn [storage filename on_ui] in Hsave, Hfail, Hnone.
    rewrite K6 in Hsave, Hfail, Hnone. rewrite K7 in Hnone.
    exists s'. split; [exact Hrun|]. split; [exact Hidle|]. split; [exact Hled|].
    split.
    { change (ui (on_ui (UI3.setLED UI.RED) s1)) with (UI3.setLED UI.RED (ui s1))
        in R1, R2, R3, R4.
      split; [exact (eq_trans R1 (eq_trans K1 K01))|].
      split; [exact (eq_trans R2 (eq_trans K2 K02))|].
      split; [exact (eq_trans R3 (eq_trans K3 K03)) | exact (eq_trans R4 (eq_trans K4 K04))]. }
    split; [intros (Hc & Hs); apply Hsave; split; [apply Hcap | apply Hsto]; assumption|].
    split.
    + intros Hno. apply Hfail. intros (Hc & Hs). apply Hno.
      split; [apply Hcap | apply Hsto]; assumption.
    + intros Hno. apply Hnone. intros Hc. apply Hno. apply Hcap. exact Hc.
Qed.

(** X22.  An instant capture that goes through, from the sensor to the card.
    With the capture-done flag first up at read k0 and a frame of n bytes,
    the file opened is the one named from the count plus one, the bytes
    handed to file.write are the n bytes read from the sensor, in order;
    the count goes up by one; the save message shows the name; the LED
    goes red, red, yellow, yellow, green, green; and the handler takes
    k0 ms for the capture and STATUS_DISPLAY_MS for the message. *)
Theorem instant_capture_stores_the_frame (fuel k0 : nat) (s : sys) :
  Camera.isAvailable (camera s) = true ->
  (forall j, (j < k0)%nat -> Camera.cap_done hw j = false) ->
  Camera.cap_done hw k0 = true ->
  (k0 <= 1001)%nat -> (k0 < fuel)%nat ->
  1 <= u32 (Camera.fifo_length hw) <= CameraConfig.MAX_JPEG_SIZE ->
  Z.of_nat (length (Camera.jpegBuffer (camera s))) = CameraConfig.MAX_JPEG_SIZE ->
  Storage.isAvailable (storage s) = true ->
  let n := u32 (Camera.fifo_length hw) in
  let name := snprintf_name (u32 (Storage.photoCount (storage s) + 1)) in
  exists s',
    handleCapture hw snprintf_name fuel true n s = Some s'
    /\ Storage.card (storage s')
       = Storage.card (storage s)
         ++ [Storage.OpenWrite name;
             Storage.FileWrite (map (fun i => u8 (Camera.fifo_data hw i)) (seq 0 (Z.to_nat n)));
             Storage.FileClose]
    /\ Storage.photoCount (storage s') = u32 (Storage.photoCount (storage s) + 1)
    /\ filename s' = name
    /\ lcd s' = lcd s ++ [DisplaySaveMessage name]
    /\ UI3.leds (ui s')
       = UI3.leds (ui s) ++ [UI.RED; UI.RED; UI.YELLOW; UI.YELLOW; UI.GREEN; UI.GREEN]
    /\ UI3.now (ui s') = u32 (UI3.now (ui s) + Z.of_nat k0 + STATUS_DISPLAY_MS).
Proof.
  intros Hcam Hbefore Hup Hk0 Hfuel Hlen Hbuf Hsd n name.
  destruct (captureJPEG_success_run hw fuel k0 (camera s) Hcam Hbefore Hup Hk0 Hfuel Hlen Hbuf)
    as (c1 & Hcap & Hn & Hdata & Htook & _ & _).
  fold n in Hn, Hdata.
  unfold handleCapture, capture_and_save, capture. cbn [camera on_ui].
  rewrite Hcap. cbn [camera storage filename lcd ui on_ui].
  unfold save, Storage.savePhoto. cbn [camera storage filename lcd ui on_ui].
  rewrite Hn, Htook, Hsd.
  destruct (Z.eqb_spec n 0) as [E|_]; [unfold n in E; lia|].
  rewrite Z.eqb_refl. cbn [negb orb].
  eexists. split; [reflexivity|].
  cbn. rewrite <- !app_assoc. cbn [app].
  split.
  { do 2 f_equal. f_equal. rewrite Hdata. rewrite take_app_length'; [reflexivity|].
    rewrite length_map, length_seq. reflexivity. }
  split; [reflexivity|]. split; [reflexivity|]. split; [reflexivity|].
  split; [reflexivity|].
  rewrite u32_add_l. reflexivity.
Qed.

End Handlers.

(** The camera found, the card mounted: a frame of 5 bytes that is ready
    at the fourth read of the flag becomes the first photo. *)
Lemma instant_capture_stores_the_frame_witness :
  exists s',
    handleCapture (Camera.ready_sensor 3 5) (fun n => "/photos/IMG_0001.jpg") 10 true 5
                  (start true true "") = Some s'
    /\ Storage.card (storage s')
       = [Storage.OpenWrite "/photos/IMG_0001.jpg"; Storage.FileWrite [1; 2; 3; 4; 5];
          Storage.FileClose]
    /\ Storage.photoCount (storage s') = 1.
Proof.
  destruct (instant_capture_stores_the_frame (Camera.ready_sensor 3 5)
              (fun n => "/photos/IMG_0001.jpg") 10 3 (start true true ""))
    as (s' & Hrun & Hcard & Hcount & _).
  - reflexivity.
  - intros j Hj. destruct j as [|[|[|j]]]; [reflexivity | reflexivity | reflexivity | lia].
  - reflexivity.
  - lia.
  - lia.
  - vm_compute. split; discriminate.
  - cbn [Camera.jpegBuffer Camera.power_on camera start]. rewrite length_replicate.
    apply Z2Nat.id. vm_compute. discriminate.
  - reflexivity.
  - exists s'. split; [exact Hrun|]. split; [exact Hcard | exact Hcount].
Defined.

(** A camera that never raises the flag: the countdown handler ends idle
    and green. *)
Lemma handler_saves_or_shows_error_witness :
  exists s',
    handle Camera.silent_sensor (fun n => "/photos/IMG_0001.jpg") Countdown 1002 true 0
           (start true true "") = Some s'
    /\ UI3.currentStatus (ui s') = UI3.IDLE
    /\ last (UI3.leds (ui s')) = Some UI.GREEN.
Proof.
  destruct (handler_saves_or_shows_error Camera.silent_sensor
              (fun n => "/photos/IMG_0001.jpg") Countdown 1002 true 0 (start true true ""))
    as (s' & Hrun & Hidle & Hled & _); [lia|].
  exists s'. split; [exact Hrun|]. split; [exact Hidle | exact Hled].
Defined.

End TaskFacts.

(** ** Connecting to the network *)

Module WiFiFacts.
Import WiFi DebounceFacts.

Section Link.

Variable linked : nat -> bool.

(** The timeout [T] and the poll interval [d] of a wait loop; [K] is the
    number of whole intervals in [T]. *)
Variables (T d : Z) (K : nat).
Hypothesis Hd : 0 < d.
Hypothesis HK : Z.of_nat K * d <= T < (Z.of_nat K + 1) * d.
Hypothesis Hfit : T + d < 4294967296.

(** The link comes up at the read number [j] from here. *)
Lemma wait_link_up (j : nat) : forall (fuel k : nat) (startTime : Z) (st : wifi),
  (k + j <= K + 1)%nat ->
  now st = u32 (startTime + Z.of_nat k * d) ->
  (forall i, (i < j)%nat -> linked (polls st + i) = false) ->
  linked (polls st + j) = true ->
  (j < fuel)%nat ->
  wait_link linked fuel startTime T d st
  = Some (true, Wf (isConnected st) (ipAddress st)
                   (u32 (startTime + Z.of_nat (k + j) * d))
                   (polls st + S j) (calls st)).
Proof.
  induction j as [|j IH]; intros fuel k startTime st Hk Hnow Hdown Hup Hfuel;
    (destruct fuel as [|fuel]; [lia|]); cbn [wait_link status_connected].
  - rewrite Nat.add_0_r in Hup. rewrite Hup.
    replace (k + 0)%nat with k by lia.
    replace (polls st + 1)%nat with (S (polls st)) by lia.
    rewrite <- Hnow. reflexivity.
  - rewrite <- (Nat.add_0_r (polls st)) at 1. rewrite (Hdown 0%nat) by lia.
    cbn [now].
    replace (u32 (now st - startTime)) with (Z.of_nat k * d)
      by (rewrite Hnow, u32_elapsed by nia; reflexivity).
    destruct (Z.ltb_spec T (Z.of_nat k * d)) as [Hout|_]; [nia|].
    rewrite (IH fuel (S k) startTime
               (delay d (Wf (isConnected st) (ipAddress st) (now st) (S (polls st)) (calls st))));
      cbn [delay now polls isConnected ipAddress calls].
    + do 2 f_equal. f_equal; [f_equal; lia | lia].
    + lia.
    + rewrite Hnow, u32_add_l. f_equal. lia.
    + intros i Hi. replace (S (polls st) + i)%nat with (polls st + S i)%nat by lia.
      apply Hdown. lia.
    + replace (S (polls st) + j)%nat with (polls st + S j)%nat by lia. exact Hup.
    + lia.
Qed.

(** The link stays down. *)
Lemma wait_link_down (m : nat) : forall (fuel k : nat) (startTime : Z) (st : wifi),
  (k + m = K + 1)%nat ->
  now st = u32 (startTime + Z.of_nat k * d) ->
  (forall i, (i <= m)%nat -> linked (polls st + i) = false) ->
  (m < fuel)%nat ->
  wait_link linked fuel startTime T d st
  = Some (false, Wf (isConnected st) (ipAddress st)
                    (u32 (startTime + (Z.of_nat K + 1) * d))
                    (polls st + S m) (calls st)).
Proof.
  induction m as [|m IH]; intros fuel k startTime st Hk Hnow Hdown Hfuel;
    (destruct fuel as [|fuel]; [lia|]); cbn [wait_link status_connected];
    rewrite <- (Nat.add_0_r (polls st)) at 1; rewrite (Hdown 0%nat) by lia;
    cbn [now];
    replace (u32 (now st - startTime)) with (Z.of_nat k * d)
      by (rewrite Hnow, u32_elapsed by nia; reflexivity).
  - destruct (Z.ltb_spec T (Z.of_nat k * d)) as [_|Hin]; [|nia].
    rewrite Nat.add_1_r.
    replace (Z.of_nat K + 1) with (Z.of_nat k) by lia. rewrite <- Hnow. reflexivity.
  - destruct (Z.ltb_spec T (Z.of_nat k * d)) as [Hout|_]; [nia|].
    rewrite (IH fuel (S k) startTime
               (delay d (Wf (isConnected st) (ipAddress st) (now st) (S (polls st)) (calls st))));
      cbn [delay now polls isConnected ipAddress calls].
    + do 2 f_equal. f_equal. lia.
    + lia.
    + rewrite Hnow, u32_add_l. f_equal. lia.
    + intros i Hi. replace (S (polls st) + i)%nat with (polls st + S i)%nat by lia.
      apply Hdown. lia.
    + lia.
Qed.

End Link.

(** Either a flag is down at the reads 0 to [n] or there is a first read
    among them at which it is up. *)
Lemma scan (f : nat -> bool) (n : nat) :
  (forall j, (j <= n)%nat -> f j = false)
  \/ exists k0, (k0 <= n)%nat /\ f k0 = true /\ forall j, (j < k0)%nat -> f j = false.
Proof.
  induction n as [|n [Hnone|(k0 & Hk0 & Hup & Hbefore)]].
  - destruct (f 0%nat) eqn:H0.
    + right. exists 0%nat. repeat split; [lia | exact H0 | intros j Hj; lia].
    + left. intros j Hj. replace j with 0%nat by lia. exact H0.
  - destruct (f (S n)) eqn:Hn.
    + right. exists (S n). repeat split; [lia | exact Hn |].
      intros j Hj. apply Hnone. lia.
    + left. intros j Hj. destruct (Nat.eq_dec j (S n)) as [->|Hne];
        [exact Hn | apply Hnone; lia].
  - right. exists k0. repeat split; [lia | exact Hup | exact Hbefore].
Qed.

(** X23.  WiFiManager::init returns, with the radio set up and begun.  It
    reads the status every 250 ms, 122 times at most (the reads 0 to 121
    from its start; the last one 30250 ms after the start, the first point
    at which more than WIFI_TIMEOUT_MS have passed).  It ends connected
    exactly when one of these reads shows the link up: then it has waited
    250 ms for each read before the first such one, and the address is
    stored.  Otherwise it ends not connected after 30250 ms and 122 reads,
    with the address as it was. *)
Theorem wifi_init_outcome (linked : nat -> bool) (localIP : string) (fuel : nat) (st : wifi) :
  (122 <= fuel)%nat ->
  0 <= now st < 4294967296 ->
  exists st',
    init linked localIP fuel st = Some st'
    /\ calls st' = calls st ++ [SetMode; SetHostname; Begin]
    /\ (isConnected st' = true
        <-> exists k, (k <= 121)%nat /\ linked (polls st + k)%nat = true)
    /\ (forall k0, (k0 <= 121)%nat -> linked (polls st + k0)%nat = true ->
        (forall j, (j < k0)%nat -> linked (polls st + j)%nat = false) ->
        isConnected st' = true
        /\ ipAddress st' = localIP
        /\ now st' = u32 (now st + 250 * Z.of_nat k0)
        /\ polls st' = (polls st + S k0)%nat)
    /\ (isConnected st' = false ->
        ipAddress st' = ipAddress st
        /\ now st' = u32 (now st + 30250)
        /\ polls st' = (polls st + 122)%nat).
Proof.
  intros Hfuel Hnow. unfold init.
  set (st0 := call Begin (call SetHostname (call SetMode st))).
  change (now st0) with (now st).
  assert (Hnow0 : now st0 = u32 (now st + Z.of_nat 0 * 250)).
  { simpl. rewrite Z.add_0_r. symmetry. apply u32_small. exact Hnow. }
  destruct (scan (fun k => linked (polls st + k)%nat) 121) as [Hnone|(k0 & Hk0 & Hup & Hbefore)].
  - (* never up in time *)
    rewrite (wait_link_down linked WIFI_TIMEOUT_MS 250 120 ltac:(lia)
               ltac:(unfold WIFI_TIMEOUT_MS; lia) ltac:(unfold WIFI_TIMEOUT_MS; lia)
               121 fuel 0 (now st) st0 ltac:(lia) Hnow0 Hnone ltac:(lia)).
    eexists. split; [reflexivity|].
    cbn [set_isConnected isConnected ipAddress now polls calls st0 call].
    split; [rewrite <- !app_assoc; reflexivity|].
    split; [|split].
    + split; [discriminate|]. intros (k & Hk & Hupk). rewrite Hnone in Hupk by lia.
      discriminate.
    + intros k1 Hk1 Hup1 _. rewrite Hnone in Hup1 by lia. discriminate.
    + intros _. split; [reflexivity|]. split; [|reflexivity].
      apply (f_equal u32). lia.
  - rewrite (wait_link_up linked WIFI_TIMEOUT_MS 250 120 ltac:(lia)
               ltac:(unfold WIFI_TIMEOUT_MS; lia) ltac:(unfold WIFI_TIMEOUT_MS; lia)
               k0 fuel 0 (now st) st0 ltac:(lia) Hnow0 Hbefore Hup ltac:(lia)).
    eexists. split; [reflexivity|].
    cbn [set_isConnected set_ipAddress isConnected ipAddress now polls calls st0 call].
    split; [rewrite <- !app_assoc; reflexivity|].
    split; [|split].
    + split; [|reflexivity]. intros _. exists k0. split; [exact Hk0 | exact Hup].
    + intros k1 Hk1 Hup1 Hbefore1.
      assert (k1 = k0) as ->.
      { destruct (Nat.lt_trichotomy k1 k0) as [Hlt|[Heq|Hgt]]; [|exact Heq|].
        - rewrite Hbefore in Hup1 by exact Hlt. discriminate.
        - rewrite Hbefore1 in Hup by exact Hgt. discriminate. }
      split; [reflexivity|]. split; [reflexivity|]. split; [|reflexivity].
      apply (f_equal u32). lia.
    + discriminate.
Qed.

(** A network that is never there: 30250 ms from the start. *)
Lemma wifi_init_outcome_witness :
  exists st',
    init (fun _ => false) "192.168.4.1" 122 (power_on 1000) = Some st'
    /\ calls st' = calls (power_on 1000) ++ [SetMode; SetHostname; Begin].
Proof.
  destruct (wifi_init_outcome (fun _ => false) "192.168.4.1" 122 (power_on 1000))
    as (st' & Hrun & Hcalls & _); [lia | simpl; lia |].
  exists st'. split; [exact Hrun | exact Hcalls].
Defined.

(** X24.  Once isConnected is false (after an init or a reconnection that timed
    out, after disconnect, or before init) maintainConnection gives up for
    good: however often it is called and whatever the link does, each call
    reads the status once and does nothing else; WiFi.reconnect is never
    called, isConnected stays false and no time is spent. *)
Theorem no_reconnect_once_given_up (linked : nat -> bool) (n fuel : nat) (st : wifi) :
  isConnected st = false ->
  maintain_times linked n fuel st
  = Some (Wf false (ipAddress st) (now st) (polls st + n) (calls st)).
Proof.
  revert st. induction n as [|n IH]; intros st Hoff.
  - cbn [maintain_times]. rewrite Nat.add_0_r, <- Hoff. destruct st; reflexivity.
  - cbn [maintain_times]. unfold maintainConnection, connected, status_connected.
    cbn [isConnected]. rewrite Hoff, andb_false_r.
    rewrite IH by reflexivity.
    cbn [isConnected ipAddress now polls calls]. do 2 f_equal. lia.
Qed.

(** After a disconnect, five calls with the link up again. *)
Lemma no_reconnect_once_given_up_witness :
  maintain_times (fun _ => true) 5 1 (disconnect (Wf true "10.0.0.7" 0 3 [Begin]))
  = Some (Wf false "10.0.0.7" 0 8 [Begin; Disconnect]).
Proof.
  apply (no_reconnect_once_given_up (fun _ => true) 5 1
           (disconnect (Wf true "10.0.0.7" 0 3 [Begin]))).
  reflexivity.
Defined.

(** X25.  maintainConnection with isConnected true.  If its first read shows
    the link up it does nothing more.  If not, it calls WiFi.reconnect
    and reads the status every 100 ms, 102 times at most; when none of
    these reads shows the link up it returns after 10100 ms with
    isConnected false, and when one does, it returns with isConnected
    true after 100 ms for each read before the first such one. *)
Theorem reconnect_outcome (linked : nat -> bool) (fuel : nat) (st : wifi) :
  (102 <= fuel)%nat ->
  0 <= now st < 4294967296 ->
  isConnected st = true ->
  exists st',
    maintainConnection linked fuel st = Some st'
    /\ ipAddress st' = ipAddress st
    /\ (linked (polls st) = true ->
        st' = Wf true (ipAddress st) (now st) (S (polls st)) (calls st))
    /\ (linked (polls st) = false ->
        calls st' = calls st ++ [Reconnect]
        /\ (isConnected st' = true
            <-> exists k, (k <= 101)%nat /\ linked (S (polls st) + k)%nat = true)
        /\ (forall k0, (k0 <= 101)%nat -> linked (S (polls st) + k0)%nat = true ->
            (forall j, (j < k0)%nat -> linked (S (polls st) + j)%nat = false) ->
            now st' = u32 (now st + 100 * Z.of_nat k0))
        /\ (isConnected st' = false -> now st' = u32 (now st + 10100))).
Proof.
  intros Hfuel Hnow Hon. unfold maintainConnection, connected, status_connected.
  cbn [isConnected]. rewrite Hon, andb_true_r.
  destruct (linked (polls st)) eqn:Hfirst; cbn [negb].
  { eexists. split; [reflexivity|]. split; [reflexivity|].
    split; [intros _; rewrite <- Hon; reflexivity | discriminate]. }
  set (st0 := call Reconnect _).
  change (now st0) with (now st).
  assert (Hnow0 : now st0 = u32 (now st + Z.of_nat 0 * 100)).
  { simpl. rewrite Z.add_0_r. symmetry. apply u32_small. exact Hnow. }
  destruct (scan (fun k => linked (S (polls st) + k)%nat) 101)
    as [Hnone|(k0 & Hk0 & Hup & Hbefore)].
  - rewrite (wait_link_down linked 10000 100 100 ltac:(lia) ltac:(lia) ltac:(lia)
               101 fuel 0 (now st) st0 ltac:(lia) Hnow0 Hnone ltac:(lia)).
    eexists. split; [reflexivity|].
    cbn [set_isConnected isConnected ipAddress now polls calls st0 call].
    split; [reflexivity|]. split; [discriminate|]. intros _.
    split; [reflexivity|]. split; [|split].
    + split; [discriminate|]. intros (k & Hk & Hupk). rewrite Hnone in Hupk by lia.
      discriminate.
    + intros k1 Hk1 Hup1 _. rewrite Hnone in Hup1 by lia. discriminate.
    + intros _. apply (f_equal u32). lia.
  - rewrite (wait_link_up linked 10000 100 100 ltac:(lia) ltac:(lia) ltac:(lia)
               k0 fuel 0 (now st) st0 ltac:(lia) Hnow0 Hbefore Hup ltac:(lia)).
    eexists. split; [reflexivity|].
    cbn [set_isConnected isConnected ipAddress now polls calls st0 call].
    split; [reflexivity|]. split; [discriminate|]. intros _.
    split; [reflexivity|]. split; [|split].
    + split; [|reflexivity]. intros _. exists k0. split; [exact Hk0 | exact Hup].
    + intros k1 Hk1 Hup1 Hbefore1.
      assert (k1 = k0) as ->.
      { destruct (Nat.lt_trichotomy k1 k0) as [Hlt|[Heq|Hgt]]; [|exact Heq|].
        - rewrite Hbefore in Hup1 by exact Hlt. discriminate.
        - rewrite Hbefore1 in Hup by exact Hgt. discriminate. }
      apply (f_equal u32). lia.
    + discriminate.
Qed.

(** The link is lost and back at the third read of the wait. *)
Lemma reconnect_outcome_witness :
  exists st',
    maintainConnection (fun k => (3 <=? k)%nat) 102 (Wf true "10.0.0.7" 500 0 [Begin])
    = Some st'
    /\ ipAddress st' = "10.0.0.7".
Proof.
  destruct (reconnect_outcome (fun k => (3 <=? k)%nat) 102 (Wf true "10.0.0.7" 500 0 [Begin]))
    as (st' & Hrun & Hip & _); [lia | simpl; lia | reflexivity |].
  exists st'. split; [exact Hrun | exact Hip].
Defined.

End WiFiFacts.

(** ** Centred text *)

Module LcdTextFacts.
Import LcdText.

Lemma centered_column (n : Z) :
  0 <= n < 8192 ->
  u16 (Z.quot (WIDTH - u16 (u32 (n * 8))) 2)
  = if n <=? 30 then 120 - 4 * n else 65656 - 4 * n.
Proof.
  intros Hn. unfold WIDTH.
  assert (Hw : u16 (u32 (n * 8)) = n * 8).
  { unfold u16, u32. rewrite (Z.mod_small (n * 8)) by lia. apply Z.mod_small. lia. }
  rewrite Hw.
  destruct (Z.leb_spec n 30) as [Hfit|Hlong].
  - replace (240 - n * 8) with ((120 - 4 * n) * 2) by lia.
    rewrite Z.quot_mul by lia. unfold u16. apply Z.mod_small. lia.
  - replace (240 - n * 8) with (- ((4 * n - 120) * 2)) by lia.
    rewrite Z.quot_opp_l by lia. rewrite Z.quot_mul by lia.
    unfold u16.
    replace (- (4 * n - 120)) with (65656 - 4 * n + (-1) * 65536) by lia.
    rewrite Z.mod_add by lia. apply Z.mod_small. lia.
Qed.



(** X27.  The screens of the capture handlers.  displayError draws "ERROR"
    and, for a message of up to 30 characters, the message, each centred
    on the panel; displaySaveMessage draws "Saved!" centred and, for a
    file name of up to 30 characters, the name centred; with a longer
    message or name that line alone is handed to the painter at a column
    beyond the panel. *)
Theorem handler_screens_centered (shown : string) (log : list paint_call) :
  Z.of_nat (String.length shown) < 8192 ->
  let x := if (String.length shown <=? 30)%nat
           then 120 - 4 * Z.of_nat (String.length shown)
           else 65656 - 4 * Z.of_nat (String.length shown) in
  omap text_at (drop (length log) (displayError shown log)) = [(100, "ERROR"); (x, shown)]
  /\ omap text_at (drop (length log) (displaySaveMessage shown log))
     = [(96, "Saved!"); (x, shown)].
Proof.
  intros Hlen x.
  assert (Hx : u16 (Z.quot (WIDTH - u16 (u32 (Z.of_nat (String.length shown) * 8))) 2) = x).
  { rewrite centered_column by lia. unfold x.
    destruct (Nat.leb_spec (String.length shown) 30);
      destruct (Z.leb_spec (Z.of_nat (String.length shown)) 30); try lia; reflexivity. }
  unfold displayError, displaySaveMessage, displayStatus, displayTextCentered, displayText.
  rewrite Hx. rewrite <- !app_assoc. rewrite !drop_app_length.
  split; reflexivity.
Qed.

Lemma handler_screens_centered_witness :
  omap text_at (drop (length [Clear 0]) (displaySaveMessage "/photos/IMG_0001.jpg" [Clear 0]))
  = [(96, "Saved!"); (40, "/photos/IMG_0001.jpg")].
Proof.
  apply (handler_screens_centered "/photos/IMG_0001.jpg" [Clear 0]). simpl. lia.
Defined.

End LcdTextFacts.

(** ** The frame on offer after a capture *)

Module WebServerFacts.
Import CameraConfig Camera WebServer CameraFacts CaptureRunFacts.

(** X28.  What the web server offers after a capture.  After a capture that
    returned true, handleStream sends the new frame: exactly the bytes
    read from the sensor, as many as the length register showed.  After a
    capture that returned false it sends what it would have sent before
    the capture (the camera was unavailable or the wait timed out: the
    stored frame is untouched), or nothing (the length was 0 or above
    MAX_JPEG_SIZE); never a part of a frame. *)
Theorem stream_after_capture (hw : sensor) (fuel : nat) (c c' : cam) (r : bool) :
  (1002 <= fuel)%nat ->
  Z.of_nat (length (jpegBuffer c)) = MAX_JPEG_SIZE ->
  captureJPEG hw fuel c = Some (r, c') ->
  (r = true ->
   handleStream c'
   = Jpeg (map (fun i => u8 (fifo_data hw i)) (seq 0 (Z.to_nat (u32 (fifo_length hw))))))
  /\ (r = false ->
      handleStream c' = handleStream c
      \/ (handleStream c' = NoFrameAvailable
          /\ (u32 (fifo_length hw) = 0 \/ MAX_JPEG_SIZE < u32 (fifo_length hw)))).
Proof.
  intros Hfuel Hbuf Hrun. split; intros ->.
  - pose proof (captureJPEG_true_iff hw fuel c Hfuel) as Hiff.
    rewrite Hrun in Hiff. destruct Hiff as ((Hav & (k & Hk & Hup) & Hlen) & _); [reflexivity|].
    destruct (first_up (cap_done hw) k Hup) as (k0 & Hk0 & Hup0 & Hbefore).
    destruct (captureJPEG_success_run hw fuel k0 c Hav Hbefore Hup0 ltac:(lia) ltac:(lia)
                Hlen Hbuf) as (c1 & Hrun1 & Hn & Hdata & _).
    rewrite Hrun in Hrun1. inversion Hrun1; subst c1. clear Hrun1.
    unfold handleStream. rewrite Hn, Hdata.
    destruct (Z.eqb_spec (u32 (fifo_length hw)) 0) as [E|_]; [lia|].
    destruct (Z.ltb_spec MAX_JPEG_SIZE (u32 (fifo_length hw))) as [E|_]; [lia|].
    cbn [orb]. f_equal. apply take_app_length'.
    rewrite length_map, length_seq. reflexivity.
  - destruct (captureJPEG_cases hw fuel c false c' Hrun)
      as [(_ & _ & ->)|[(_ & _ & _ & (_ & Hb & Hl & _) & _)|[(_ & _ & _ & Hl & Hbad & _)|
          (_ & E & _)]]].
    + left. reflexivity.
    + left. unfold handleStream. rewrite Hb, Hl. reflexivity.
    + right. rewrite Hl in Hbad. split; [|exact Hbad].
      unfold handleStream. rewrite Hl.
      destruct Hbad as [->|Hbig]; [reflexivity|].
      destruct (Z.ltb_spec MAX_JPEG_SIZE (u32 (fifo_length hw))) as [_|E]; [|lia].
      rewrite orb_true_r. reflexivity.
    + discriminate E.
Qed.

(** A frame of 5 bytes that is ready at the fourth read. *)
Lemma stream_after_capture_witness :
  exists c',
    captureJPEG (ready_sensor 3 5) 1002 (power_on true) = Some (true, c')
    /\ handleStream c' = Jpeg [1; 2; 3; 4; 5].
Proof.
  destruct (captureJPEG_success_run (ready_sensor 3 5) 1002 3 (power_on true))
    as (c' & Hrun & _).
  - reflexivity.
  - intros j Hj. destruct j as [|[|[|j]]]; [reflexivity | reflexivity | reflexivity | lia].
  - reflexivity.
  - lia.
  - lia.
  - vm_compute. split; discriminate.
  - cbn [jpegBuffer power_on]. rewrite length_replicate. apply Z2Nat.id. vm_compute. discriminate.
  - exists c'. split; [exact Hrun|].
    apply (stream_after_capture (ready_sensor 3 5) 1002 (power_on true) c' true);
      [lia | | exact Hrun | reflexivity].
    cbn [jpegBuffer power_on]. rewrite length_replicate. apply Z2Nat.id. vm_compute. discriminate.
Defined.

End WebServerFacts.

(** ** The fills with and without USE_DMA_TRANSFER *)

Module LcdDriverPlainFacts.
Import DevConfig LcdDriver Wire LcdDriverFacts WireFacts.

Lemma pixel_loop_emit (n : nat) (hi lo : Z) (d : dev) :
  LcdDriverPlain.pixel_loop n hi lo d = emit (map Transfer (pixel_pairs hi lo n)) d.
Proof.
  revert d. induction n as [|n IH]; intros d.
  - simpl. now rewrite emit_nil.
  - cbn [LcdDriverPlain.pixel_loop]. rewrite IH, !emit_emit, pixel_pairs_S. reflexivity.
Qed.

(** The fill without DMA, as the display sees it. *)
Lemma plain_fill_delivered (pixels color : Z) (d : dev) (w : wire) :
  in_txn w = false ->
  bus (LcdDriverPlain.fill_and_send pixels color d)
  = bus d ++ since (bus d) (LcdDriverPlain.fill_and_send pixels color d)
  /\ run w (since (bus d) (LcdDriverPlain.fill_and_send pixels color d))
     = Some (idle true, map data (solid_pixels color (Z.to_nat pixels))).
Proof.
  intros Hw. unfold LcdDriverPlain.fill_and_send, DEV_Digital_Write.
  rewrite pixel_loop_emit, !emit_emit, since_emit.
  split; [reflexivity|].
  destruct w as [cs dc txn]. simpl in Hw. subst txn.
  cbn [app run step delivered negb Z.eqb in_txn cs_low dc_high].
  rewrite run_app, run_transfers by reflexivity.
  cbn [run step delivered in_txn cs_low dc_high negb app].
  rewrite app_nil_r. reflexivity.
Qed.

(** X29.  USE_DMA_TRANSFER changes how the bytes travel, not what the
    display gets.  For every even size of the transfer buffer from 2 to
    65534 and every non-empty window inside the panel, LCD_ClearWindow
    compiled with the DMA path and LCD_ClearWindow compiled without it
    make the display receive the same bytes, commands and data alike, and
    both keep the framing and leave the chip select high. *)
Theorem dma_switch_same_picture (DMA_BUFFER_SIZE : Z) (fuel : nat)
    (Xstart Ystart Xend Yend color : Z) (d : dev) (w : wire) :
  0 < DMA_BUFFER_SIZE <= 65534 ->
  Z.even DMA_BUFFER_SIZE = true ->
  Z.of_nat (length (dmaBuffer d)) = DMA_BUFFER_SIZE ->
  0 <= Xstart < Xend -> Xend <= LCD_WIDTH ->
  0 <= Ystart < Yend -> Yend <= LCD_HEIGHT ->
  DMA_BUFFER_SIZE + (Xend - Xstart) * (Yend - Ystart) < Z.of_nat fuel ->
  in_txn w = false ->
  exists d' rx,
    LCD_ClearWindow DMA_BUFFER_SIZE fuel Xstart Ystart Xend Yend color d = Some d'
    /\ run w (since (bus d) d') = Some (idle true, rx)
    /\ run w (since (bus d) (LcdDriverPlain.LCD_ClearWindow Xstart Ystart Xend Yend color d))
       = Some (idle true, rx).
Proof.
  intros Hsize Heven Hbuf HX HXmax HY HYmax Hfuel Hw.
  unfold LCD_WIDTH in HXmax. unfold LCD_HEIGHT in HYmax.
  assert (HWH : 0 <= (Xend - Xstart) * (Yend - Ystart) <= 76800) by nia.
  unfold LCD_ClearWindow, LcdDriverPlain.LCD_ClearWindow.
  rewrite (u32_small (Xend - Xstart)), (u32_small (Yend - Ystart)) by lia.
  rewrite (u32_small ((Xend - Xstart) * (Yend - Ystart))) by lia.
  rewrite (u32_small ((Xend - Xstart) * (Yend - Ystart) * 2)) by lia.
  rewrite (u16_small (Xend - 1)), (u16_small (Yend - 1)) by lia.
  rewrite (Z.mul_comm _ 2).
  destruct (cursor_since Xstart Ystart (Xend - 1) (Yend - 1) d) as (Hbus0 & Hbuf0 & _).
  pose proof (cursor_delivered w Xstart Ystart (Xend - 1) (Yend - 1) d Hw) as Haddr.
  revert Hbus0 Hbuf0 Haddr.
  generalize (LCD_SetCursor Xstart Ystart (Xend - 1) (Yend - 1) d).
  intros d0 Hbus0 Hbuf0 Haddr.
  destruct (fill_and_send_delivered DMA_BUFFER_SIZE fuel
              ((Xend - Xstart) * (Yend - Ystart)) color d0)
    as (d' & Hrun & _ & Hbus' & Hrx);
    [first [assumption | congruence | lia] .. |].
  destruct (plain_fill_delivered ((Xend - Xstart) * (Yend - Ystart)) color d0 (idle false)
              eq_refl) as (Hbusp & Hrxp).
  exists d'. eexists. split; [exact Hrun|]. split.
  - rewrite (since_split d d0 d' Hbus0 Hbus'), run_app, Haddr, (Hrx (idle false) eq_refl).
    reflexivity.
  - rewrite (since_split d d0 _ Hbus0 Hbusp), run_app, Haddr, Hrxp. reflexivity.
Qed.

Lemma dma_switch_same_picture_witness :
  exists d' rx,
    LCD_ClearWindow 4 20 10 20 15 21 4660 (power_on [0; 0; 0; 0]) = Some d'
    /\ run (idle true) (since (bus (power_on [0; 0; 0; 0])) d') = Some (idle true, rx)
    /\ run (idle true)
         (since (bus (power_on [0; 0; 0; 0]))
                (LcdDriverPlain.LCD_ClearWindow 10 20 15 21 4660 (power_on [0; 0; 0; 0])))
       = Some (idle true, rx).
Proof.
  apply (dma_switch_same_picture 4 20 10 20 15 21 4660 (power_on [0; 0; 0; 0]) (idle true));
    first [reflexivity | unfold LCD_WIDTH, LCD_HEIGHT; simpl; lia].
Defined.

End LcdDriverPlainFacts.
